(** * Pico y Placa Pasto: restriction calendar and sighting ledger

    A shallow embedding of
    - [Reglas/pico_placa_pasto_2026.py]  (the restriction calendar),
    - [db/db.py]                         (the SQLite ledger),
    - [detector/live_camera.py]          (the camera loop, with its
                                          first-sighting gate and cooldown),
    - [detector/process_video.py]        (the earlier camera loop),
    - [api/main.py]                      ([hoy_reglas], [placa_status]),
    - [chat_qa_pico_placa.py]            ([_info_placa_bd], [_digitos_hoy]),
    - [chatbot/chatbot.py]               ([_proximo_pico_placa])
    and the properties of these that the specification states, followed by
    further properties read off the code.

    Conventions.  Python [str] values are Rocq strings; plates are taken
    over ASCII, where [str.upper] and [str.isdigit] act bytewise.  Python
    [int] is [Z].  A call that may raise returns an [outcome].  The module
    globals of the rules file are the fields of a [Config] record, and
    [pasto] is the record the module actually defines.  [datetime.now()] is
    an explicit clock argument. *)

From stdpp Require Import gmap strings list pretty.
From Stdlib Require Import ZArith Lia Ascii.

Open Scope Z_scope.

(** ** Exceptions *)

Inductive exn :=
| ValueError (msg : string)
| KeyError (key : string)
| OperationalError          (* sqlite3.OperationalError and friends *)
| CvError                   (* cv2.error *)
| NameError (name : string) (* UnboundLocalError is a NameError *)
| OtherError.               (* whatever an external collaborator raises *)

Inductive outcome (A : Type) :=
| Return (a : A)
| Raise (e : exn).
Arguments Return {A} a.
Arguments Raise {A} e.

#[global] Instance outcome_ret : MRet outcome := λ A a, Return a.
#[global] Instance outcome_bind : MBind outcome := λ A B f m,
  match m with
  | Return a => f a
  | Raise e => Raise e
  end.

Definition raised {A} (m : outcome A) : bool :=
  match m with Return _ => false | Raise _ => true end.

(** ** Python's [datetime] module, as far as the program uses it *)

Module Py.

Record date := Date { year : Z; month : Z; day : Z }.
Record time := Time { hour : Z; minute : Z; second : Z; microsecond : Z }.
Record datetime := DateTime { dt_date : date; dt_time : time }.

(** [datetime(y, m, d, H, M, S)] *)
Definition mk_datetime (y m d H M S : Z) : datetime :=
  DateTime (Date y m d) (Time H M S 0).

#[global] Instance date_eq_dec : EqDecision date.
Proof. solve_decision. Defined.
#[global] Instance time_eq_dec : EqDecision time.
Proof. solve_decision. Defined.
#[global] Instance datetime_eq_dec : EqDecision datetime.
Proof. solve_decision. Defined.

#[global] Instance date_countable : Countable date.
Proof.
  refine (inj_countable' (λ d, (year d, month d, day d))
                         (λ t, Date t.1.1 t.1.2 t.2) _).
  by intros [].
Defined.

(** Proleptic Gregorian ordinal, as [datetime._ymd2ord]. *)
Definition _is_leap (y : Z) : bool :=
  (y mod 4 =? 0) && (negb (y mod 100 =? 0) || (y mod 400 =? 0)).

Definition _days_before_year (y : Z) : Z :=
  let y := y - 1 in y * 365 + y / 4 - y / 100 + y / 400.

Definition _DAYS_BEFORE_MONTH : list Z :=
  [-1; 0; 31; 59; 90; 120; 151; 181; 212; 243; 273; 304; 334].

Definition _days_before_month (y m : Z) : Z :=
  default 0 (_DAYS_BEFORE_MONTH !! Z.to_nat m)
  + (if (2 <? m) && _is_leap y then 1 else 0).

Definition toordinal (d : date) : Z :=
  _days_before_year (year d) + _days_before_month (year d) (month d) + day d.

(** [date.weekday()]: Monday is 0, Sunday is 6. *)
Definition weekday (d : date) : Z := (toordinal d + 6) mod 7.

(** [date.strftime("%A")] in the C locale. *)
Definition strftime_A (d : date) : string :=
  default "" (["Monday"; "Tuesday"; "Wednesday"; "Thursday"; "Friday";
               "Saturday"; "Sunday"] !! Z.to_nat (weekday d)).

(** Comparison of the field tuples, as [datetime._cmp] on [_getstate]. *)
Fixpoint _cmp (x y : list Z) : comparison :=
  match x, y with
  | [], [] => Eq
  | [], _ :: _ => Lt
  | _ :: _, [] => Gt
  | a :: x', b :: y' =>
      match a ?= b with
      | Eq => _cmp x' y'
      | c => c
      end
  end.

Definition time_fields (t : time) : list Z :=
  [hour t; minute t; second t; microsecond t].
Definition datetime_fields (t : datetime) : list Z :=
  [year (dt_date t); month (dt_date t); day (dt_date t)] ++ time_fields (dt_time t).

Definition leb_fields (x y : list Z) : bool :=
  match _cmp x y with Gt => false | _ => true end.

(** [a <= b] on [time] and on [datetime] *)
Definition time_le (a b : time) : bool := leb_fields (time_fields a) (time_fields b).
Definition datetime_le (a b : datetime) : bool :=
  leb_fields (datetime_fields a) (datetime_fields b).

(** [a - b] as a [timedelta], in microseconds. *)
Definition to_microseconds (t : datetime) : Z :=
  ((toordinal (dt_date t) * 24 + hour (dt_time t)) * 60 + minute (dt_time t)) * 60000000
  + second (dt_time t) * 1000000 + microsecond (dt_time t).
Definition sub (a b : datetime) : Z := to_microseconds a - to_microseconds b.
Definition timedelta_seconds (s : Z) : Z := s * 1000000.

(** Left padding with zeros, as the [%02d] and [%04d] of [isoformat]. *)
Fixpoint zeros (n : nat) : string :=
  match n with O => "" | S n => String "0" (zeros n) end.
Definition zfill (w : nat) (z : Z) : string :=
  let s := pretty z in zeros (w - String.length s) +:+ s.

(** [str(d)] for a date: [YYYY-MM-DD]. *)
Definition date_str (d : date) : string :=
  zfill 4 (year d) +:+ "-" +:+ zfill 2 (month d) +:+ "-" +:+ zfill 2 (day d).

(** [str(t)] for a time: [HH:MM:SS], with [.ffffff] when there are microseconds. *)
Definition time_str (t : time) : string :=
  zfill 2 (hour t) +:+ ":" +:+ zfill 2 (minute t) +:+ ":" +:+ zfill 2 (second t)
  +:+ (if microsecond t =? 0 then "" else "." +:+ zfill 6 (microsecond t)).

(** [str.upper], [str.isdigit] and [int] on ASCII characters. *)
Definition upper_char (c : ascii) : ascii :=
  let n := nat_of_ascii c in
  if ((97 <=? n) && (n <=? 122))%nat then ascii_of_nat (n - 32) else c.

Fixpoint upper (s : string) : string :=
  match s with
  | EmptyString => EmptyString
  | String c s' => String (upper_char c) (upper s')
  end.

Definition isdigit (c : ascii) : bool :=
  let n := nat_of_ascii c in ((48 <=? n) && (n <=? 57))%nat.

Definition int_of_char (c : ascii) : Z := Z.of_nat (nat_of_ascii c) - 48.

(** [s.replace(c, "")] for a one-character [c]. *)
Fixpoint remove_char (c : ascii) (s : string) : string :=
  match s with
  | EmptyString => EmptyString
  | String a s' => if decide (a = c) then remove_char c s' else String a (remove_char c s')
  end.

End Py.
Import Py.

(** ** Reglas/pico_placa_pasto_2026.py *)

Module Reglas.

Definition DIA_MAP : gmap string string :=
  list_to_map
    [("MONDAY", "LUNES"); ("TUESDAY", "MARTES"); ("WEDNESDAY", "MIERCOLES");
     ("THURSDAY", "JUEVES"); ("FRIDAY", "VIERNES"); ("SATURDAY", "SABADO");
     ("SUNDAY", "DOMINGO")].

(** The globals of the module that the claims vary. *)
Record Config := {
  HORARIO_INICIO : time;
  HORARIO_FIN : time;
  RESTRICCIONES : gmap string (list Z);
  FESTIVOS_2025 : gset date;
  DEMO_MODE : bool;
  DEMO_DATETIME : datetime;
  CALENDARIO_PICO_PLACA_2025 : gmap date (list Z);
}.

(** The globals as the module defines them. *)
Definition pasto : Config := {|
  HORARIO_INICIO := Time 7 30 0 0;
  HORARIO_FIN := Time 19 0 0 0;
  RESTRICCIONES :=
    list_to_map
      [("LUNES", [0; 1]); ("MARTES", [2; 3]); ("MIERCOLES", [4; 5]);
       ("JUEVES", [6; 7]); ("VIERNES", [8; 9])];
  FESTIVOS_2025 :=
    list_to_set
      [Date 2025 1 1; Date 2025 1 6; Date 2025 3 24; Date 2025 4 17;
       Date 2025 4 18; Date 2025 5 1; Date 2025 6 2; Date 2025 6 23;
       Date 2025 6 30; Date 2025 7 20; Date 2025 8 7; Date 2025 8 18;
       Date 2025 10 13; Date 2025 11 3; Date 2025 11 17; Date 2025 12 8;
       Date 2025 12 25];
  DEMO_MODE := false;
  DEMO_DATETIME := mk_datetime 2025 11 12 8 0 0;
  CALENDARIO_PICO_PLACA_2025 :=
    list_to_map
      [(Date 2025 11 18, [2; 3]); (Date 2025 11 19, [4; 5]);
       (Date 2025 11 20, [6; 7]); (Date 2025 11 21, [8; 9]);
       (Date 2025 11 24, [2; 3]); (Date 2025 11 25, [4; 5]);
       (Date 2025 11 26, [6; 7]); (Date 2025 11 27, [8; 9]);
       (Date 2025 11 28, [0; 1]);
       (Date 2025 12 1, [4; 5]); (Date 2025 12 2, [6; 7]);
       (Date 2025 12 3, [8; 9]); (Date 2025 12 4, [0; 1]);
       (Date 2025 12 5, [2; 3]);
       (Date 2025 12 9, [8; 9]); (Date 2025 12 10, [0; 1]);
       (Date 2025 12 11, [2; 3]); (Date 2025 12 12, [4; 5]);
       (Date 2025 12 15, [8; 9]); (Date 2025 12 16, [0; 1])];
|}.

(** The [detalle] dictionary: its one key is ["motivo"]. *)
Record detalle := Detalle { motivo : string }.

#[global] Instance detalle_eq_dec : EqDecision detalle.
Proof. solve_decision. Defined.

Section Rules.

Variable G : Config.

(** [now] is what [datetime.now()] returns at the call. *)
Definition _get_fecha_hora (now : datetime) (fecha_hora : option datetime) : datetime :=
  if DEMO_MODE G then DEMO_DATETIME G
  else match fecha_hora with
       | None => now
       | Some dt => dt
       end.

(** [for ch in s: if ch.isdigit(): return int(ch)] *)
Fixpoint first_digit (s : string) : option Z :=
  match s with
  | EmptyString => None
  | String ch s' => if isdigit ch then Some (int_of_char ch) else first_digit s'
  end.

Definition _ultimo_digito (placa : string) : outcome Z :=
  match first_digit (String.rev (upper placa)) with
  | Some d => Return d
  | None => Raise (ValueError ("Placa inválida: " +:+ placa))
  end.

Definition motivo_sin_restriccion (dia_es : string) (fecha : date) : detalle :=
  Detalle ("El día " +:+ dia_es +:+ " (" +:+ date_str fecha
           +:+ ") NO tiene pico y placa en Pasto.").

Definition motivo_no_puede (placa : string) (ultimo : Z) (dia_es : string) : detalle :=
  Detalle ("La placa " +:+ placa +:+ " termina en " +:+ pretty ultimo +:+ ". "
           +:+ "No puede circular el " +:+ dia_es +:+ " entre "
           +:+ time_str (HORARIO_INICIO G) +:+ " y " +:+ time_str (HORARIO_FIN G) +:+ ".").

Definition motivo_puede (placa : string) (dia_es : string) : detalle :=
  Detalle ("La placa " +:+ placa +:+ " puede circular el " +:+ dia_es +:+ " "
           +:+ "porque está fuera de restricción o fuera del horario.").

Definition puede_circular_pasto (now : datetime) (placa : string)
    (fecha_hora : option datetime) : outcome (bool * detalle) :=
  let fecha_hora := _get_fecha_hora now fecha_hora in
  let fecha := dt_date fecha_hora in
  let hora := dt_time fecha_hora in
  match DIA_MAP !! upper (strftime_A fecha) with
  | None => Raise (KeyError (upper (strftime_A fecha)))
  | Some dia_es =>
      if bool_decide (dia_es ∈ ["SABADO"; "DOMINGO"])
         || bool_decide (fecha ∈ FESTIVOS_2025 G)
      then Return (true, motivo_sin_restriccion dia_es fecha)
      else
        ultimo ← _ultimo_digito placa;
        let restringidos := default [] (RESTRICCIONES G !! dia_es) in
        let restringidos :=
          match CALENDARIO_PICO_PLACA_2025 G !! fecha with
          | Some digitos => digitos
          | None => restringidos
          end in
        let en_horario := time_le (HORARIO_INICIO G) hora && time_le hora (HORARIO_FIN G) in
        if bool_decide (ultimo ∈ restringidos) && en_horario
        then Return (false, motivo_no_puede placa ultimo dia_es)
        else Return (true, motivo_puede placa dia_es)
  end.

End Rules.

End Reglas.
Import Reglas.

(** ** State and exceptions

    A computation on a store [S] that may raise.  The store after a raise
    is the store as the raise left it: what was committed stays. *)

Definition M (S A : Type) : Type := S → S * outcome A.

#[global] Instance M_ret S : MRet (M S) := λ A a s, (s, Return a).
#[global] Instance M_bind S : MBind (M S) := λ A B f m s,
  match m s with
  | (s', Return a) => f a s'
  | (s', Raise e) => (s', Raise e)
  end.

Definition raise {S A} (e : exn) : M S A := λ s, (s, Raise e).
Definition lift {S A} (o : outcome A) : M S A := λ s, (s, o).
Definition get {S} : M S S := λ s, (s, Return s).
Definition modify {S} (f : S → S) : M S unit := λ s, (f s, Return tt).

(** [try: body except Exception as e: handler] *)
Definition try_except {S A} (body : M S A) (handler : exn → M S A) : M S A := λ s,
  match body s with
  | (s', Return a) => (s', Return a)
  | (s', Raise e) => handler e s'
  end.

(** ** db/db.py *)

Module Db.

(** The [vehicles] table, keyed by its primary key [plate].  The timestamp
    columns hold [ts.isoformat()]; the rows here hold [ts] itself. *)
Record VehicleRow := {
  v_color : string;
  first_seen : datetime;
  last_seen : datetime;
}.

Record DetectionRow := {
  d_plate : string;
  d_color : string;
  d_timestamp : datetime;
  d_source : string;
  d_bbox : string;
  d_violation : bool;
  d_reason : string;
  d_photo_path : option string;
}.

Record ViolationRow := {
  x_plate : string;
  x_color : string;
  x_timestamp : datetime;
  x_reason : string;
  x_photo_path : option string;
}.

(** The committed content of the database file.  The two append-only
    tables are in insertion order (their [id] is the position). *)
Record DB := {
  vehicles : gmap string VehicleRow;
  detections : list DetectionRow;
  violations : list ViolationRow;
}.

(** [init_db()] on a fresh file *)
Definition init_db : DB := {| vehicles := ∅; detections := []; violations := [] |}.

(** What SQLite does during one [with get_conn() as c] block. *)
Inductive sqlite_io := io_ok | connect_fails | execute_fails | commit_fails.

#[global] Instance sqlite_io_eq_dec : EqDecision sqlite_io.
Proof. solve_decision. Defined.

(** [get_conn]: the body works on the connection's view of the data; its
    changes reach the file at [conn.commit()], which the body's exception
    skips ([finally] only closes the connection). *)
Definition get_conn {A} (io : sqlite_io) (body : DB → outcome (DB * A)) : M DB A := λ db,
  match io with
  | connect_fails => (db, Raise OperationalError)
  | _ =>
      match body db with
      | Raise e => (db, Raise e)
      | Return (c, a) =>
          match io with
          | commit_fails => (db, Raise OperationalError)
          | _ => (c, Return a)
          end
      end
  end.

(** [c.execute(stmt)] *)
Definition execute (io : sqlite_io) (stmt : DB → DB) (c : DB) : outcome DB :=
  match io with
  | execute_fails => Raise OperationalError
  | _ => Return (stmt c)
  end.

Definition sql_update_vehicle (plate color : string) (ts : datetime) (c : DB) : DB :=
  {| vehicles :=
       alter (λ r, {| v_color := color; first_seen := first_seen r; last_seen := ts |})
             plate (vehicles c);
     detections := detections c;
     violations := violations c |}.

Definition sql_insert_vehicle (plate color : string) (ts : datetime) (c : DB) : DB :=
  {| vehicles := <[plate := {| v_color := color; first_seen := ts; last_seen := ts |}]> (vehicles c);
     detections := detections c;
     violations := violations c |}.

Definition sql_insert_detection (r : DetectionRow) (c : DB) : DB :=
  {| vehicles := vehicles c;
     detections := detections c ++ [r];
     violations := violations c |}.

Definition sql_insert_violation (r : ViolationRow) (c : DB) : DB :=
  {| vehicles := vehicles c;
     detections := detections c;
     violations := violations c ++ [r] |}.

Definition upsert_vehicle (io : sqlite_io) (plate color : string) (ts : datetime) : M DB unit :=
  get_conn io (λ c,
    c ← execute io id c;                      (* SELECT plate FROM vehicles *)
    match vehicles c !! plate with            (* cur.fetchone() *)
    | Some _ => c ← execute io (sql_update_vehicle plate color ts) c; Return (c, tt)
    | None => c ← execute io (sql_insert_vehicle plate color ts) c; Return (c, tt)
    end).

Definition insert_detection (io : sqlite_io) (plate color : string) (ts : datetime)
    (source bbox : string) (violation : bool) (reason : string)
    (photo_path : option string) : M DB unit :=
  get_conn io (λ c,
    c ← execute io (sql_insert_detection
                      {| d_plate := plate; d_color := color; d_timestamp := ts;
                         d_source := source; d_bbox := bbox; d_violation := violation;
                         d_reason := reason; d_photo_path := photo_path |}) c;
    Return (c, tt)).

Definition insert_violation (io : sqlite_io) (plate color : string) (ts : datetime)
    (reason : string) (photo_path : option string) : M DB unit :=
  get_conn io (λ c,
    c ← execute io (sql_insert_violation
                      {| x_plate := plate; x_color := color; x_timestamp := ts;
                         x_reason := reason; x_photo_path := photo_path |}) c;
    Return (c, tt)).

Record PlateStatus := {
  st_plate : string;
  st_color : option string;
  st_first_seen : option datetime;
  st_last_seen : option datetime;
  st_violations : nat;
}.

Definition get_plate_status (io : sqlite_io) (plate : string) : M DB PlateStatus :=
  get_conn io (λ c,
    c ← execute io id c;                      (* SELECT color, first_seen, last_seen *)
    let row := vehicles c !! plate in
    c ← execute io id c;                      (* SELECT COUNT FROM violations *)
    let viol_count := length (filter (λ x, x_plate x = plate) (violations c)) in
    Return (c, {| st_plate := plate;
                  st_color := v_color <$> row;
                  st_first_seen := first_seen <$> row;
                  st_last_seen := last_seen <$> row;
                  st_violations := viol_count |})).

(** The dictionary [registrar_deteccion_y_multa] returns. *)
Record Registro := {
  r_plate : string;
  r_timestamp : datetime;
  es_violacion : bool;
  r_motivo : string;
  detalle_regla : detalle;
}.

(** The three [get_conn] blocks one call goes through. *)
Record RegistrarIO := {
  rio_upsert : sqlite_io;
  rio_detection : sqlite_io;
  rio_violation : sqlite_io;
}.

Definition registrar_deteccion_y_multa (G : Config) (now : datetime) (io : RegistrarIO)
    (plate color : string) (ts : datetime) (source bbox : string)
    (photo_path : option string) : M DB Registro :=
  let norm_plate := remove_char "-" (remove_char " " (upper plate)) in
  '(puede, detalle) ← lift (puede_circular_pasto G now norm_plate (Some ts));
  let motivo := motivo detalle in
  let es_violacion := negb puede in
  upsert_vehicle (rio_upsert io) norm_plate color ts;;
  insert_detection (rio_detection io) norm_plate color ts source bbox
                   es_violacion motivo photo_path;;
  (if es_violacion
   then insert_violation (rio_violation io) norm_plate color ts motivo photo_path
   else mret tt);;
  mret {| r_plate := norm_plate; r_timestamp := ts; es_violacion := es_violacion;
          r_motivo := motivo; detalle_regla := detalle |}.

End Db.
Import Db.

(** ** detector/live_camera.py *)

Module LiveCamera.

(** What one plate box of one frame brings from outside the program: the
    answers of the vision pipeline, the two clock readings, and what
    SQLite and [cv2.imwrite] do when called. *)
Record Sighting := {
  s_ocr : outcome (option string);     (* ocr_placa(plate_crop) *)
  s_color : outcome string;            (* get_vehicle_color(vehicle_crop) *)
  s_ts : datetime;                     (* ts = datetime.now(), per frame *)
  s_now : datetime;                    (* datetime.now() inside puede_circular_pasto *)
  s_bbox : Z * Z * Z * Z;              (* gx1, gy1, gx2, gy2 *)
  s_io_status : sqlite_io;             (* get_plate_status *)
  s_io_upsert : sqlite_io;             (* upsert_vehicle *)
  s_io_violation : sqlite_io;          (* insert_violation *)
  s_io_detection : sqlite_io;          (* insert_detection *)
  s_imwrite : outcome unit;            (* cv2.imwrite(str(photo_path), frame) *)
}.

(** The lines the loop prints. *)
Inductive line :=
| ErrorOCR (e : exn)                   (* "Error en OCR de placa:" *)
| ErrorColor (e : exn)                 (* "Error calculando color:" *)
| ErrorConsultandoEstado (e : exn)     (* "Error consultando estado en BD:" *)
| ErrorGuardandoVehiculo (e : exn)     (* "Error guardando vehículo en BD:" *)
| InfoPrimeraVez (plate : string)      (* "[INFO] Primera vez que se ve la placa ..." *)
| ErrorEvaluando (e : exn)             (* "Error evaluando pico y placa:" *)
| Multa (plate motivo : string)        (* "[MULTA] plate - motivo" *)
| ErrorGuardandoFotomulta (e : exn)    (* "Error guardando fotomulta/violación:" *)
| ErrorGuardandoDeteccion (e : exn)    (* "Error guardando detección en BD:" *)
| ErrorProcesandoPlaca (e : exn).      (* "Error procesando una placa:" *)

#[global] Instance exn_eq_dec : EqDecision exn.
Proof. solve_decision. Defined.
#[global] Instance line_eq_dec : EqDecision line.
Proof. solve_decision. Defined.

(** What the loop carries from one plate box to the next: the database,
    the [cooldown] dictionary, the printed lines, and the function-level
    local [ok], unbound until the rules are first evaluated. *)
Record World := {
  db : DB;
  cooldown : gmap string datetime;
  stdout : list line;
  ok : option bool;
}.

Definition on_db {A} (m : M DB A) : M World A := λ w,
  let '(d, r) := m (db w) in
  ({| db := d; cooldown := cooldown w; stdout := stdout w; ok := ok w |}, r).

Definition print (l : line) : M World unit :=
  modify (λ w, {| db := db w; cooldown := cooldown w; stdout := stdout w ++ [l]; ok := ok w |}).

Definition set_cooldown (plate : string) (ts : datetime) : M World unit :=
  modify (λ w, {| db := db w; cooldown := <[plate := ts]> (cooldown w);
                  stdout := stdout w; ok := ok w |}).

Definition set_ok (b : bool) : M World unit :=
  modify (λ w, {| db := db w; cooldown := cooldown w; stdout := stdout w; ok := Some b |}).

Definition COOLDOWN_SEC : Z := 10.
Definition video_name : string := "<live_camera>".

(** [(not last_t) or (ts - last_t) > timedelta(seconds=COOLDOWN_SEC)] *)
Definition cooldown_permits (last_t : option datetime) (ts : datetime) : bool :=
  match last_t with
  | None => true
  | Some last_t => timedelta_seconds COOLDOWN_SEC <? sub ts last_t
  end.

Definition bbox_str (b : Z * Z * Z * Z) : string :=
  let '(gx1, gy1, gx2, gy2) := b in
  pretty gx1 +:+ "," +:+ pretty gy1 +:+ "," +:+ pretty gx2 +:+ "," +:+ pretty gy2.

(** [FOTOMULTAS_DIR / f"{plate_text}_{ts:%Y%m%d_%H%M%S}.jpg"] *)
Definition fotomulta_path (FOTOMULTAS_DIR plate_text : string) (ts : datetime) : string :=
  FOTOMULTAS_DIR +:+ "/" +:+ plate_text +:+ "_"
  +:+ zfill 4 (year (dt_date ts)) +:+ zfill 2 (month (dt_date ts)) +:+ zfill 2 (day (dt_date ts))
  +:+ "_"
  +:+ zfill 2 (hour (dt_time ts)) +:+ zfill 2 (minute (dt_time ts)) +:+ zfill 2 (second (dt_time ts))
  +:+ ".jpg".

Definition motivo_no_registrado : string :=
  "Vehículo no registrado previamente en la base de datos.".

Definition motivo_violation (violation : bool) (motivo_regla : string) : string :=
  if violation
  then "Infracción por circular en día y horario de pico y placa."
       +:+ (if decide (motivo_regla = "") then "" else " " +:+ motivo_regla)
  else if decide (motivo_regla = "") then "Circulación permitida." else motivo_regla.

Section Loop.

Variable G : Config.
Variable FOTOMULTAS_DIR : string.

(** CASO A: the plate was not in the database. *)
Definition caso_a (e : Sighting) (plate_text color : string) : M World unit :=
  print (InfoPrimeraVez plate_text);;
  try_except
    (on_db (insert_detection (s_io_detection e) plate_text color (s_ts e) video_name
                             (bbox_str (s_bbox e)) false motivo_no_registrado None))
    (λ ex, print (ErrorGuardandoDeteccion ex)).

(** CASO B: the plate was already in the database. *)
Definition caso_b (e : Sighting) (plate_text color : string) : M World unit :=
  let ts := s_ts e in
  '(violation, motivo_regla) ←
    try_except
      ('(ok, detalle) ← lift (puede_circular_pasto G (s_now e) plate_text None);
       set_ok ok;;
       mret (negb ok, motivo detalle))
      (λ ex, print (ErrorEvaluando ex);;
             mret (false, "Error al evaluar pico y placa."));
  let motivo_violation := motivo_violation violation motivo_regla in
  photo_path ←
    (if violation then
       w ← get;
       if cooldown_permits (cooldown w !! plate_text) ts then
         set_cooldown plate_text ts;;
         let photo_path := fotomulta_path FOTOMULTAS_DIR plate_text ts in
         try_except
           (lift (s_imwrite e);;
            on_db (insert_violation (s_io_violation e) plate_text color ts
                                    motivo_violation (Some photo_path));;
            print (Multa plate_text motivo_violation))
           (λ ex, print (ErrorGuardandoFotomulta ex));;
         mret (Some photo_path)
       else mret None
     else mret None);
  try_except
    (on_db (insert_detection (s_io_detection e) plate_text color ts video_name
                             (bbox_str (s_bbox e)) violation motivo_violation photo_path))
    (λ ex, print (ErrorGuardandoDeteccion ex));;
  (* tiene_pico_hoy = not ok *)
  w ← get;
  match ok w with
  | None => raise (NameError "ok")
  | Some _ => mret tt
  end.

(** The body of [for pbox in pr.boxes], from the OCR call on. *)
Definition procesar_placa (e : Sighting) : M World unit :=
  try_except
    (plate_text ← try_except (lift (s_ocr e))
                             (λ ex, print (ErrorOCR ex);; mret None);
     match plate_text with
     | None => mret tt
     | Some plate_text =>
         if decide (plate_text = "") then mret tt
         else if negb (String.length plate_text =? 6)%nat then mret tt
         else
           color ← try_except (lift (s_color e))
                              (λ ex, print (ErrorColor ex);; mret "desconocido");
           registered_before ←
             try_except
               (st ← on_db (get_plate_status (s_io_status e) plate_text);
                mret (bool_decide (is_Some (st_first_seen st))))
               (λ ex, print (ErrorConsultandoEstado ex);; mret false);
           try_except
             (on_db (upsert_vehicle (s_io_upsert e) plate_text color (s_ts e)))
             (λ ex, print (ErrorGuardandoVehiculo ex));;
           if negb registered_before
           then caso_a e plate_text color
           else caso_b e plate_text color
     end)
    (λ ex, print (ErrorProcesandoPlaca ex)).

(** The camera loop over the plate boxes it meets, in order. *)
Fixpoint live_camera (es : list Sighting) : M World unit :=
  match es with
  | [] => mret tt
  | e :: es => procesar_placa e;; live_camera es
  end.

End Loop.

(** The state the loop starts in, on a database [d]. *)
Definition start (d : DB) : World :=
  {| db := d; cooldown := ∅; stdout := []; ok := None |}.

End LiveCamera.
Import LiveCamera.

(** ** detector/process_video.py *)

Module ProcessVideo.

Record Sighting := {
  s_ocr : outcome (option string);
  s_color : outcome string;
  s_ts : datetime;
  s_bbox : Z * Z * Z * Z;
  s_io_upsert : sqlite_io;
  s_io_violation : sqlite_io;
  s_io_detection : sqlite_io;
}.

Record World := {
  db : DB;
  cooldown : gmap string datetime;
}.

Definition on_db {A} (m : M DB A) : M World A := λ w,
  let '(d, r) := m (db w) in ({| db := d; cooldown := cooldown w |}, r).

Definition set_cooldown (plate : string) (ts : datetime) : M World unit :=
  modify (λ w, {| db := db w; cooldown := <[plate := ts]> (cooldown w) |}).

(** [(not last_t) or ((ts - last_t).total_seconds() > COOLDOWN_SEC)] *)
Definition cooldown_permits (last_t : option datetime) (ts : datetime) : bool :=
  match last_t with
  | None => true
  | Some last_t => timedelta_seconds COOLDOWN_SEC <? sub ts last_t
  end.

(** [cv2.imwrite] with the file name alone: the image argument is missing. *)
Definition imwrite_sin_imagen : M World unit := raise CvError.

Section Loop.

Variable G : Config.
Variable FOTOMULTAS_DIR : string.

(** The body of [for pbox in pr.boxes], from the OCR call on.  Nothing is
    caught here; [cv2.imwrite] is called without its image and raises. *)
Definition procesar_placa (e : Sighting) : M World unit :=
  plate_text ← lift (s_ocr e);
  match plate_text with
  | None => mret tt
  | Some plate_text =>
      if decide (plate_text = "") then mret tt
      else
        let ts := s_ts e in
        color ← lift (s_color e);
        '(ok, detalle) ← lift (puede_circular_pasto G ts plate_text (Some ts));
        let violation := negb ok in
        let motivo := motivo detalle in
        on_db (upsert_vehicle (s_io_upsert e) plate_text color ts);;
        photo_path ←
          (if violation then
             w ← get;
             if cooldown_permits (cooldown w !! plate_text) ts then
               set_cooldown plate_text ts;;
               let photo_path := fotomulta_path FOTOMULTAS_DIR plate_text ts in
               imwrite_sin_imagen;;          (* cv2.imwrite(str(photo_path)) *)
               on_db (insert_violation (s_io_violation e) plate_text color ts
                                       motivo (Some photo_path));;
               mret (Some photo_path)
             else mret None
           else mret None);
        on_db (insert_detection (s_io_detection e) plate_text color ts video_name
                                (bbox_str (s_bbox e)) violation motivo photo_path)
  end.

End Loop.

End ProcessVideo.

(** ** More of Python, for the callers of the rules and of the ledger *)

Module PyMore.

(** [datetime.isoformat()] *)
Definition datetime_isoformat (t : datetime) : string :=
  date_str (dt_date t) +:+ "T" +:+ time_str (dt_time t).

(** [t.strftime('%H:%M')] *)
Definition strftime_HM (t : time) : string :=
  zfill 2 (hour t) +:+ ":" +:+ zfill 2 (minute t).

(** [", ".join(str(d) for d in l)] *)
Fixpoint join_ints (l : list Z) : string :=
  match l with
  | [] => ""
  | [d] => pretty d
  | d :: l' => pretty d +:+ ", " +:+ join_ints l'
  end.

(** [str(l)] for a list of integers *)
Definition list_str (l : list Z) : string := "[" +:+ join_ints l +:+ "]".

(** [a < b] on [time] *)
Definition time_ltb (a b : time) : bool :=
  match _cmp (time_fields a) (time_fields b) with Lt => true | _ => false end.

(** [str(x)] for an integer or [None] *)
Definition option_int_str (x : option Z) : string :=
  match x with
  | Some d => pretty d
  | None => "None"
  end.

Definition _DI400Y : Z := 146097.
Definition _DI100Y : Z := 36524.
Definition _DI4Y : Z := 1461.
Definition _MAXORDINAL : Z := 3652059.

Definition _DAYS_IN_MONTH : list Z :=
  [-1; 31; 28; 31; 30; 31; 30; 31; 31; 30; 31; 30; 31].

(** [datetime._ord2ymd], the date of a proleptic Gregorian ordinal *)
Definition _ord2ymd (n : Z) : date :=
  let n := n - 1 in
  let n400 := n / _DI400Y in
  let n := n mod _DI400Y in
  let y := n400 * 400 + 1 in
  let n100 := n / _DI100Y in
  let n := n mod _DI100Y in
  let n4 := n / _DI4Y in
  let n := n mod _DI4Y in
  let n1 := n / 365 in
  let n := n mod 365 in
  let y := y + n100 * 100 + n4 * 4 + n1 in
  if (n1 =? 4) || (n100 =? 4) then Date (y - 1) 12 31
  else
    let leapyear := (n1 =? 3) && (negb (n4 =? 24) || (n100 =? 3)) in
    let m := Z.shiftr (n + 50) 5 in
    let preceding :=
      default 0 (_DAYS_BEFORE_MONTH !! Z.to_nat m)
      + (if (2 <? m) && leapyear then 1 else 0) in
    if n <? preceding then
      let m := m - 1 in
      let preceding :=
        preceding - (default 0 (_DAYS_IN_MONTH !! Z.to_nat m)
                     + (if (m =? 2) && leapyear then 1 else 0)) in
      Date y m (n - preceding + 1)
    else Date y m (n - preceding + 1).

(** What date arithmetic raises outside [date.min .. date.max]. *)
Inductive overflow := OverflowError.

(** [d + timedelta(days=k)] *)
Definition date_add_days (d : date) (k : Z) : overflow + date :=
  let o := toordinal d + k in
  if (0 <? o) && (o <=? _MAXORDINAL) then inr (_ord2ymd o)
  else inl OverflowError.

End PyMore.
Import PyMore.

(** ** api/main.py *)

Module Api.

Section Endpoints.

Variable G : Config.

(** [_now()]; [now] is what [datetime.now()] returns at the call. *)
Definition _now (now : datetime) : datetime :=
  if DEMO_MODE G then DEMO_DATETIME G else now.

Definition _fallback_dias : gmap string string :=
  list_to_map
    [("MONDAY", "LUNES"); ("TUESDAY", "MARTES"); ("WEDNESDAY", "MIERCOLES");
     ("THURSDAY", "JUEVES"); ("FRIDAY", "VIERNES"); ("SATURDAY", "SABADO");
     ("SUNDAY", "DOMINGO")].

(** The lines that [hoy_reglas] and [placa_status] both have: the day name
    of [DIA_MAP], with the fallback when it is not a key of
    [RESTRICCIONES]. *)
Definition dia_con_fallback (fecha : date) : string :=
  let dia_py := upper (strftime_A fecha) in
  let dia_es := default dia_py (DIA_MAP !! dia_py) in
  if bool_decide (is_Some (RESTRICCIONES G !! dia_es)) then dia_es
  else default dia_es (_fallback_dias !! dia_py).

Record HoyReglas := {
  hr_fecha : string;
  hr_dia : string;
  hr_es_festivo : bool;
  hr_aplica_pico_placa : bool;
  hr_digitos_restringidos : list Z;
  hr_horario_inicio : option string;
  hr_horario_fin : option string;
  hr_mensaje : string;
}.

Definition hoy_reglas (now : datetime) : HoyReglas :=
  let now := _now now in
  let fecha := dt_date now in
  let dia_es := dia_con_fallback fecha in
  let es_fin_de_semana := bool_decide (dia_es ∈ ["SABADO"; "DOMINGO"]) in
  let es_festivo := bool_decide (fecha ∈ FESTIVOS_2025 G) in
  if es_fin_de_semana || es_festivo then
    {| hr_fecha := date_str fecha; hr_dia := dia_es; hr_es_festivo := es_festivo;
       hr_aplica_pico_placa := false; hr_digitos_restringidos := [];
       hr_horario_inicio := None; hr_horario_fin := None;
       hr_mensaje := "Hoy no aplica pico y placa en Pasto (fin de semana o festivo)." |}
  else
    let digitos := default [] (RESTRICCIONES G !! dia_es) in
    let msg :=
      match digitos with
      | [] => "Hoy es " +:+ dia_es +:+ " y no hay dígitos restringidos configurados."
      | _ => "Hoy es " +:+ dia_es +:+ ". Tienen pico y placa las placas que terminan en "
             +:+ list_str digitos +:+ " entre " +:+ strftime_HM (HORARIO_INICIO G)
             +:+ " y " +:+ strftime_HM (HORARIO_FIN G) +:+ "."
      end in
    {| hr_fecha := date_str fecha; hr_dia := dia_es; hr_es_festivo := es_festivo;
       hr_aplica_pico_placa := match digitos with [] => false | _ => true end;
       hr_digitos_restringidos := digitos;
       hr_horario_inicio := Some (strftime_HM (HORARIO_INICIO G));
       hr_horario_fin := Some (strftime_HM (HORARIO_FIN G));
       hr_mensaje := msg |}.

(** [_ultimo_digito_local]; [_ultimo_digito] of chat_qa_pico_placa.py and of
    chatbot/chatbot.py are the same lines. *)
Definition _ultimo_digito_local (placa : string) : option Z :=
  first_digit (String.rev (upper placa)).

(** What [placa_status] returns: the short answer for a plate the ledger
    does not know, or the status with the fields it adds. *)
Inductive PlacaStatus :=
| NoRegistrada (plate mensaje : string)
| Registrada (st : PlateStatus) (detectada : bool) (consulta : string)
    (puede_circular_hoy tiene_pico_hoy : bool) (motivo mensaje_horario : string)
    (en_infraccion : bool).

(** [f"{base} Detalle: {motivo_regla}" if motivo_regla else base] *)
Definition con_detalle (base : string) (motivo_regla : option string) : string :=
  match motivo_regla with
  | Some m => base +:+ " Detalle: " +:+ m
  | None => base
  end.

(** [io] is what SQLite does during [get_plate_status]; [clock] is what
    [datetime.now()] returns. *)
Definition placa_status (io : sqlite_io) (clock : datetime) (plate : string)
    : M DB PlacaStatus :=
  let plate_up := upper plate in
  st ← get_plate_status io plate_up;
  if bool_decide (st_first_seen st = None) && bool_decide (st_last_seen st = None)
     && bool_decide (st_violations st = 0%nat)
  then mret (NoRegistrada plate_up
               "La placa no está registrada en la base de datos (nunca ha sido detectada por el sistema).")
  else
    let detectada := bool_decide (is_Some (st_last_seen st)) in
    let st := {| st_plate := st_plate st;
                 st_color := match st_color st with
                             | None => Some "DESCONOCIDO"
                             | Some c => Some c
                             end;
                 st_first_seen := st_first_seen st;
                 st_last_seen := st_last_seen st;
                 st_violations := st_violations st |} in
    let now := _now clock in
    '(ok, detalle) ← lift (puede_circular_pasto G clock plate_up (Some now));
    let fecha := dt_date now in
    let hora_time := dt_time now in
    let dia_es := dia_con_fallback fecha in
    let ultimo := _ultimo_digito_local plate_up in
    let restringidos := default [] (RESTRICCIONES G !! dia_es) in
    let es_fin_de_semana := bool_decide (dia_es ∈ ["SABADO"; "DOMINGO"]) in
    let es_festivo := bool_decide (fecha ∈ FESTIVOS_2025 G) in
    let tiene_pico_hoy :=
      negb es_fin_de_semana && negb es_festivo
      && match ultimo with
         | Some u => bool_decide (u ∈ restringidos)
         | None => false
         end in
    let motivo_regla :=
      if decide (motivo detalle = "") then None else Some (motivo detalle) in
    let inicio := strftime_HM (HORARIO_INICIO G) in
    let fin := strftime_HM (HORARIO_FIN G) in
    let '(mensaje_horario, en_infraccion) :=
      if negb tiene_pico_hoy then
        ("Hoy no tienes pico y placa, circula con tranquilidad.", false)
      else if time_ltb hora_time (HORARIO_INICIO G) then
        (con_detalle
           ("Hoy tienes pico y placa, pero la restricción aún no empieza. "
            +:+ "El horario va de " +:+ inicio +:+ " a " +:+ fin +:+ ".")
           motivo_regla, false)
      else if time_ltb (HORARIO_FIN G) hora_time then
        (con_detalle
           ("Hoy estabas de pico y placa, pero la restricción ya terminó "
            +:+ "porque son después de las " +:+ fin +:+ ".")
           motivo_regla, false)
      else if detectada then
        (con_detalle
           ("En este momento estás en horario de pico y placa y el vehículo "
            +:+ "ha sido detectado circulando: estás violando la normativa de pico y placa.")
           motivo_regla, true)
      else
        (con_detalle
           ("En este momento estás en horario de pico y placa. "
            +:+ "Si el vehículo circula, estaría violando la normativa de pico y placa.")
           motivo_regla, false) in
    let motivo_pico :=
      if tiene_pico_hoy then
        "Hoy la placa " +:+ plate_up +:+ " TIENE pico y placa "
        +:+ "(último dígito " +:+ option_int_str ultimo +:+ "). No puede circular entre "
        +:+ inicio +:+ " y " +:+ fin +:+ "."
      else if es_fin_de_semana || es_festivo then
        "Hoy no aplica pico y placa porque es fin de semana o festivo."
      else
        "Hoy la placa " +:+ plate_up +:+ " NO tiene pico y placa "
        +:+ "(último dígito " +:+ option_int_str ultimo +:+ ")." in
    mret (Registrada st detectada (datetime_isoformat now) ok tiene_pico_hoy
            motivo_pico mensaje_horario en_infraccion).

End Endpoints.

End Api.

(** ** chat_qa_pico_placa.py *)

Module ChatQa.

Section Helpers.

Variable G : Config.

Definition _now (now : datetime) : datetime :=
  if DEMO_MODE G then DEMO_DATETIME G else now.

(** [_info_placa_bd]: [None] when the plate has never been seen. *)
Definition _info_placa_bd (io : sqlite_io) (placa : string) : M DB (option PlateStatus) :=
  st ← get_plate_status io (upper placa);
  if bool_decide (st_first_seen st = None) && bool_decide (st_last_seen st = None)
     && bool_decide (st_violations st = 0%nat)
  then mret None
  else
    mret (Some {| st_plate := st_plate st;
                  st_color := match st_color st with
                              | None => Some "DESCONOCIDO"
                              | Some c => Some c
                              end;
                  st_first_seen := st_first_seen st;
                  st_last_seen := st_last_seen st;
                  st_violations := st_violations st |}).

Record DigitosHoy := {
  dh_respuesta : string;
  dh_tipo : string;
  dh_fecha : string;
  dh_dia : string;
  dh_digitos_restringidos : list Z;
  dh_es_fin_de_semana : bool;
  dh_es_festivo : bool;
}.

Definition _digitos_hoy (now : datetime) : DigitosHoy :=
  let now := _now now in
  let fecha := dt_date now in
  let dia_py := upper (strftime_A fecha) in
  let dia_es := default dia_py (DIA_MAP !! dia_py) in
  let es_fin_de_semana := bool_decide (dia_es ∈ ["SABADO"; "DOMINGO"]) in
  let es_festivo := bool_decide (fecha ∈ FESTIVOS_2025 G) in
  if es_fin_de_semana || es_festivo then
    {| dh_respuesta :=
         "Hoy es " +:+ dia_es +:+ " (" +:+ date_str fecha
         +:+ ") y NO aplica pico y placa en Pasto "
         +:+ "porque es fin de semana o festivo.";
       dh_tipo := "digitos_hoy_sin_restriccion";
       dh_fecha := date_str fecha; dh_dia := dia_es;
       dh_digitos_restringidos := [];
       dh_es_fin_de_semana := es_fin_de_semana; dh_es_festivo := es_festivo |}
  else
    let digitos := default [] (RESTRICCIONES G !! dia_es) in
    let texto :=
      match digitos with
      | [] => "Hoy es " +:+ dia_es +:+ " (" +:+ date_str fecha
              +:+ ") y no hay dígitos configurados con pico y placa."
      | _ => "Hoy es " +:+ dia_es +:+ " (" +:+ date_str fecha
             +:+ "). Tienen pico y placa las placas cuyo "
             +:+ "último dígito es: " +:+ join_ints digitos +:+ ", entre "
             +:+ strftime_HM (HORARIO_INICIO G) +:+ " y "
             +:+ strftime_HM (HORARIO_FIN G) +:+ "."
      end in
    {| dh_respuesta := texto; dh_tipo := "digitos_hoy";
       dh_fecha := date_str fecha; dh_dia := dia_es;
       dh_digitos_restringidos := digitos;
       dh_es_fin_de_semana := es_fin_de_semana; dh_es_festivo := es_festivo |}.

End Helpers.

End ChatQa.

(** ** chatbot/chatbot.py *)

Module Chatbot.

Section Helpers.

Variable G : Config.

(** The body of [for offset in range(...)] of [_proximo_pico_placa], over
    the offsets that are left. *)
Fixpoint buscar_proximo (ultimo_digito : Z) (fecha_base : date) (offsets : list Z)
    : overflow + option (date * string) :=
  match offsets with
  | [] => inr None
  | offset :: offsets =>
      match date_add_days fecha_base offset with
      | inl e => inl e
      | inr dia =>
          let dia_py := upper (strftime_A dia) in
          let dia_es := default dia_py (DIA_MAP !! dia_py) in
          if bool_decide (dia_es ∈ ["SABADO"; "DOMINGO"])
             || bool_decide (dia ∈ FESTIVOS_2025 G)
          then buscar_proximo ultimo_digito fecha_base offsets
          else
            let restringidos := default [] (RESTRICCIONES G !! dia_es) in
            if bool_decide (ultimo_digito ∈ restringidos)
            then inr (Some (dia, dia_es))
            else buscar_proximo ultimo_digito fecha_base offsets
      end
  end.

(** [range(start, 15)] *)
Definition offsets_desde (start : nat) : list Z :=
  Z.of_nat <$> seq start (15 - start).

Definition _proximo_pico_placa (ultimo_digito : option Z) (desde : datetime)
    (incluir_hoy : bool) : overflow + option (date * string) :=
  match ultimo_digito with
  | None => inr None
  | Some ultimo_digito =>
      let fecha_base := dt_date desde in
      let start_offset := if incluir_hoy then 0%nat else 1%nat in
      buscar_proximo ultimo_digito fecha_base (offsets_desde start_offset)
  end.

End Helpers.

End Chatbot.

(** * The vocabulary of the properties *)

(** ** Dates and times *)

(** [a < b] on [time] *)
Definition time_lt (a b : time) : bool := negb (time_le b a).

(** ** The calendar *)

Section CalendarTerms.

Variable G : Config.

(** The Spanish day name [DIA_MAP] gives for a date. *)
Definition dia_semana (fecha : date) : string :=
  default "" (["LUNES"; "MARTES"; "MIERCOLES"; "JUEVES"; "VIERNES";
               "SABADO"; "DOMINGO"] !! Z.to_nat (weekday fecha)).

(** Saturday, Sunday or a holiday. *)
Definition exento (fecha : date) : Prop :=
  weekday fecha = 5 ∨ weekday fecha = 6 ∨ fecha ∈ FESTIVOS_2025 G.

(** The digits restricted on a date, in the words of the specification:
    the override entry if there is one, else the default of the weekday. *)
Definition digitos_del_dia (fecha : date) : list Z :=
  match CALENDARIO_PICO_PLACA_2025 G !! fecha with
  | Some digitos => digitos
  | None => default [] (RESTRICCIONES G !! dia_semana fecha)
  end.

Definition en_horario (hora : time) : bool :=
  time_le (HORARIO_INICIO G) hora && time_le hora (HORARIO_FIN G).

(** Some character of the plate is a decimal digit. *)
Fixpoint tiene_digito (s : string) : bool :=
  match s with
  | EmptyString => false
  | String c s' => isdigit c || tiene_digito s'
  end.

End CalendarTerms.

(** The module's globals with [DEMO_MODE = True]. *)
Definition pasto_demo : Config := {|
  HORARIO_INICIO := HORARIO_INICIO pasto;
  HORARIO_FIN := HORARIO_FIN pasto;
  RESTRICCIONES := RESTRICCIONES pasto;
  FESTIVOS_2025 := FESTIVOS_2025 pasto;
  DEMO_MODE := true;
  DEMO_DATETIME := DEMO_DATETIME pasto;
  CALENDARIO_PICO_PLACA_2025 := CALENDARIO_PICO_PLACA_2025 pasto;
|}.

(** The module's globals with one more entry in the override calendar. *)
Definition con_override (G : Config) (fecha : date) (digitos : list Z) : Config := {|
  HORARIO_INICIO := HORARIO_INICIO G;
  HORARIO_FIN := HORARIO_FIN G;
  RESTRICCIONES := RESTRICCIONES G;
  FESTIVOS_2025 := FESTIVOS_2025 G;
  DEMO_MODE := DEMO_MODE G;
  DEMO_DATETIME := DEMO_DATETIME G;
  CALENDARIO_PICO_PLACA_2025 := <[fecha := digitos]> (CALENDARIO_PICO_PLACA_2025 G);
|}.

(** A clock reading for the calls that pass their own date. *)
Definition reloj : datetime := mk_datetime 2025 11 12 10 0 0.

(** ** The ledger *)

(** One call of [upsert_vehicle], with what SQLite does during it. *)
Record UpsertCall := {
  u_io : sqlite_io;
  u_plate : string;
  u_color : string;
  u_ts : datetime;
}.

Definition upsert_call (u : UpsertCall) (d : DB) : DB :=
  (upsert_vehicle (u_io u) (u_plate u) (u_color u) (u_ts u) d).1.

Fixpoint upserts (us : list UpsertCall) (d : DB) : DB :=
  match us with
  | [] => d
  | u :: us => upserts us (upsert_call u d)
  end.

(** [first_seen <= last_seen] on every row. *)
Definition first_le_last (d : DB) : Prop :=
  ∀ p r, vehicles d !! p = Some r → datetime_le (first_seen r) (last_seen r) = true.

(** No call carries a timestamp earlier than the [last_seen] its row has
    when the call is made. *)
Fixpoint en_orden (us : list UpsertCall) (d : DB) : Prop :=
  match us with
  | [] => True
  | u :: us =>
      (∀ r, vehicles d !! u_plate u = Some r → datetime_le (last_seen r) (u_ts u) = true)
      ∧ en_orden us (upsert_call u d)
  end.

(** The rows of one plate in the two append-only tables. *)
Definition violaciones_de (p : string) (d : DB) : list ViolationRow :=
  filter (λ x, x_plate x = p) (violations d).

Definition detecciones_de (p : string) (d : DB) : list DetectionRow :=
  filter (λ r, d_plate r = p) (detections d).

(** ** The camera loop *)

Section LoopTerms.

Variable G : Config.
Variable FOTOMULTAS_DIR : string.

(** The lines a caught exception leaves on the output. *)
Definition lineas {A} (l : exn → line) (r : outcome A) : list line :=
  match r with
  | Return _ => []
  | Raise ex => [l ex]
  end.

(** The plate the OCR filter lets through: six characters. *)
Definition placa_leida (e : Sighting) : option string :=
  match s_ocr e with
  | Return (Some p) =>
      if decide (p = "") then None
      else if (String.length p =? 6)%nat then Some p else None
  | _ => None
  end.

Definition color_leido (e : Sighting) : string :=
  match s_color e with
  | Return c => c
  | Raise _ => "desconocido"
  end.

(** [registered_before] *)
Definition registrada (e : Sighting) (p : string) (d : DB) : bool :=
  bool_decide (s_io_status e = io_ok) && bool_decide (is_Some (vehicles d !! p)).

(** [violation] and [motivo_regla] *)
Definition veredicto (e : Sighting) (p : string) : bool * string :=
  match puede_circular_pasto G (s_now e) p None with
  | Return (ok, det) => (negb ok, motivo det)
  | Raise _ => (false, "Error al evaluar pico y placa.")
  end.

(** The cooldown lets a violation of [p] at [s_ts e] be persisted. *)
Definition permitida (e : Sighting) (p : string) (w : World) : bool :=
  (veredicto e p).1 && cooldown_permits (cooldown w !! p) (s_ts e).

Definition foto (e : Sighting) (p : string) (w : World) : option string :=
  if permitida e p w then Some (fotomulta_path FOTOMULTAS_DIR p (s_ts e)) else None.

(** The violation block of CASO B, run on the database [d]. *)
Definition bloque_violacion (e : Sighting) (p : string) (w : World) (d : DB)
    : DB * outcome unit :=
  if permitida e p w then
    match s_imwrite e with
    | Raise ex => (d, Raise ex)
    | Return _ =>
        insert_violation (s_io_violation e) p (color_leido e) (s_ts e)
          (motivo_violation (veredicto e p).1 (veredicto e p).2) (foto e p w) d
    end
  else (d, Return tt).

Definition lineas_violacion (e : Sighting) (p : string) (w : World)
    (r : outcome unit) : list line :=
  if permitida e p w then
    match r with
    | Return _ => [Multa p (motivo_violation (veredicto e p).1 (veredicto e p).2)]
    | Raise ex => [ErrorGuardandoFotomulta ex]
    end
  else [].

(** The state when the two cases part: the vehicle row is written (or the
    write has failed and is reported), nothing else has changed. *)
Definition tras_upsert (e : Sighting) (p : string) (w : World) : World :=
  let ru := upsert_vehicle (s_io_upsert e) p (color_leido e) (s_ts e) (db w) in
  {| db := ru.1; cooldown := cooldown w;
     stdout := stdout w ++ lineas ErrorColor (s_color e)
               ++ lineas ErrorConsultandoEstado (get_plate_status (s_io_status e) p (db w)).2
               ++ lineas ErrorGuardandoVehiculo ru.2;
     ok := ok w |}.

(** The rows CASO B writes for the plate [p]. *)
Definition fila_violacion (e : Sighting) (p : string) (w : World) : ViolationRow :=
  {| x_plate := p; x_color := color_leido e; x_timestamp := s_ts e;
     x_reason := motivo_violation (veredicto e p).1 (veredicto e p).2;
     x_photo_path := foto e p w |}.

Definition fila_deteccion (e : Sighting) (p : string) (w : World) : DetectionRow :=
  {| d_plate := p; d_color := color_leido e; d_timestamp := s_ts e;
     d_source := video_name; d_bbox := bbox_str (s_bbox e);
     d_violation := (veredicto e p).1;
     d_reason := motivo_violation (veredicto e p).1 (veredicto e p).2;
     d_photo_path := foto e p w |}.

(** The violation row reaches the table: the cooldown permits it, the
    photo is written and the insert commits. *)
Definition violacion_persistida (e : Sighting) (p : string) (w : World) : bool :=
  permitida e p w && negb (raised (s_imwrite e))
  && bool_decide (s_io_violation e = io_ok).

End LoopTerms.

(** Every violation row has a detection row of the same plate and
    timestamp with [violation = True]. *)
Definition emparejada (d : DB) : Prop :=
  ∀ x, x ∈ violations d →
    ∃ r, r ∈ detections d ∧ d_plate r = x_plate x
         ∧ d_timestamp r = x_timestamp x ∧ d_violation r = true.

(** ** Example inputs *)

Definition placa_ejemplo : string := "ABC120".

(** Two upserts of one plate, the second with the earlier timestamp. *)
Definition upserts_desordenados : list UpsertCall :=
  [ {| u_io := io_ok; u_plate := placa_ejemplo; u_color := "rojo";
       u_ts := mk_datetime 2025 11 10 10 0 0 |};
    {| u_io := io_ok; u_plate := placa_ejemplo; u_color := "rojo";
       u_ts := mk_datetime 2025 11 10 9 0 0 |} ].

Definition upserts_ordenados : list UpsertCall :=
  [ {| u_io := io_ok; u_plate := placa_ejemplo; u_color := "rojo";
       u_ts := mk_datetime 2025 11 10 9 0 0 |};
    {| u_io := io_ok; u_plate := placa_ejemplo; u_color := "azul";
       u_ts := mk_datetime 2025 11 10 10 0 0 |} ].

(** Monday 10 November 2025, inside the window; plates ending in 0 and 1
    are restricted and the date has no override. *)
Definition lunes (H M S : Z) : datetime := mk_datetime 2025 11 10 H M S.

(** A plate box read as [placa], red, at [ts], with the given answers of
    the violation write and of the detection write; everything else works. *)
Definition avistamiento_de (placa : string) (ts : datetime)
    (io_violation io_detection : sqlite_io) : Sighting := {|
  s_ocr := Return (Some placa);
  s_color := Return "rojo";
  s_ts := ts;
  s_now := ts;
  s_bbox := (10, 20, 110, 60);
  s_io_status := io_ok;
  s_io_upsert := io_ok;
  s_io_violation := io_violation;
  s_io_detection := io_detection;
  s_imwrite := Return tt;
|}.

Definition avistamiento : datetime → sqlite_io → sqlite_io → Sighting :=
  avistamiento_de placa_ejemplo.

Definition sin_fallos : RegistrarIO :=
  {| rio_upsert := io_ok; rio_detection := io_ok; rio_violation := io_ok |}.

(** The database after [ABC120] has been seen once by the camera loop. *)
Definition db_conocida : DB :=
  db (procesar_placa pasto "fotomultas" (avistamiento (lunes 7 0 0) io_ok io_ok)
        (start init_db)).1.

(** ** Vocabulary of the further properties *)

(** The value under a [Return], for statements about a part of a result. *)
#[global] Instance outcome_fmap : FMap outcome := λ A B f m,
  match m with
  | Return a => Return (f a)
  | Raise e => Raise e
  end.

(** The last decimal digit of a string, found reading from the left. *)
Fixpoint last_digit (s : string) : option Z :=
  match s with
  | EmptyString => None
  | String c s' =>
      match last_digit s' with
      | Some d => Some d
      | None => if isdigit c then Some (int_of_char c) else None
      end
  end.

(** [plate.upper().replace(" ", "").replace("-", "")] *)
Definition norm_plate (plate : string) : string :=
  remove_char "-" (remove_char " " (upper plate)).

(** What [get_plate_status] answers when SQLite works. *)
Definition estado (plate : string) (d : DB) : outcome PlateStatus :=
  (get_plate_status io_ok plate d).2.

(** Each row is more than the cooldown after the one before it, and the
    first is more than the cooldown after [desde]. *)
Fixpoint espaciadas (desde : option datetime) (l : list ViolationRow) : Prop :=
  match l with
  | [] => True
  | x :: l' =>
      match desde with
      | None => True
      | Some t => timedelta_seconds COOLDOWN_SEC < sub (x_timestamp x) t
      end
      ∧ espaciadas (Some (x_timestamp x)) l'
  end.

(** The plate text the OCR gave is kept by the filter of the camera loop. *)
Definition pasa_filtro (e : Sighting) : bool :=
  match s_ocr e with
  | Return (Some p) => negb (bool_decide (p = "")) && (String.length p =? 6)%nat
  | _ => false
  end.

(** ** Vocabulary of the properties of the callers *)

(** The digits the weekday table [RESTRICCIONES] has for a date. *)
Definition tabla_semanal (G : Config) (fecha : date) : list Z :=
  default [] (RESTRICCIONES G !! dia_semana fecha).

(** The answer of [placa_status] for a plate the ledger does not know. *)
Definition es_no_registrada (r : outcome Api.PlacaStatus) : bool :=
  match r with
  | Return (Api.NoRegistrada _ _) => true
  | _ => false
  end.

(** Friday 28 November 2025, 08:00: the override calendar has [0, 1] for
    the date, the weekday table has [8, 9]. *)
Definition viernes_con_override : datetime := mk_datetime 2025 11 28 8 0 0.

(** The ledger has a vehicle row or a violation row for the plate. *)
Definition conocida (p : string) (d : DB) : Prop :=
  is_Some (vehicles d !! p) ∨ violaciones_de p d ≠ [].

(** The test of [tiene_pico_hoy] in [placa_status], for a plate and a date. *)
Definition pico_segun_tabla (G : Config) (placa : string) (fecha : date) : bool :=
  negb (bool_decide (dia_semana fecha ∈ ["SABADO"; "DOMINGO"])
        || bool_decide (fecha ∈ FESTIVOS_2025 G))
  && match last_digit placa with
     | Some u => bool_decide (u ∈ tabla_semanal G fecha)
     | None => false
     end.

(** A working day whose weekday table holds the digit. *)
Definition dia_de_pico (G : Config) (u : Z) (dia : date) : Prop :=
  ¬ exento G dia ∧ u ∈ tabla_semanal G dia.

(** The same date, [q] cycles of 400 years later. *)
Definition mas_ciclos (q : Z) (d : date) : date :=
  Date (year d + 400 * q) (month d) (day d).

(** Sunday 22 June 2025: the two Mondays that follow are holidays. *)
Definition domingo_de_junio : datetime := mk_datetime 2025 6 22 9 0 0.

(** * Properties *)

(** ** Dates and times *)

Lemma weekday_range d : 0 ≤ weekday d < 7.
Proof. unfold weekday. apply Z.mod_pos_bound. lia. Qed.

Lemma _cmp_refl x : _cmp x x = Eq.
Proof. induction x as [|a x IH]; simpl; [done|]. by rewrite Z.compare_refl. Qed.

Lemma leb_fields_refl x : leb_fields x x = true.
Proof. unfold leb_fields. by rewrite _cmp_refl. Qed.

Lemma leb_fields_trans x y z :
  leb_fields x y = true → leb_fields y z = true → leb_fields x z = true.
Proof.
  unfold leb_fields. revert y z.
  induction x as [|a x IH]; intros [|b y] [|c z]; simpl; try done.
  destruct (Z.compare_spec a b), (Z.compare_spec b c); subst; try done.
  - rewrite Z.compare_refl. apply IH.
  - intros _ _. by rewrite (proj2 (Z.compare_lt_iff _ _) H0).
  - intros _ _. by rewrite (proj2 (Z.compare_lt_iff _ _) H).
  - intros _ _. assert (a < c) as Hac by lia.
    by rewrite (proj2 (Z.compare_lt_iff _ _) Hac).
Qed.

Lemma time_le_refl t : time_le t t = true.
Proof. apply leb_fields_refl. Qed.

Lemma datetime_le_refl t : datetime_le t t = true.
Proof. apply leb_fields_refl. Qed.

Lemma datetime_le_trans a b c :
  datetime_le a b = true → datetime_le b c = true → datetime_le a c = true.
Proof. apply leb_fields_trans. Qed.

(** ** The calendar *)

Section Calendar.

Variable G : Config.

Ltac weekday_cases fecha :=
  let H := fresh "Hwd" in
  pose proof (weekday_range fecha) as H;
  assert (weekday fecha = 0 ∨ weekday fecha = 1 ∨ weekday fecha = 2
          ∨ weekday fecha = 3 ∨ weekday fecha = 4 ∨ weekday fecha = 5
          ∨ weekday fecha = 6) as [?|[?|[?|[?|[?|[?|?]]]]]] by lia.

Lemma DIA_MAP_strftime fecha :
  DIA_MAP !! upper (strftime_A fecha) = Some (dia_semana fecha).
Proof.
  unfold strftime_A, dia_semana.
  weekday_cases fecha; match goal with H : weekday _ = _ |- _ => rewrite H end;
    reflexivity.
Qed.

Lemma fin_de_semana_test fecha :
  bool_decide (dia_semana fecha ∈ ["SABADO"; "DOMINGO"])
  = bool_decide (weekday fecha = 5 ∨ weekday fecha = 6).
Proof.
  unfold dia_semana.
  weekday_cases fecha; match goal with H : weekday _ = _ |- _ => rewrite H end;
    reflexivity.
Qed.

Lemma exento_test fecha :
  bool_decide (dia_semana fecha ∈ ["SABADO"; "DOMINGO"])
  || bool_decide (fecha ∈ FESTIVOS_2025 G) = true ↔ exento G fecha.
Proof.
  rewrite fin_de_semana_test, orb_true_iff, !bool_decide_eq_true.
  unfold exento. tauto.
Qed.

Lemma puede_circular_pasto_exento now placa fecha_hora :
  let fecha := dt_date (_get_fecha_hora G now fecha_hora) in
  exento G fecha →
  puede_circular_pasto G now placa fecha_hora
  = Return (true, motivo_sin_restriccion (dia_semana fecha) fecha).
Proof.
  intros fecha Hex. unfold puede_circular_pasto. fold fecha.
  rewrite DIA_MAP_strftime. by rewrite (proj2 (exento_test fecha) Hex).
Qed.

Lemma puede_circular_pasto_no_exento now placa fecha_hora :
  let fecha := dt_date (_get_fecha_hora G now fecha_hora) in
  let hora := dt_time (_get_fecha_hora G now fecha_hora) in
  ¬ exento G fecha →
  puede_circular_pasto G now placa fecha_hora
  = (ultimo ← _ultimo_digito placa;
     if bool_decide (ultimo ∈ digitos_del_dia G fecha) && en_horario G hora
     then Return (false, motivo_no_puede G placa ultimo (dia_semana fecha))
     else Return (true, motivo_puede placa (dia_semana fecha))).
Proof.
  intros fecha hora Hex. unfold puede_circular_pasto. fold fecha. fold hora.
  rewrite DIA_MAP_strftime.
  destruct (bool_decide _ || bool_decide _) eqn:Hb.
  { by apply exento_test in Hb. }
  destruct (_ultimo_digito placa) as [u|ex]; simpl; [|done].
  unfold digitos_del_dia, en_horario.
  by destruct (CALENDARIO_PICO_PLACA_2025 G !! fecha).
Qed.

Lemma isdigit_upper_char c : isdigit (upper_char c) = isdigit c.
Proof. by destruct c as [[] [] [] [] [] [] [] []]. Qed.

Lemma tiene_digito_upper s : tiene_digito (upper s) = tiene_digito s.
Proof. induction s as [|c s IH]; simpl; [done|]. by rewrite isdigit_upper_char, IH. Qed.

Lemma tiene_digito_rev_app s acc :
  tiene_digito (String.rev_app s acc) = tiene_digito s || tiene_digito acc.
Proof.
  revert acc. induction s as [|c s IH]; intros acc; simpl; [done|].
  rewrite IH. simpl. by destruct (isdigit c), (tiene_digito s), (tiene_digito acc).
Qed.

Lemma first_digit_None s : first_digit s = None ↔ tiene_digito s = false.
Proof.
  induction s as [|c s IH]; simpl; [done|].
  destruct (isdigit c); simpl; [split; done|done].
Qed.

Lemma _ultimo_digito_sin_digito placa :
  tiene_digito placa = false →
  _ultimo_digito placa = Raise (ValueError ("Placa inválida: " +:+ placa)).
Proof.
  intros Hd. unfold _ultimo_digito.
  assert (first_digit (String.rev (upper placa)) = None) as ->; [|done].
  apply first_digit_None. unfold String.rev.
  by rewrite tiene_digito_rev_app, tiene_digito_upper, Hd.
Qed.

End Calendar.

Lemma no_exento_test G fecha :
  bool_decide (weekday fecha = 5 ∨ weekday fecha = 6)
  || bool_decide (fecha ∈ FESTIVOS_2025 G) = false → ¬ exento G fecha.
Proof.
  intros Hb Hex. apply orb_false_iff in Hb as [H1 H2].
  apply bool_decide_eq_false in H1. apply bool_decide_eq_false in H2.
  unfold exento in Hex. tauto.
Defined.

(** C1. On a Saturday, a Sunday or a holiday the resolver answers that the
    plate may circulate, for every plate and every time of day, whatever the
    override calendar and the weekday table hold: the configuration [G] is
    arbitrary, so it may carry an override entry for that very date. *)
Theorem C1_weekend_or_holiday_allowed
    (G : Config) (now : datetime) (placa : string) (fecha_hora : option datetime) :
  let fecha := dt_date (_get_fecha_hora G now fecha_hora) in
  weekday fecha = 5 ∨ weekday fecha = 6 ∨ fecha ∈ FESTIVOS_2025 G →
  puede_circular_pasto G now placa fecha_hora
  = Return (true, motivo_sin_restriccion (dia_semana fecha) fecha).
Proof. intros fecha Hex. by apply puede_circular_pasto_exento. Qed.

(** 17 November 2025 is a holiday Monday; an override entry [0, 1] is added
    for it and the plate ends in 1, at 08:00. *)
Lemma C1_witness :
  Date 2025 11 17 ∈ FESTIVOS_2025 (con_override pasto (Date 2025 11 17) [0; 1])
  ∧ CALENDARIO_PICO_PLACA_2025 (con_override pasto (Date 2025 11 17) [0; 1])
      !! Date 2025 11 17 = Some [0; 1]
  ∧ puede_circular_pasto (con_override pasto (Date 2025 11 17) [0; 1]) reloj "ABC121"
      (Some (mk_datetime 2025 11 17 8 0 0))
    = Return (true, Detalle "El día LUNES (2025-11-17) NO tiene pico y placa en Pasto.").
Proof.
  assert (Date 2025 11 17 ∈ FESTIVOS_2025 (con_override pasto (Date 2025 11 17) [0; 1])) as Hf.
  { apply (bool_decide_unpack _). vm_compute. exact I. }
  split; [exact Hf|]. split; [reflexivity|].
  apply (C1_weekend_or_holiday_allowed
           (con_override pasto (Date 2025 11 17) [0; 1]) reloj "ABC121"
           (Some (mk_datetime 2025 11 17 8 0 0))).
  right. right. exact Hf.
Defined.

(** C2. On a date that is neither weekend nor holiday and has an override
    entry, the answer is computed from the entry's digits alone: the weekday
    table does not appear in it, and a last digit outside the entry may
    circulate even when the weekday table lists it. *)
Theorem C2_override_replaces_default
    (G : Config) (now : datetime) (placa : string) (fecha_hora : option datetime)
    (digitos : list Z) (ultimo : Z) :
  let fecha := dt_date (_get_fecha_hora G now fecha_hora) in
  let hora := dt_time (_get_fecha_hora G now fecha_hora) in
  ¬ exento G fecha →
  CALENDARIO_PICO_PLACA_2025 G !! fecha = Some digitos →
  _ultimo_digito placa = Return ultimo →
  puede_circular_pasto G now placa fecha_hora
  = (if bool_decide (ultimo ∈ digitos) && en_horario G hora
     then Return (false, motivo_no_puede G placa ultimo (dia_semana fecha))
     else Return (true, motivo_puede placa (dia_semana fecha)))
  ∧ (ultimo ∉ digitos →
     puede_circular_pasto G now placa fecha_hora
     = Return (true, motivo_puede placa (dia_semana fecha))).
Proof.
  intros fecha hora Hex Hcal Hult.
  assert (puede_circular_pasto G now placa fecha_hora
          = (if bool_decide (ultimo ∈ digitos) && en_horario G hora
             then Return (false, motivo_no_puede G placa ultimo (dia_semana fecha))
             else Return (true, motivo_puede placa (dia_semana fecha)))) as Heq.
  { rewrite puede_circular_pasto_no_exento by done.
    rewrite Hult. simpl. unfold digitos_del_dia. fold fecha. by rewrite Hcal. }
  split; [done|]. intros Hni. rewrite Heq.
  destruct (bool_decide (ultimo ∈ digitos)) eqn:Hb; [|done].
  by apply bool_decide_eq_true in Hb.
Qed.

(** 24 November 2025 is a Monday with the override [2, 3]; the weekday
    table restricts 0 and 1 on Mondays, and the plate ends in 0. *)
Lemma C2_witness :
  default [] (RESTRICCIONES pasto !! dia_semana (Date 2025 11 24)) = [0; 1]
  ∧ puede_circular_pasto pasto reloj "ABC120" (Some (mk_datetime 2025 11 24 8 0 0))
    = Return (true, motivo_puede "ABC120" "LUNES").
Proof.
  split; [reflexivity|].
  refine (proj2 (C2_override_replaces_default pasto reloj "ABC120"
                   (Some (mk_datetime 2025 11 24 8 0 0)) [2; 3] 0 _ _ _) _).
  - apply no_exento_test. vm_compute. reflexivity.
  - reflexivity.
  - reflexivity.
  - apply (bool_decide_eq_false_1 (0 ∈ [2; 3])). vm_compute. reflexivity.
Defined.

(** C4, as the code has it.  A plate without a decimal digit makes the
    resolver raise [ValueError] on every date that is neither weekend nor
    holiday, at every time; on a weekend or holiday the resolver answers
    before it looks at the plate, and the answer is that it may circulate. *)
Theorem C4_invalid_plate_unless_exempt
    (G : Config) (now : datetime) (placa : string) (fecha_hora : option datetime) :
  tiene_digito placa = false →
  let fecha := dt_date (_get_fecha_hora G now fecha_hora) in
  (¬ exento G fecha →
   puede_circular_pasto G now placa fecha_hora
   = Raise (ValueError ("Placa inválida: " +:+ placa)))
  ∧ (exento G fecha →
     puede_circular_pasto G now placa fecha_hora
     = Return (true, motivo_sin_restriccion (dia_semana fecha) fecha)).
Proof.
  intros Hd fecha. split; intros Hex.
  - rewrite puede_circular_pasto_no_exento by done.
    by rewrite _ultimo_digito_sin_digito.
  - by apply puede_circular_pasto_exento.
Qed.

(** Monday 10 November 2025, 08:00, a plate of letters only. *)
Lemma C4_witness :
  tiene_digito "ABCDEF" = false
  ∧ puede_circular_pasto pasto reloj "ABCDEF" (Some (mk_datetime 2025 11 10 8 0 0))
    = Raise (ValueError "Placa inválida: ABCDEF").
Proof.
  split; [reflexivity|].
  refine (proj1 (C4_invalid_plate_unless_exempt pasto reloj "ABCDEF"
                   (Some (mk_datetime 2025 11 10 8 0 0)) _) _).
  - reflexivity.
  - apply no_exento_test. vm_compute. reflexivity.
Defined.

(** C4 as stated fails: on Saturday 15 November 2025 a plate of letters
    only is answered, not rejected. *)
Lemma C4_counterexample :
  tiene_digito "ABCDEF" = false
  ∧ weekday (Date 2025 11 15) = 5
  ∧ puede_circular_pasto pasto reloj "ABCDEF" (Some (mk_datetime 2025 11 15 8 0 0))
    = Return (true, Detalle "El día SABADO (2025-11-15) NO tiene pico y placa en Pasto.").
Proof. repeat split; vm_compute; reflexivity. Qed.

(** C6. With the window 07:30 to 19:00, on a date that is neither weekend
    nor holiday and for a plate whose last digit is restricted that day, a
    time equal to either end of the window is restricted, and a time before
    its start or after its end is not. *)
Theorem C6_window_inclusive
    (G : Config) (now : datetime) (placa : string) (fecha_hora : option datetime)
    (ultimo : Z) :
  HORARIO_INICIO G = Time 7 30 0 0 →
  HORARIO_FIN G = Time 19 0 0 0 →
  let fecha := dt_date (_get_fecha_hora G now fecha_hora) in
  let hora := dt_time (_get_fecha_hora G now fecha_hora) in
  ¬ exento G fecha →
  _ultimo_digito placa = Return ultimo →
  ultimo ∈ digitos_del_dia G fecha →
  (hora = HORARIO_INICIO G ∨ hora = HORARIO_FIN G →
   puede_circular_pasto G now placa fecha_hora
   = Return (false, motivo_no_puede G placa ultimo (dia_semana fecha)))
  ∧ (time_lt hora (HORARIO_INICIO G) = true ∨ time_lt (HORARIO_FIN G) hora = true →
     puede_circular_pasto G now placa fecha_hora
     = Return (true, motivo_puede placa (dia_semana fecha))).
Proof.
  intros Hini Hfin fecha hora Hex Hult Hin.
  rewrite puede_circular_pasto_no_exento by done. fold fecha hora.
  rewrite Hult. simpl. assert (bool_decide (ultimo ∈ digitos_del_dia G fecha) = true) as ->
    by by apply bool_decide_eq_true.
  simpl.
  unfold en_horario, time_lt. split.
  - intros [-> | ->]; rewrite time_le_refl, Hini, Hfin; reflexivity.
  - intros [Hlt | Hlt]; apply negb_true_iff in Hlt; rewrite Hlt;
      by rewrite ?andb_false_r.
Qed.

(** Monday 10 November 2025 has no override; the plate ends in 1; the time
    is 19:00:00 exactly. *)
Lemma C6_witness :
  puede_circular_pasto pasto reloj "ABC121" (Some (mk_datetime 2025 11 10 19 0 0))
  = Return (false, motivo_no_puede pasto "ABC121" 1 "LUNES").
Proof.
  refine (proj1 (C6_window_inclusive pasto reloj "ABC121"
                   (Some (mk_datetime 2025 11 10 19 0 0)) 1 _ _ _ _ _) _).
  - reflexivity.
  - reflexivity.
  - apply no_exento_test. vm_compute. reflexivity.
  - reflexivity.
  - apply (bool_decide_unpack _). vm_compute. exact I.
  - right. reflexivity.
Defined.

(** The examples of the specification: 08:00 and 19:01 on that Monday,
    and a microsecond past 19:00. *)
Example lunes_0800 :
  puede_circular_pasto pasto reloj "ABC121" (Some (mk_datetime 2025 11 10 8 0 0))
  = Return (false, motivo_no_puede pasto "ABC121" 1 "LUNES").
Proof. vm_compute. reflexivity. Qed.

Example lunes_1901 :
  puede_circular_pasto pasto reloj "ABC121" (Some (mk_datetime 2025 11 10 19 1 0))
  = Return (true, motivo_puede "ABC121" "LUNES").
Proof. vm_compute. reflexivity. Qed.

Example lunes_1900_y_un_microsegundo :
  puede_circular_pasto pasto reloj "ABC121"
    (Some (DateTime (Date 2025 11 10) (Time 19 0 0 1)))
  = Return (true, motivo_puede "ABC121" "LUNES").
Proof. vm_compute. reflexivity. Qed.

(** C10. With [DEMO_MODE] set, the resolver's answer does not depend on
    the date and time it is given, nor on the clock: any two calls for the
    same plate agree, [None] included, because the date and time evaluated
    are [DEMO_DATETIME]. *)
Theorem C10_demo_mode_ignores_datetime
    (G : Config) (placa : string) (now1 now2 : datetime) (a b : option datetime) :
  DEMO_MODE G = true →
  puede_circular_pasto G now1 placa a = puede_circular_pasto G now2 placa b
  ∧ _get_fecha_hora G now1 a = DEMO_DATETIME G.
Proof.
  intros Hdemo. unfold puede_circular_pasto, _get_fecha_hora. by rewrite Hdemo.
Qed.

(** A Saturday afternoon against [None] at another clock reading: both are
    answered as for Wednesday 12 November 2025, 08:00. *)
Lemma C10_witness :
  puede_circular_pasto pasto_demo reloj "ABC124" (Some (mk_datetime 2025 11 15 20 0 0))
  = puede_circular_pasto pasto_demo (mk_datetime 2026 1 1 0 0 0) "ABC124" None.
Proof.
  apply (proj1 (C10_demo_mode_ignores_datetime pasto_demo "ABC124" reloj
                  (mk_datetime 2026 1 1 0 0 0) (Some (mk_datetime 2025 11 15 20 0 0)) None
                  eq_refl)).
Defined.

(** ** The ledger *)

Lemma insert_detection_run io plate color ts source bbox violation reason photo_path d :
  insert_detection io plate color ts source bbox violation reason photo_path d
  = if decide (io = io_ok)
    then (sql_insert_detection
            {| d_plate := plate; d_color := color; d_timestamp := ts;
               d_source := source; d_bbox := bbox; d_violation := violation;
               d_reason := reason; d_photo_path := photo_path |} d, Return tt)
    else (d, Raise OperationalError).
Proof. by destruct io. Qed.

Lemma insert_violation_run io plate color ts reason photo_path d :
  insert_violation io plate color ts reason photo_path d
  = if decide (io = io_ok)
    then (sql_insert_violation
            {| x_plate := plate; x_color := color; x_timestamp := ts;
               x_reason := reason; x_photo_path := photo_path |} d, Return tt)
    else (d, Raise OperationalError).
Proof. by destruct io. Qed.

Lemma upsert_vehicle_run io plate color ts d :
  upsert_vehicle io plate color ts d
  = if decide (io = io_ok)
    then (match vehicles d !! plate with
          | Some _ => sql_update_vehicle plate color ts d
          | None => sql_insert_vehicle plate color ts d
          end, Return tt)
    else (d, Raise OperationalError).
Proof.
  unfold upsert_vehicle, get_conn.
  destruct io; simpl; try done; by destruct (vehicles d !! plate).
Qed.

Lemma get_plate_status_run io plate d :
  get_plate_status io plate d
  = if decide (io = io_ok)
    then (d, Return {| st_plate := plate;
                       st_color := v_color <$> vehicles d !! plate;
                       st_first_seen := first_seen <$> vehicles d !! plate;
                       st_last_seen := last_seen <$> vehicles d !! plate;
                       st_violations :=
                         length (filter (λ x, x_plate x = plate) (violations d)) |})
    else (d, Raise OperationalError).
Proof. by destruct io. Qed.

Lemma upsert_vehicle_tables io plate color ts d :
  detections (upsert_vehicle io plate color ts d).1 = detections d
  ∧ violations (upsert_vehicle io plate color ts d).1 = violations d.
Proof.
  rewrite upsert_vehicle_run. destruct (decide (io = io_ok)); [|done].
  simpl. by destruct (vehicles d !! plate).
Qed.

Lemma upsert_vehicle_lookup io plate color ts d :
  vehicles (upsert_vehicle io plate color ts d).1 !! plate
  = if decide (io = io_ok)
    then Some {| v_color := color;
                 first_seen := from_option first_seen ts (vehicles d !! plate);
                 last_seen := ts |}
    else vehicles d !! plate.
Proof.
  rewrite upsert_vehicle_run. destruct (decide (io = io_ok)); [|done].
  simpl. destruct (vehicles d !! plate) as [r|] eqn:Hr; simpl.
  - by rewrite lookup_alter_eq, Hr.
  - by rewrite lookup_insert_eq.
Qed.

Lemma upsert_vehicle_lookup_ne io plate color ts d p :
  p ≠ plate →
  vehicles (upsert_vehicle io plate color ts d).1 !! p = vehicles d !! p.
Proof.
  intros Hne. rewrite upsert_vehicle_run. destruct (decide (io = io_ok)); [|done].
  simpl. destruct (vehicles d !! plate); simpl.
  - by rewrite lookup_alter_ne.
  - by rewrite lookup_insert_ne.
Qed.

(** *** Sequences of upserts *)

Lemma upsert_call_lookup u d p :
  vehicles (upsert_call u d) !! p
  = if decide (p = u_plate u ∧ u_io u = io_ok)
    then Some {| v_color := u_color u;
                 first_seen := from_option first_seen (u_ts u) (vehicles d !! p);
                 last_seen := u_ts u |}
    else vehicles d !! p.
Proof.
  unfold upsert_call. destruct (decide (p = u_plate u)) as [->|Hne].
  - rewrite upsert_vehicle_lookup.
    destruct (decide (u_io u = io_ok)); by repeat case_decide; try tauto.
  - rewrite upsert_vehicle_lookup_ne by done. case_decide; [tauto|done].
Qed.

Lemma upserts_first_seen us : ∀ d p r,
  vehicles d !! p = Some r →
  ∃ r', vehicles (upserts us d) !! p = Some r' ∧ first_seen r' = first_seen r.
Proof.
  induction us as [|u us IH]; intros d p r Hr; simpl; [by eauto|].
  destruct (IH (upsert_call u d) p
              (if decide (p = u_plate u ∧ u_io u = io_ok)
               then {| v_color := u_color u; first_seen := first_seen r;
                       last_seen := u_ts u |}
               else r)) as (r' & Hr' & Hfs).
  { rewrite upsert_call_lookup, Hr. by case_decide. }
  exists r'. split; [done|]. rewrite Hfs. by case_decide.
Qed.

Lemma upserts_en_orden us : ∀ d,
  en_orden us d → first_le_last d →
  first_le_last (upserts us d)
  ∧ ∀ p r, vehicles d !! p = Some r →
      ∃ r', vehicles (upserts us d) !! p = Some r'
            ∧ datetime_le (last_seen r) (last_seen r') = true.
Proof.
  induction us as [|u us IH]; intros d Hord Hinv; simpl.
  { split; [done|]. intros p r Hr. exists r. by rewrite datetime_le_refl. }
  destruct Hord as [Hu Hord].
  assert (first_le_last (upsert_call u d)) as Hinv'.
  { intros p r. rewrite upsert_call_lookup. case_decide as Hc; [|by apply Hinv].
    destruct Hc as [-> _]. intros [= <-]. simpl.
    destruct (vehicles d !! u_plate u) as [r0|] eqn:Hr0; simpl.
    - eapply datetime_le_trans; [by eapply Hinv|by apply Hu].
    - apply datetime_le_refl. }
  destruct (IH _ Hord Hinv') as [Hfin Hmono]. split; [done|].
  intros p r Hr.
  destruct (Hmono p
              (if decide (p = u_plate u ∧ u_io u = io_ok)
               then {| v_color := u_color u; first_seen := first_seen r;
                       last_seen := u_ts u |}
               else r)) as (r' & Hr' & Hle).
  { rewrite upsert_call_lookup, Hr. by case_decide. }
  exists r'. split; [done|].
  case_decide as Hc; [|done]. destruct Hc as [-> _]. simpl in Hle.
  eapply datetime_le_trans; [by apply Hu|done].
Qed.

(** C7 as stated fails: after an upsert at 10:00 and one at 09:00 the row
    has [first_seen] 10:00 and [last_seen] 09:00; [last_seen] went back
    and is earlier than [first_seen]. *)
Lemma C7_counterexample :
  vehicles (upserts (take 1 upserts_desordenados) init_db) !! placa_ejemplo
  = Some {| v_color := "rojo"; first_seen := mk_datetime 2025 11 10 10 0 0;
            last_seen := mk_datetime 2025 11 10 10 0 0 |}
  ∧ vehicles (upserts upserts_desordenados init_db) !! placa_ejemplo
    = Some {| v_color := "rojo"; first_seen := mk_datetime 2025 11 10 10 0 0;
              last_seen := mk_datetime 2025 11 10 9 0 0 |}
  ∧ datetime_le (mk_datetime 2025 11 10 10 0 0) (mk_datetime 2025 11 10 9 0 0) = false
  ∧ ¬ first_le_last (upserts upserts_desordenados init_db).
Proof.
  assert (vehicles (upserts upserts_desordenados init_db) !! placa_ejemplo
          = Some {| v_color := "rojo"; first_seen := mk_datetime 2025 11 10 10 0 0;
                    last_seen := mk_datetime 2025 11 10 9 0 0 |}) as H2
    by (vm_compute; reflexivity).
  split; [vm_compute; reflexivity|]. split; [exact H2|]. split; [reflexivity|].
  intros Hinv. specialize (Hinv _ _ H2). vm_compute in Hinv. discriminate.
Qed.

(** C7, as the code has it.  Over any sequence of upserts, with any storage
    failures among them: a row's [first_seen] never changes; an upsert that
    succeeds creates the row of an unseen plate with
    [first_seen = last_seen = ts], and writes its [ts] into the [last_seen]
    of a known plate whatever the row held.  So when no call carries a timestamp earlier than its row's
    current [last_seen], [last_seen] never decreases and
    [first_seen <= last_seen] is kept on every row. *)
Theorem C7_first_seen_fixed_last_seen_follows_ts (us : list UpsertCall) (d : DB) :
  (∀ p r, vehicles d !! p = Some r →
     ∃ r', vehicles (upserts us d) !! p = Some r' ∧ first_seen r' = first_seen r)
  ∧ (∀ u, u_io u = io_ok →
       vehicles (upsert_call u d) !! u_plate u
       = Some {| v_color := u_color u;
                 first_seen := from_option first_seen (u_ts u) (vehicles d !! u_plate u);
                 last_seen := u_ts u |})
  ∧ (en_orden us d → first_le_last d →
     first_le_last (upserts us d)
     ∧ ∀ p r, vehicles d !! p = Some r →
         ∃ r', vehicles (upserts us d) !! p = Some r'
               ∧ datetime_le (last_seen r) (last_seen r') = true).
Proof.
  split; [apply upserts_first_seen|]. split; [|apply upserts_en_orden].
  intros u Hio. rewrite upsert_call_lookup. case_decide; [done|tauto].
Qed.

Lemma C7_witness :
  en_orden upserts_ordenados init_db
  ∧ first_le_last init_db
  ∧ first_le_last (upserts upserts_ordenados init_db).
Proof.
  assert (en_orden upserts_ordenados init_db) as Hord.
  { split; [intros r Hr; vm_compute in Hr; discriminate|].
    split; [|exact I].
    intros r Hr. vm_compute in Hr. injection Hr as <-. reflexivity. }
  assert (first_le_last init_db) as Hinv.
  { intros p r Hr. unfold init_db in Hr. simpl in Hr.
    rewrite lookup_empty in Hr. discriminate. }
  split; [exact Hord|]. split; [exact Hinv|].
  exact (proj1 (proj2 (proj2 (C7_first_seen_fixed_last_seen_follows_ts
                                upserts_ordenados init_db)) Hord Hinv)).
Defined.

(** ** The camera loop *)

Section LoopFacts.

Variable G : Config.
Variable FOTOMULTAS_DIR : string.

Lemma elem_of_lineas {A} (l : exn → line) (r : outcome A) (x : line) :
  x ∈ lineas l r → ∃ ex, x = l ex.
Proof.
  destruct r as [a|ex]; simpl; [by intros ?%elem_of_nil|].
  intros ->%list_elem_of_singleton. by exists ex.
Qed.

Ltac run_M :=
  unfold try_except, on_db, print, set_cooldown, set_ok, get, modify, lift, raise,
         mbind, mret, M_bind, M_ret.

Lemma caso_a_run e p color w :
  caso_a e p color w
  = let rd := insert_detection (s_io_detection e) p color (s_ts e) video_name
                (bbox_str (s_bbox e)) false motivo_no_registrado None (db w) in
    ({| db := rd.1; cooldown := cooldown w;
        stdout := stdout w ++ [InfoPrimeraVez p] ++ lineas ErrorGuardandoDeteccion rd.2;
        ok := ok w |}, Return tt).
Proof.
  unfold caso_a, lineas. run_M. cbn [db cooldown stdout ok].
  destruct (insert_detection _ _ _ _ _ _ _ _ _ _) as [d [[]|ex]];
    cbn [db cooldown stdout ok fst snd]; by rewrite <- ?app_assoc, ?app_nil_r.
Qed.

Lemma caso_b_run e p w :
  caso_b G FOTOMULTAS_DIR e p (color_leido e) w
  = let r := puede_circular_pasto G (s_now e) p None in
    let ok1 := match r with Return (okv, _) => Some okv | Raise _ => ok w end in
    let rv := bloque_violacion G FOTOMULTAS_DIR e p w (db w) in
    let rd := insert_detection (s_io_detection e) p (color_leido e) (s_ts e) video_name
                (bbox_str (s_bbox e)) (veredicto G e p).1
                (motivo_violation (veredicto G e p).1 (veredicto G e p).2)
                (foto G FOTOMULTAS_DIR e p w) rv.1 in
    ({| db := rd.1;
        cooldown := if permitida G e p w then <[p := s_ts e]> (cooldown w) else cooldown w;
        stdout := stdout w ++ lineas ErrorEvaluando r ++ lineas_violacion G e p w rv.2
                  ++ lineas ErrorGuardandoDeteccion rd.2;
        ok := ok1 |},
     match ok1 with None => Raise (NameError "ok") | Some _ => Return tt end).
Proof.
  unfold caso_b, bloque_violacion, lineas_violacion, foto, permitida, veredicto, lineas.
  run_M.
  destruct (puede_circular_pasto G (s_now e) p None) as [[[] det]|ex];
    cbn [db cooldown stdout ok fst snd negb andb].
  - (* may circulate *)
    destruct (insert_detection _ _ _ _ _ _ _ _ _ _) as [d [[]|ex]];
      cbn [db cooldown stdout ok fst snd]; by rewrite <- ?app_assoc, ?app_nil_r.
  - (* restricted *)
    destruct (cooldown_permits (cooldown w !! p) (s_ts e));
      cbn [db cooldown stdout ok fst snd].
    + destruct (s_imwrite e) as [[]|ex]; cbn [db cooldown stdout ok fst snd];
        [destruct (insert_violation _ _ _ _ _ _ _) as [d [[]|ex]];
           cbn [db cooldown stdout ok fst snd]|];
        destruct (insert_detection _ _ _ _ _ _ _ _ _ _) as [d' [[]|ex']];
        cbn [db cooldown stdout ok fst snd]; by rewrite <- ?app_assoc, ?app_nil_r.
    + destruct (insert_detection _ _ _ _ _ _ _ _ _ _) as [d [[]|ex]];
        cbn [db cooldown stdout ok fst snd]; by rewrite <- ?app_assoc, ?app_nil_r.
  - (* the rules raised *)
    destruct (insert_detection _ _ _ _ _ _ _ _ _ _) as [d [[]|ex']];
      cbn [db cooldown stdout ok fst snd];
      rewrite <- ?app_assoc, ?app_nil_r; cbn [app]; by destruct (ok w).
Qed.

Lemma procesar_placa_run e w :
  procesar_placa G FOTOMULTAS_DIR e w
  = match placa_leida e with
    | None =>
        ({| db := db w; cooldown := cooldown w;
            stdout := stdout w ++ lineas ErrorOCR (s_ocr e); ok := ok w |}, Return tt)
    | Some p =>
        if registrada e p (db w) then
          let wr := caso_b G FOTOMULTAS_DIR e p (color_leido e) (tras_upsert e p w) in
          ({| db := db wr.1; cooldown := cooldown wr.1;
              stdout := stdout wr.1 ++ lineas ErrorProcesandoPlaca wr.2;
              ok := ok wr.1 |}, Return tt)
        else caso_a e p (color_leido e) (tras_upsert e p w)
    end.
Proof.
  unfold procesar_placa, placa_leida, tras_upsert, registrada, color_leido, lineas.
  run_M. cbv beta iota zeta.
  destruct (s_ocr e) as [[p|]|ex]; cbv beta iota zeta; cbn [db cooldown stdout ok fst snd];
    [|by destruct w; rewrite ?app_nil_r..].
  destruct (decide (p = "")); [by destruct w; rewrite ?app_nil_r|].
  destruct (String.length p =? 6)%nat; cbn [negb]; [|by destruct w; rewrite ?app_nil_r].
  destruct (s_color e) as [c|exc]; cbv beta iota zeta; cbn [db cooldown stdout ok fst snd];
    rewrite !get_plate_status_run;
    (destruct (decide (s_io_status e = io_ok)) as [Hio|Hio];
     [rewrite (bool_decide_eq_true_2 _ Hio)|rewrite (bool_decide_eq_false_2 _ Hio)];
     cbv beta iota zeta; cbn [db cooldown stdout ok fst snd st_first_seen andb];
     destruct (upsert_vehicle _ _ _ _ _) as [d1 [[]|exu]];
     cbv beta iota zeta; cbn [db cooldown stdout ok fst snd negb]).
  all: rewrite <- ?app_assoc, ?app_nil_r; cbn [app].
  all: try (destruct (vehicles (db w) !! p) as [r|]; simpl).
  all: rewrite ?caso_a_run; try reflexivity.
  all: destruct (caso_b _ _ _ _ _ _) as [w2 [[]|ex2]]; simpl;
         rewrite ?app_nil_r; try reflexivity; by destruct w2.
Qed.

Lemma procesar_placa_returns e w :
  (procesar_placa G FOTOMULTAS_DIR e w).2 = Return tt.
Proof.
  rewrite procesar_placa_run. destruct (placa_leida e) as [p|]; [|done].
  destruct (registrada e p (db w)); [done|]. by rewrite caso_a_run.
Qed.

(** The plate box of a plate that is not in [vehicles]: CASO A. *)
Lemma procesar_placa_unseen e w p :
  placa_leida e = Some p →
  vehicles (db w) !! p = None →
  procesar_placa G FOTOMULTAS_DIR e w = caso_a e p (color_leido e) (tras_upsert e p w).
Proof.
  intros Hp Hv. rewrite procesar_placa_run, Hp. unfold registrada. rewrite Hv.
  rewrite (bool_decide_eq_false_2 (is_Some None)) by (by intros [? ?]).
  by rewrite andb_false_r.
Qed.

(** The plate box of a plate found in [vehicles]: CASO B. *)
Lemma procesar_placa_known e w p :
  placa_leida e = Some p →
  s_io_status e = io_ok →
  is_Some (vehicles (db w) !! p) →
  let r := puede_circular_pasto G (s_now e) p None in
  let d1 := (upsert_vehicle (s_io_upsert e) p (color_leido e) (s_ts e) (db w)).1 in
  let rv := bloque_violacion G FOTOMULTAS_DIR e p w d1 in
  let rd := insert_detection (s_io_detection e) p (color_leido e) (s_ts e) video_name
              (bbox_str (s_bbox e)) (veredicto G e p).1
              (motivo_violation (veredicto G e p).1 (veredicto G e p).2)
              (foto G FOTOMULTAS_DIR e p w) rv.1 in
  let w' := (procesar_placa G FOTOMULTAS_DIR e w).1 in
  db w' = rd.1
  ∧ cooldown w' = (if permitida G e p w then <[p := s_ts e]> (cooldown w) else cooldown w)
  ∧ ∃ out1 out2,
      stdout w' = stdout w ++ out1 ++ lineas_violacion G e p w rv.2
                  ++ lineas ErrorGuardandoDeteccion rd.2 ++ out2
      ∧ (∀ x m, Multa x m ∉ out1 ++ out2)
      ∧ (∀ ex, ErrorGuardandoFotomulta ex ∉ out1 ++ out2).
Proof.
  intros Hp Hio Hv r d1 rv rd w'. subst w'.
  rewrite procesar_placa_run, Hp. unfold registrada.
  rewrite (bool_decide_eq_true_2 _ Hio), (bool_decide_eq_true_2 _ Hv).
  cbn [andb]. rewrite caso_b_run. cbn [fst snd db cooldown stdout ok].
  split; [done|]. split; [done|].
  exists (lineas ErrorColor (s_color e)
          ++ lineas ErrorConsultandoEstado (get_plate_status (s_io_status e) p (db w)).2
          ++ lineas ErrorGuardandoVehiculo
               (upsert_vehicle (s_io_upsert e) p (color_leido e) (s_ts e) (db w)).2
          ++ lineas ErrorEvaluando r).
  eexists. split.
  { unfold tras_upsert. cbn [fst snd db cooldown stdout ok].
    rewrite <- !app_assoc. reflexivity. }
  split; intros; rewrite !elem_of_app; intros Hin;
    destruct Hin as [[Hin|[Hin|[Hin|Hin]]]|Hin];
    apply elem_of_lineas in Hin as [? ?]; discriminate.
Qed.

Lemma bloque_violacion_tables e p w d :
  vehicles (bloque_violacion G FOTOMULTAS_DIR e p w d).1 = vehicles d
  ∧ detections (bloque_violacion G FOTOMULTAS_DIR e p w d).1 = detections d
  ∧ violations (bloque_violacion G FOTOMULTAS_DIR e p w d).1
    = violations d ++ (if violacion_persistida G e p w then [fila_violacion G FOTOMULTAS_DIR e p w] else []).
Proof.
  unfold bloque_violacion, violacion_persistida.
  destruct (permitida G e p w); cbn [andb fst]; [|by rewrite app_nil_r].
  destruct (s_imwrite e) as [[]|ex]; cbn [raised negb andb fst]; [|by rewrite app_nil_r].
  rewrite insert_violation_run.
  destruct (decide (s_io_violation e = io_ok)) as [Hio|Hio].
  - by rewrite (bool_decide_eq_true_2 _ Hio).
  - rewrite (bool_decide_eq_false_2 _ Hio). cbn [fst]. by rewrite app_nil_r.
Qed.

Lemma procesar_placa_known_tables e w p :
  placa_leida e = Some p →
  s_io_status e = io_ok →
  is_Some (vehicles (db w) !! p) →
  let w' := (procesar_placa G FOTOMULTAS_DIR e w).1 in
  violations (db w')
  = violations (db w) ++ (if violacion_persistida G e p w then [fila_violacion G FOTOMULTAS_DIR e p w] else [])
  ∧ detections (db w')
    = detections (db w)
      ++ (if decide (s_io_detection e = io_ok) then [fila_deteccion G FOTOMULTAS_DIR e p w] else [])
  ∧ vehicles (db w')
    = vehicles (upsert_vehicle (s_io_upsert e) p (color_leido e) (s_ts e) (db w)).1
  ∧ cooldown w' = (if permitida G e p w then <[p := s_ts e]> (cooldown w) else cooldown w).
Proof.
  intros Hp Hio Hv w'.
  destruct (procesar_placa_known e w p Hp Hio Hv) as (Hdb & Hcd & _).
  fold w' in Hdb, Hcd. rewrite Hdb, Hcd. rewrite insert_detection_run.
  match goal with |- context [bloque_violacion G FOTOMULTAS_DIR e p w ?d] =>
    destruct (bloque_violacion_tables e p w d) as (Hbv & Hbd & Hbx) end.
  destruct (upsert_vehicle_tables (s_io_upsert e) p (color_leido e) (s_ts e) (db w))
    as [Hd Hx].
  destruct (decide (s_io_detection e = io_ok)); cbn [fst snd];
    unfold sql_insert_detection; cbn [vehicles violations detections];
    rewrite ?Hbv, ?Hbd, ?Hbx, ?Hd, ?Hx, ?app_nil_r; done.
Qed.

Lemma live_camera_cons e es w :
  live_camera G FOTOMULTAS_DIR (e :: es) w
  = live_camera G FOTOMULTAS_DIR es (procesar_placa G FOTOMULTAS_DIR e w).1.
Proof.
  cbn [live_camera]. unfold mbind at 1, M_bind.
  pose proof (procesar_placa_returns e w) as Hr.
  destruct (procesar_placa G FOTOMULTAS_DIR e w) as [w' r]. simpl in Hr. by subst r.
Qed.

Lemma live_camera_returns es : ∀ w, (live_camera G FOTOMULTAS_DIR es w).2 = Return tt.
Proof.
  induction es as [|e es IH]; intros w; [done|]. by rewrite live_camera_cons.
Qed.

Lemma registrada_true e p d :
  registrada e p d = true ↔ s_io_status e = io_ok ∧ is_Some (vehicles d !! p).
Proof.
  unfold registrada. by rewrite andb_true_iff, !bool_decide_eq_true.
Qed.

Lemma procesar_placa_unregistered_tables e w p :
  placa_leida e = Some p →
  registrada e p (db w) = false →
  let w' := (procesar_placa G FOTOMULTAS_DIR e w).1 in
  violations (db w') = violations (db w)
  ∧ detections (db w')
    = detections (db w)
      ++ (if decide (s_io_detection e = io_ok)
          then [ {| d_plate := p; d_color := color_leido e; d_timestamp := s_ts e;
                    d_source := video_name; d_bbox := bbox_str (s_bbox e);
                    d_violation := false; d_reason := motivo_no_registrado;
                    d_photo_path := None |} ]
          else [])
  ∧ vehicles (db w')
    = vehicles (upsert_vehicle (s_io_upsert e) p (color_leido e) (s_ts e) (db w)).1
  ∧ cooldown w' = cooldown w.
Proof.
  intros Hp Hreg w'. subst w'.
  rewrite procesar_placa_run, Hp, Hreg, caso_a_run.
  unfold tras_upsert. cbn [fst snd db cooldown stdout ok].
  rewrite insert_detection_run.
  destruct (upsert_vehicle_tables (s_io_upsert e) p (color_leido e) (s_ts e) (db w))
    as [Hd Hx].
  destruct (decide (s_io_detection e = io_ok));
    cbn [fst vehicles detections violations sql_insert_detection];
    by rewrite ?Hd, ?Hx, ?app_nil_r.
Qed.

(** A plate box of another plate, or of none, leaves what the loop holds
    about [p] as it was. *)
Lemma procesar_placa_otra_placa e w p :
  placa_leida e ≠ Some p →
  let w' := (procesar_placa G FOTOMULTAS_DIR e w).1 in
  cooldown w' !! p = cooldown w !! p
  ∧ vehicles (db w') !! p = vehicles (db w) !! p
  ∧ violaciones_de p (db w') = violaciones_de p (db w)
  ∧ detecciones_de p (db w') = detecciones_de p (db w).
Proof.
  intros Hne w'. unfold violaciones_de, detecciones_de.
  destruct (placa_leida e) as [q|] eqn:Hq.
  2: { subst w'. by rewrite procesar_placa_run, Hq. }
  assert (q ≠ p) as Hqp by congruence.
  destruct (registrada e q (db w)) eqn:Hreg.
  - pose proof Hreg as [Hs Hv]%registrada_true.
    destruct (procesar_placa_known_tables e w q Hq Hs Hv) as (Hx & Hd & Hveh & Hcd).
    fold w' in Hx, Hd, Hveh, Hcd. rewrite Hx, Hd, Hveh, Hcd, !filter_app.
    split. { destruct (permitida G e q w); [by rewrite lookup_insert_ne|done]. }
    split. { by rewrite upsert_vehicle_lookup_ne. }
    split.
    + destruct (violacion_persistida G e q w); [|by rewrite app_nil_r].
      rewrite filter_cons, decide_False by done. by rewrite app_nil_r.
    + destruct (decide (s_io_detection e = io_ok)); [|by rewrite app_nil_r].
      rewrite filter_cons, decide_False by done. by rewrite app_nil_r.
  - destruct (procesar_placa_unregistered_tables e w q Hq Hreg) as (Hx & Hd & Hveh & Hcd).
    fold w' in Hx, Hd, Hveh, Hcd. rewrite Hx, Hd, Hveh, Hcd, !filter_app.
    split; [done|]. split. { by rewrite upsert_vehicle_lookup_ne. }
    split; [done|].
    destruct (decide (s_io_detection e = io_ok)); [|by rewrite app_nil_r].
    rewrite filter_cons, decide_False by done. by rewrite app_nil_r.
Qed.

Lemma live_camera_app es1 es2 : ∀ w,
  live_camera G FOTOMULTAS_DIR (es1 ++ es2) w
  = live_camera G FOTOMULTAS_DIR es2 (live_camera G FOTOMULTAS_DIR es1 w).1.
Proof.
  induction es1 as [|e es1 IH]; intros w; [done|].
  cbn [app]. by rewrite !live_camera_cons, IH.
Qed.

Lemma live_camera_otras_placas es p : ∀ w,
  Forall (λ e, placa_leida e ≠ Some p) es →
  let w' := (live_camera G FOTOMULTAS_DIR es w).1 in
  cooldown w' !! p = cooldown w !! p
  ∧ vehicles (db w') !! p = vehicles (db w) !! p
  ∧ violaciones_de p (db w') = violaciones_de p (db w)
  ∧ detecciones_de p (db w') = detecciones_de p (db w).
Proof.
  induction es as [|e es IH]; intros w Hall; [done|].
  apply Forall_cons in Hall as [He Hes]. rewrite live_camera_cons.
  destruct (procesar_placa_otra_placa e w p He) as (H1 & H2 & H3 & H4).
  destruct (IH (procesar_placa G FOTOMULTAS_DIR e w).1 Hes) as (I1 & I2 & I3 & I4).
  cbv zeta. by rewrite I1, I2, I3, I4.
Qed.

End LoopFacts.

(** *** First sightings *)

(** C3, as the code has it: the gate is in [detector/live_camera.py].  For
    a plate that is not in [vehicles], the plate box writes a detection with
    [violation = False] (when that write succeeds), writes no violation,
    leaves the cooldown alone, and does the same under any two
    configurations of the rules: the calendar is not consulted. *)
Theorem C3_first_sighting_gate_in_live_camera
    (G1 G2 : Config) (FOTOMULTAS_DIR : string) (e : Sighting) (w : World) (p : string) :
  placa_leida e = Some p →
  vehicles (db w) !! p = None →
  let w' := (procesar_placa G1 FOTOMULTAS_DIR e w).1 in
  procesar_placa G1 FOTOMULTAS_DIR e w = procesar_placa G2 FOTOMULTAS_DIR e w
  ∧ violations (db w') = violations (db w)
  ∧ detections (db w')
    = detections (db w)
      ++ (if decide (s_io_detection e = io_ok)
          then [ {| d_plate := p; d_color := color_leido e; d_timestamp := s_ts e;
                    d_source := video_name; d_bbox := bbox_str (s_bbox e);
                    d_violation := false; d_reason := motivo_no_registrado;
                    d_photo_path := None |} ]
          else [])
  ∧ cooldown w' = cooldown w.
Proof.
  intros Hp Hv w'. subst w'.
  rewrite !(procesar_placa_unseen _ _ e w p Hp Hv), caso_a_run.
  cbn [fst snd db cooldown stdout ok]. rewrite insert_detection_run.
  unfold tras_upsert. cbn [fst snd db cooldown stdout ok].
  destruct (upsert_vehicle_tables (s_io_upsert e) p (color_leido e) (s_ts e) (db w))
    as [Hd Hx].
  split; [done|].
  destruct (decide (s_io_detection e = io_ok)); cbn [fst snd];
    unfold sql_insert_detection; cbn [violations detections];
    rewrite ?Hd, ?Hx, ?app_nil_r; done.
Qed.

(** [ABC120] meets the camera for the first time on a Monday at 08:00,
    when its digit is restricted; the rules are the module's, or the
    module's with every digit restricted that day. *)
Lemma C3_witness :
  puede_circular_pasto pasto (lunes 8 0 0) placa_ejemplo None
  = Return (false, motivo_no_puede pasto placa_ejemplo 0 "LUNES")
  ∧ procesar_placa pasto "fotomultas" (avistamiento (lunes 8 0 0) io_ok io_ok)
      (start init_db)
    = procesar_placa (con_override pasto (Date 2025 11 10) [0; 1; 2; 3; 4; 5; 6; 7; 8; 9])
        "fotomultas" (avistamiento (lunes 8 0 0) io_ok io_ok) (start init_db)
  ∧ violations (db (procesar_placa pasto "fotomultas"
                      (avistamiento (lunes 8 0 0) io_ok io_ok) (start init_db)).1) = [].
Proof.
  split; [vm_compute; reflexivity|].
  pose proof (C3_first_sighting_gate_in_live_camera pasto
                (con_override pasto (Date 2025 11 10) [0; 1; 2; 3; 4; 5; 6; 7; 8; 9])
                "fotomultas" (avistamiento (lunes 8 0 0) io_ok io_ok)
                (start init_db) placa_ejemplo) as H.
  destruct H as (H1 & H2 & _).
  - reflexivity.
  - reflexivity.
  - split; [exact H1|exact H2].
Defined.

(** C3 as stated fails on the two other ingestion paths.  In
    [registrar_deteccion_y_multa] a plate that is not in [vehicles], seen
    on a Monday at 08:00, gets a detection with [violation = True] and a
    violation row; at 20:00 it gets neither, so the calendar decided. *)
Lemma C3_counterexample :
  vehicles init_db !! placa_ejemplo = None
  ∧ d_violation <$> detections
      (registrar_deteccion_y_multa pasto reloj sin_fallos placa_ejemplo "rojo"
         (lunes 8 0 0) "camara" "10,20,110,60" None init_db).1 = [true]
  ∧ x_plate <$> violations
      (registrar_deteccion_y_multa pasto reloj sin_fallos placa_ejemplo "rojo"
         (lunes 8 0 0) "camara" "10,20,110,60" None init_db).1 = [placa_ejemplo]
  ∧ d_violation <$> detections
      (registrar_deteccion_y_multa pasto reloj sin_fallos placa_ejemplo "rojo"
         (lunes 20 0 0) "camara" "10,20,110,60" None init_db).1 = [false].
Proof. repeat split; vm_compute; reflexivity. Qed.

(** The same first sighting in [detector/process_video.py]: the rules are
    evaluated, the cooldown entry is set, and [cv2.imwrite] stops the loop
    before any row but the vehicle's is written. *)
Example primera_vez_en_process_video :
  let e := {| ProcessVideo.s_ocr := Return (Some placa_ejemplo);
              ProcessVideo.s_color := Return "rojo";
              ProcessVideo.s_ts := lunes 8 0 0;
              ProcessVideo.s_bbox := (10, 20, 110, 60);
              ProcessVideo.s_io_upsert := io_ok;
              ProcessVideo.s_io_violation := io_ok;
              ProcessVideo.s_io_detection := io_ok |} in
  let r := ProcessVideo.procesar_placa pasto "fotomultas" e
             {| ProcessVideo.db := init_db; ProcessVideo.cooldown := ∅ |} in
  r.2 = Raise CvError
  ∧ ProcessVideo.cooldown r.1 !! placa_ejemplo = Some (lunes 8 0 0)
  ∧ detections (ProcessVideo.db r.1) = []
  ∧ violations (ProcessVideo.db r.1) = [].
Proof. repeat split; vm_compute; reflexivity. Qed.

(** *** The cooldown *)

Lemma cooldown_permits_iff (last_t : option datetime) (ts : datetime) :
  cooldown_permits last_t ts = true
  ↔ last_t = None ∨ ∃ t, last_t = Some t ∧ timedelta_seconds COOLDOWN_SEC < sub ts t.
Proof.
  unfold cooldown_permits. destruct last_t as [t|].
  - rewrite Z.ltb_lt. split; [by eauto|]. by intros [|(? & [= <-] & ?)].
  - split; [by left|done].
Qed.

(** C5, as the code has it: the cooldown is in the camera loop.  A plate
    that is in [vehicles] meets the camera twice, with plate boxes of other
    plates, or of none, in between; both times the rules say it may not
    circulate; the first violation is permitted by the cooldown and
    persisted; the second timestamp is at most 10 seconds after the first;
    the two detection writes succeed.  Then the run adds exactly one
    violation row of the plate, the first event's, and two detection rows of
    the plate with [violation = True]; the first event sets the plate's
    cooldown entry to its timestamp and nothing after it changes the entry.
    The guard permits exactly when the plate has no entry or more than 10
    seconds have passed since it. *)
Theorem C5_cooldown_in_live_camera
    (G : Config) (FOTOMULTAS_DIR : string) (e1 e2 : Sighting) (otras : list Sighting)
    (w : World) (p : string) (det1 det2 : detalle) :
  placa_leida e1 = Some p →
  placa_leida e2 = Some p →
  Forall (λ e, placa_leida e ≠ Some p) otras →
  is_Some (vehicles (db w) !! p) →
  s_io_status e1 = io_ok →
  s_io_status e2 = io_ok →
  puede_circular_pasto G (s_now e1) p None = Return (false, det1) →
  puede_circular_pasto G (s_now e2) p None = Return (false, det2) →
  cooldown_permits (cooldown w !! p) (s_ts e1) = true →
  s_imwrite e1 = Return tt →
  s_io_violation e1 = io_ok →
  sub (s_ts e2) (s_ts e1) ≤ timedelta_seconds COOLDOWN_SEC →
  s_io_detection e1 = io_ok →
  s_io_detection e2 = io_ok →
  let w1 := (procesar_placa G FOTOMULTAS_DIR e1 w).1 in
  let w2 := (live_camera G FOTOMULTAS_DIR (e1 :: otras ++ [e2]) w).1 in
  violaciones_de p (db w2)
  = violaciones_de p (db w)
    ++ [ {| x_plate := p; x_color := color_leido e1; x_timestamp := s_ts e1;
            x_reason := motivo_violation true (motivo det1);
            x_photo_path := Some (fotomulta_path FOTOMULTAS_DIR p (s_ts e1)) |} ]
  ∧ detecciones_de p (db w2)
    = detecciones_de p (db w)
      ++ [ {| d_plate := p; d_color := color_leido e1; d_timestamp := s_ts e1;
              d_source := video_name; d_bbox := bbox_str (s_bbox e1);
              d_violation := true;
              d_reason := motivo_violation true (motivo det1);
              d_photo_path := Some (fotomulta_path FOTOMULTAS_DIR p (s_ts e1)) |};
           {| d_plate := p; d_color := color_leido e2; d_timestamp := s_ts e2;
              d_source := video_name; d_bbox := bbox_str (s_bbox e2);
              d_violation := true;
              d_reason := motivo_violation true (motivo det2);
              d_photo_path := None |} ]
  ∧ cooldown w1 !! p = Some (s_ts e1)
  ∧ cooldown w2 !! p = Some (s_ts e1)
  ∧ (∀ last_t ts,
       cooldown_permits last_t ts = true
       ↔ last_t = None ∨ ∃ t, last_t = Some t ∧ timedelta_seconds COOLDOWN_SEC < sub ts t).
Proof.
  intros Hp1 Hp2 Hotras Hv Hs1 Hs2 Hr1 Hr2 Hperm Him Hiov Hsub Hiod1 Hiod2 w1 w2.
  set (wm := (live_camera G FOTOMULTAS_DIR otras w1).1).
  assert (w2 = (procesar_placa G FOTOMULTAS_DIR e2 wm).1) as ->.
  { subst w2 wm w1. by rewrite live_camera_cons, live_camera_app, live_camera_cons. }
  (* the first event *)
  destruct (procesar_placa_known_tables G FOTOMULTAS_DIR e1 w p Hp1 Hs1 Hv)
    as (Hx1 & Hd1 & Hveh1 & Hcd1).
  fold w1 in Hx1, Hd1, Hveh1, Hcd1.
  assert (permitida G e1 p w = true) as Hperm1.
  { unfold permitida, veredicto. by rewrite Hr1, Hperm. }
  assert (violacion_persistida G e1 p w = true) as Hpers1.
  { unfold violacion_persistida. rewrite Hperm1, Him.
    by rewrite (bool_decide_eq_true_2 _ Hiov). }
  rewrite Hperm1 in Hcd1. rewrite Hpers1 in Hx1.
  destruct (decide (s_io_detection e1 = io_ok)); [|done].
  assert (cooldown w1 !! p = Some (s_ts e1)) as Hcd1p.
  { rewrite Hcd1. apply lookup_insert_eq. }
  (* the plate boxes in between *)
  destruct (live_camera_otras_placas G FOTOMULTAS_DIR otras p w1 Hotras)
    as (Hcdm & Hvehm & Hxm & Hdm).
  fold wm in Hcdm, Hvehm, Hxm, Hdm.
  assert (is_Some (vehicles (db wm) !! p)) as Hvm.
  { rewrite Hvehm, Hveh1, upsert_vehicle_lookup. destruct (decide _); [by eexists|done]. }
  (* the second event *)
  destruct (procesar_placa_known_tables G FOTOMULTAS_DIR e2 wm p Hp2 Hs2 Hvm)
    as (Hx2 & Hd2 & _ & Hcd2).
  assert (permitida G e2 p wm = false) as Hperm2.
  { unfold permitida, veredicto. rewrite Hr2, Hcdm, Hcd1p. cbn [fst negb andb].
    unfold cooldown_permits. apply Z.ltb_ge. exact Hsub. }
  assert (violacion_persistida G e2 p wm = false) as Hpers2.
  { unfold violacion_persistida. by rewrite Hperm2. }
  rewrite Hperm2 in Hcd2. rewrite Hpers2 in Hx2.
  destruct (decide (s_io_detection e2 = io_ok)); [|done].
  split.
  { unfold violaciones_de in *. rewrite Hx2, app_nil_r, Hxm, Hx1, filter_app.
    rewrite filter_cons, decide_True by done.
    unfold fila_violacion, foto, veredicto. by rewrite Hperm1, Hr1. }
  split.
  { unfold detecciones_de in *. rewrite Hd2, filter_app, Hdm, Hd1, filter_app.
    rewrite !filter_cons, !decide_True by done. rewrite <- app_assoc.
    unfold fila_deteccion, foto, veredicto.
    by rewrite Hperm1, Hperm2, Hr1, Hr2. }
  split; [done|]. split; [by rewrite Hcd2, Hcdm|].
  apply cooldown_permits_iff.
Qed.

(** [ABC120], already in the database, at 08:00:00 and at 08:00:05 of a
    Monday, with [XYZ987] passing in between. *)
Lemma C5_witness :
  x_timestamp <$> violaciones_de placa_ejemplo
     (db (live_camera pasto "fotomultas"
            (avistamiento (lunes 8 0 0) io_ok io_ok
             :: [avistamiento_de "XYZ987" (lunes 8 0 2) io_ok io_ok]
             ++ [avistamiento (lunes 8 0 5) io_ok io_ok])
            (start db_conocida)).1)
  = [lunes 8 0 0]
  ∧ d_violation <$> detecciones_de placa_ejemplo
       (db (live_camera pasto "fotomultas"
              (avistamiento (lunes 8 0 0) io_ok io_ok
               :: [avistamiento_de "XYZ987" (lunes 8 0 2) io_ok io_ok]
               ++ [avistamiento (lunes 8 0 5) io_ok io_ok])
              (start db_conocida)).1)
    = [false; true; true].
Proof.
  pose proof (C5_cooldown_in_live_camera pasto "fotomultas"
                (avistamiento (lunes 8 0 0) io_ok io_ok)
                (avistamiento (lunes 8 0 5) io_ok io_ok)
                [avistamiento_de "XYZ987" (lunes 8 0 2) io_ok io_ok]
                (start db_conocida) placa_ejemplo
                (motivo_no_puede pasto placa_ejemplo 0 "LUNES")
                (motivo_no_puede pasto placa_ejemplo 0 "LUNES")) as H.
  destruct H as (Hx & Hd & _).
  - reflexivity.
  - reflexivity.
  - repeat constructor. vm_compute. intros Heq. discriminate Heq.
  - eexists. vm_compute. reflexivity.
  - reflexivity.
  - reflexivity.
  - vm_compute. reflexivity.
  - vm_compute. reflexivity.
  - reflexivity.
  - reflexivity.
  - reflexivity.
  - vm_compute. intros Hgt. discriminate Hgt.
  - reflexivity.
  - reflexivity.
  - rewrite Hx, Hd. split; vm_compute; reflexivity.
Defined.

(** C5 as stated fails in [registrar_deteccion_y_multa], which has no
    cooldown: the same plate at 08:00:00 and at 08:00:05 gets two
    violation rows. *)
Lemma C5_counterexample :
  is_Some (vehicles db_conocida !! placa_ejemplo)
  ∧ sub (lunes 8 0 5) (lunes 8 0 0) = timedelta_seconds 5
  ∧ x_timestamp <$> violations
      (registrar_deteccion_y_multa pasto reloj sin_fallos placa_ejemplo "rojo"
         (lunes 8 0 5) "camara" "10,20,110,60" None
         (registrar_deteccion_y_multa pasto reloj sin_fallos placa_ejemplo "rojo"
            (lunes 8 0 0) "camara" "10,20,110,60" None db_conocida).1).1
    = [lunes 8 0 0; lunes 8 0 5].
Proof.
  split; [eexists; vm_compute; reflexivity|]. split; vm_compute; reflexivity.
Qed.

(** *** Violations and their detections *)

Lemma emparejada_app d d' xs rs :
  violations d' = violations d ++ xs →
  detections d' = detections d ++ rs →
  (∀ x, x ∈ xs → ∃ r, r ∈ rs ∧ d_plate r = x_plate x
                      ∧ d_timestamp r = x_timestamp x ∧ d_violation r = true) →
  emparejada d → emparejada d'.
Proof.
  intros Hx Hr Hnew Hinv x. rewrite Hx, Hr. intros [Hin|Hin]%elem_of_app.
  - destruct (Hinv x Hin) as (r & ? & ?). exists r. split; [|done].
    apply elem_of_app. by left.
  - destruct (Hnew x Hin) as (r & ? & ?). exists r. split; [|done].
    apply elem_of_app. by right.
Qed.

Lemma procesar_placa_emparejada G FOTOMULTAS_DIR e w :
  s_io_detection e = io_ok →
  emparejada (db w) →
  emparejada (db (procesar_placa G FOTOMULTAS_DIR e w).1).
Proof.
  intros Hio Hinv.
  destruct (placa_leida e) as [p|] eqn:Hp.
  2: { by rewrite procesar_placa_run, Hp. }
  destruct (registrada e p (db w)) eqn:Hreg.
  - apply registrada_true in Hreg as [Hs Hv].
    destruct (procesar_placa_known_tables G FOTOMULTAS_DIR e w p Hp Hs Hv)
      as (Hx & Hd & _).
    eapply emparejada_app; [exact Hx|exact Hd| |exact Hinv].
    destruct (decide (s_io_detection e = io_ok)); [|done].
    destruct (violacion_persistida G e p w) eqn:Hpers;
      [|by intros x ?%elem_of_nil].
    intros x ->%list_elem_of_singleton. exists (fila_deteccion G FOTOMULTAS_DIR e p w).
    split; [by apply list_elem_of_singleton|]. cbn.
    unfold violacion_persistida, permitida in Hpers.
    by destruct ((veredicto G e p).1).
  - rewrite procesar_placa_run, Hp, Hreg, caso_a_run. cbn [fst db].
    unfold tras_upsert. cbn [db]. rewrite insert_detection_run.
    destruct (upsert_vehicle_tables (s_io_upsert e) p (color_leido e) (s_ts e) (db w))
      as [Hd Hx].
    destruct (decide (s_io_detection e = io_ok)); [|done]. cbn [fst].
    eapply (emparejada_app (db w) _ []); [| |by intros x ?%elem_of_nil|exact Hinv].
    + cbn. by rewrite Hx, app_nil_r.
    + cbn. by rewrite Hd.
Qed.

Lemma live_camera_emparejada G FOTOMULTAS_DIR es : ∀ w,
  Forall (λ e, s_io_detection e = io_ok) es →
  emparejada (db w) →
  emparejada (db (live_camera G FOTOMULTAS_DIR es w).1).
Proof.
  induction es as [|e es IH]; intros w Hall Hinv; [done|].
  rewrite live_camera_cons. apply Forall_cons in Hall as [He Hes].
  apply IH; [done|]. by apply procesar_placa_emparejada.
Qed.

Lemma registrar_emparejada G now io plate color ts source bbox photo_path d :
  emparejada d →
  emparejada (registrar_deteccion_y_multa G now io plate color ts source bbox photo_path d).1.
Proof.
  intros Hinv. unfold registrar_deteccion_y_multa.
  unfold mbind at 1, M_bind, lift.
  destruct (puede_circular_pasto _ _ _ _) as [[puede det]|ex]; [|done].
  unfold mbind, M_bind.
  pose proof (upsert_vehicle_tables (rio_upsert io)
                (remove_char "-" (remove_char " " (upper plate))) color ts d) as [Hd Hx].
  destruct (upsert_vehicle _ _ _ _ d) as [d1 [[]|ex]]; cbn [fst] in Hd, Hx.
  2: { eapply (emparejada_app d d1 [] []); rewrite ?app_nil_r; try done.
       by intros x ?%elem_of_nil. }
  rewrite insert_detection_run.
  destruct (decide (rio_detection io = io_ok)).
  2: { eapply (emparejada_app d d1 [] []); rewrite ?app_nil_r; try done.
       by intros x ?%elem_of_nil. }
  destruct puede; cbn [negb].
  - unfold mret, M_ret. cbn [fst].
    eapply (emparejada_app d _ []); [| |by intros x ?%elem_of_nil|exact Hinv].
    + cbn. by rewrite Hx, app_nil_r.
    + cbn. by rewrite Hd.
  - rewrite insert_violation_run.
    destruct (decide (rio_violation io = io_ok)); unfold mret, M_ret; cbn [fst].
    + eapply emparejada_app; [| | |exact Hinv].
      * cbn. by rewrite Hx.
      * cbn. by rewrite Hd.
      * intros x ->%list_elem_of_singleton. eexists.
        split; [by apply list_elem_of_singleton|]. done.
    + eapply (emparejada_app d _ []); [| |by intros x ?%elem_of_nil|exact Hinv].
      * cbn. by rewrite Hx, app_nil_r.
      * cbn. by rewrite Hd.
Qed.

(** C9, as the code has it.  The camera loop commits the violation row
    first and the detection row after it, each in its own transaction, and
    goes on when the second fails.  So the pairing is kept by every run of
    the loop in which no detection write fails;
    [registrar_deteccion_y_multa] writes the detection first and keeps the
    pairing whatever fails. *)
Theorem C9_violations_paired_when_detection_written
    (G : Config) (FOTOMULTAS_DIR : string) (w : World) :
  emparejada (db w) →
  (∀ es, Forall (λ e, s_io_detection e = io_ok) es →
         emparejada (db (live_camera G FOTOMULTAS_DIR es w).1))
  ∧ (∀ now io plate color ts source bbox photo_path,
       emparejada (registrar_deteccion_y_multa G now io plate color ts source bbox
                     photo_path (db w)).1).
Proof.
  intros Hinv. split.
  - intros es Hes. by apply live_camera_emparejada.
  - intros. by apply registrar_emparejada.
Qed.

Lemma emparejada_init_db : emparejada init_db.
Proof. by intros x ?%elem_of_nil. Defined.

Lemma C9_witness :
  emparejada init_db
  ∧ emparejada
      (db (live_camera pasto "fotomultas"
             [avistamiento (lunes 7 0 0) io_ok io_ok;
              avistamiento (lunes 8 0 0) io_ok io_ok;
              avistamiento (lunes 8 0 5) io_ok io_ok]
             (start init_db)).1).
Proof.
  split; [exact emparejada_init_db|].
  apply (proj1 (C9_violations_paired_when_detection_written pasto "fotomultas"
                  (start init_db) emparejada_init_db)).
  repeat constructor.
Defined.

(** C9 as stated fails in the camera loop: [ABC120], already in the
    database, is seen on a Monday at 08:00; the violation is committed and
    the detection write then fails.  The violation row stands alone. *)
Lemma C9_counterexample :
  emparejada db_conocida
  ∧ ¬ emparejada
        (db (live_camera pasto "fotomultas"
               [avistamiento (lunes 8 0 0) io_ok execute_fails]
               (start db_conocida)).1).
Proof.
  split.
  { intros x Hx. vm_compute in Hx. by apply elem_of_nil in Hx. }
  intros Hinv.
  destruct (Hinv {| x_plate := placa_ejemplo; x_color := "rojo";
                    x_timestamp := lunes 8 0 0;
                    x_reason := motivo_violation true
                                  (motivo (motivo_no_puede pasto placa_ejemplo 0 "LUNES"));
                    x_photo_path := Some (fotomulta_path "fotomultas" placa_ejemplo
                                            (lunes 8 0 0)) |})
    as (r & Hr & _ & _ & Hviol).
  { vm_compute. apply list_elem_of_here. }
  vm_compute in Hr. apply list_elem_of_singleton in Hr. subst r. discriminate Hviol.
Qed.

(** *** Storage failures *)

Lemma procesar_placa_unseen_log G FOTOMULTAS_DIR e w p :
  placa_leida e = Some p →
  registrada e p (db w) = false →
  let w' := (procesar_placa G FOTOMULTAS_DIR e w).1 in
  ∃ out1,
    stdout w' = stdout w ++ out1
                ++ lineas ErrorGuardandoDeteccion
                     (insert_detection (s_io_detection e) p (color_leido e) (s_ts e)
                        video_name (bbox_str (s_bbox e)) false motivo_no_registrado None
                        (upsert_vehicle (s_io_upsert e) p (color_leido e) (s_ts e)
                           (db w)).1).2
    ∧ detections (db w')
      = detections (db w)
        ++ (if decide (s_io_detection e = io_ok)
            then [ {| d_plate := p; d_color := color_leido e; d_timestamp := s_ts e;
                      d_source := video_name; d_bbox := bbox_str (s_bbox e);
                      d_violation := false; d_reason := motivo_no_registrado;
                      d_photo_path := None |} ]
            else []).
Proof.
  intros Hp Hreg w'. subst w'.
  rewrite procesar_placa_run, Hp, Hreg, caso_a_run.
  unfold tras_upsert. cbn [fst snd db cooldown stdout ok].
  exists (lineas ErrorColor (s_color e)
          ++ lineas ErrorConsultandoEstado (get_plate_status (s_io_status e) p (db w)).2
          ++ lineas ErrorGuardandoVehiculo
               (upsert_vehicle (s_io_upsert e) p (color_leido e) (s_ts e) (db w)).2
          ++ [InfoPrimeraVez p]).
  split; [by rewrite <- !app_assoc|].
  rewrite insert_detection_run.
  destruct (upsert_vehicle_tables (s_io_upsert e) p (color_leido e) (s_ts e) (db w))
    as [Hd _].
  destruct (decide (s_io_detection e = io_ok)); cbn [fst detections sql_insert_detection];
    by rewrite Hd, ?app_nil_r.
Qed.

(** C8.  In [db/db.py] a detection or violation write either commits its
    row and returns, or raises and commits nothing.  In the camera loop the
    plate box always completes, so the loop goes on; a detection write that
    fails leaves the table as it was and its error on the output; a
    violation write that fails leaves the table as it was and its error on
    the output, and the line that announces the fine is printed only when
    the row has been committed. *)
Theorem C8_failed_writes_are_reported
    (G : Config) (FOTOMULTAS_DIR : string) (e : Sighting) (w : World) :
  let w' := (procesar_placa G FOTOMULTAS_DIR e w).1 in
  (∀ io plate color ts source bbox violation reason photo_path d,
     insert_detection io plate color ts source bbox violation reason photo_path d
     = if decide (io = io_ok)
       then (sql_insert_detection
               {| d_plate := plate; d_color := color; d_timestamp := ts;
                  d_source := source; d_bbox := bbox; d_violation := violation;
                  d_reason := reason; d_photo_path := photo_path |} d, Return tt)
       else (d, Raise OperationalError))
  ∧ (∀ io plate color ts reason photo_path d,
       insert_violation io plate color ts reason photo_path d
       = if decide (io = io_ok)
         then (sql_insert_violation
                 {| x_plate := plate; x_color := color; x_timestamp := ts;
                    x_reason := reason; x_photo_path := photo_path |} d, Return tt)
         else (d, Raise OperationalError))
  ∧ (procesar_placa G FOTOMULTAS_DIR e w).2 = Return tt
  ∧ ∃ out,
      stdout w' = stdout w ++ out
      ∧ (∀ p, placa_leida e = Some p →
           if decide (s_io_detection e = io_ok)
           then ∃ r, detections (db w') = detections (db w) ++ [r]
           else detections (db w') = detections (db w)
                ∧ ErrorGuardandoDeteccion OperationalError ∈ out)
      ∧ (∀ p, placa_leida e = Some p →
           registrada e p (db w) = true →
           permitida G e p w = true →
           s_imwrite e = Return tt →
           if decide (s_io_violation e = io_ok)
           then violations (db w')
                = violations (db w) ++ [fila_violacion G FOTOMULTAS_DIR e p w]
                ∧ Multa p (x_reason (fila_violacion G FOTOMULTAS_DIR e p w)) ∈ out
           else violations (db w') = violations (db w)
                ∧ ErrorGuardandoFotomulta OperationalError ∈ out
                ∧ ∀ x m, Multa x m ∉ out).
Proof.
  intros w'.
  split; [intros; apply insert_detection_run|].
  split; [intros; apply insert_violation_run|].
  split; [apply procesar_placa_returns|].
  destruct (placa_leida e) as [p|] eqn:Hp.
  2: { exists (lineas ErrorOCR (s_ocr e)). subst w'.
       rewrite procesar_placa_run, Hp. split; [done|]. split; intros ? [=]. }
  destruct (registrada e p (db w)) eqn:Hreg.
  - (* CASO B *)
    pose proof Hreg as [Hs Hv]%registrada_true.
    destruct (procesar_placa_known G FOTOMULTAS_DIR e w p Hp Hs Hv)
      as (_ & _ & out1 & out2 & Hout & Hmulta & Hfoto).
    destruct (procesar_placa_known_tables G FOTOMULTAS_DIR e w p Hp Hs Hv)
      as (Hx & Hd & _).
    fold w' in Hout, Hx, Hd.
    eexists. split; [exact Hout|]. split.
    + intros ? [= <-]. rewrite insert_detection_run in *.
      destruct (decide (s_io_detection e = io_ok)); [by eauto|].
      rewrite app_nil_r in Hd. split; [done|].
      cbn [snd lineas]. set_solver.
    + intros ? [= <-] _ Hperm Him.
      unfold violacion_persistida in Hx. rewrite Hperm, Him in Hx.
      unfold lineas_violacion, bloque_violacion in *. rewrite Hperm, Him in *.
      rewrite insert_violation_run in *. cbn [raised negb andb] in Hx.
      destruct (decide (s_io_violation e = io_ok)) as [Hio|Hio].
      * rewrite (bool_decide_eq_true_2 _ Hio) in Hx. split; [done|].
        cbn [snd fila_violacion x_reason]. set_solver.
      * rewrite (bool_decide_eq_false_2 _ Hio), app_nil_r in Hx. split; [done|].
        cbn [snd]. split; [set_solver|].
        intros x m. rewrite !elem_of_app.
        intros [Hin|[Hin|[Hin|Hin]]].
        -- eapply Hmulta. apply elem_of_app. by left.
        -- by apply list_elem_of_singleton in Hin.
        -- by apply elem_of_lineas in Hin as [? ?].
        -- eapply Hmulta. apply elem_of_app. by right.
  - (* CASO A *)
    destruct (procesar_placa_unseen_log G FOTOMULTAS_DIR e w p Hp Hreg)
      as (out1 & Hout & Hd).
    fold w' in Hout, Hd.
    eexists. split; [exact Hout|]. split.
    + intros ? [= <-]. rewrite insert_detection_run in *.
      destruct (decide (s_io_detection e = io_ok)); [by eauto|].
      rewrite app_nil_r in Hd. split; [done|].
      cbn [snd lineas]. set_solver.
    + intros ? [= <-] Hreg'. rewrite Hreg in Hreg'. discriminate Hreg'.
Qed.

(** [ABC120], already in the database, on a Monday at 08:00, with the
    commit of the violation row failing. *)
Lemma C8_witness :
  stdout (procesar_placa pasto "fotomultas"
            (avistamiento (lunes 8 0 0) commit_fails io_ok) (start db_conocida)).1
  = [ErrorGuardandoFotomulta OperationalError]
  ∧ violations (db (procesar_placa pasto "fotomultas"
                      (avistamiento (lunes 8 0 0) commit_fails io_ok)
                      (start db_conocida)).1)
    = violations db_conocida.
Proof.
  pose proof (C8_failed_writes_are_reported pasto "fotomultas"
                (avistamiento (lunes 8 0 0) commit_fails io_ok) (start db_conocida)) as H.
  destruct H as (_ & _ & _ & out & Hout & _ & Hviol).
  specialize (Hviol placa_ejemplo).
  destruct Hviol as (Hx & _ & _).
  - reflexivity.
  - vm_compute. reflexivity.
  - vm_compute. reflexivity.
  - reflexivity.
  - split; [vm_compute; reflexivity|exact Hx].
Defined.

(** * Further properties *)

(** ** The rules *)

Lemma int_of_char_upper_char c : isdigit c = true → upper_char c = c.
Proof. by destruct c as [[] [] [] [] [] [] [] []]. Qed.



Lemma last_digit_upper s : last_digit (upper s) = last_digit s.
Proof.
  induction s as [|c s IH]; simpl; [done|]. rewrite IH, isdigit_upper_char.
  destruct (last_digit s); [done|].
  destruct (isdigit c) eqn:Hc; [|done]. by rewrite int_of_char_upper_char.
Qed.

Lemma first_digit_rev_app s acc :
  first_digit (String.rev_app s acc)
  = match last_digit s with
    | Some d => Some d
    | None => first_digit acc
    end.
Proof.
  revert acc. induction s as [|c s IH]; intros acc; simpl; [done|].
  rewrite IH. destruct (last_digit s); [done|]. simpl. by destruct (isdigit c).
Qed.

Lemma _ultimo_digito_last_digit placa :
  _ultimo_digito placa
  = match last_digit placa with
    | Some d => Return d
    | None => Raise (ValueError ("Placa inválida: " +:+ placa))
    end.
Proof.
  unfold _ultimo_digito, String.rev.
  rewrite first_digit_rev_app, last_digit_upper. by destruct (last_digit placa).
Qed.






(** X4. The answer depends on the plate only through its last digit: two
    plates with the same last digit, in any case of letters, get the same
    verdict for the same date and time. *)
Theorem X4_verdict_by_last_digit
    (G : Config) (now : datetime) (p1 p2 : string) (fecha_hora : option datetime) (d : Z) :
  _ultimo_digito p1 = Return d →
  _ultimo_digito p2 = Return d →
  fst <$> puede_circular_pasto G now p1 fecha_hora
  = fst <$> puede_circular_pasto G now p2 fecha_hora
  ∧ fst <$> puede_circular_pasto G now (upper p1) fecha_hora
    = fst <$> puede_circular_pasto G now p1 fecha_hora.
Proof.
  intros H1 H2.
  assert (_ultimo_digito (upper p1) = Return d) as H1'.
  { rewrite _ultimo_digito_last_digit, last_digit_upper.
    rewrite _ultimo_digito_last_digit in H1. by destruct (last_digit p1). }
  set (fecha := dt_date (_get_fecha_hora G now fecha_hora)).
  destruct (bool_decide (weekday fecha = 5 ∨ weekday fecha = 6)
            || bool_decide (fecha ∈ FESTIVOS_2025 G)) eqn:Hb.
  - assert (exento G fecha) as Hex.
    { apply exento_test. by rewrite fin_de_semana_test. }
    by rewrite !puede_circular_pasto_exento.
  - apply no_exento_test in Hb.
    rewrite !puede_circular_pasto_no_exento by done.
    rewrite H1, H2, H1'. simpl. split; by destruct (_ && _).
Qed.

Lemma X4_witness :
  fst <$> puede_circular_pasto pasto reloj "abc121" (Some (mk_datetime 2025 11 10 8 0 0))
  = fst <$> puede_circular_pasto pasto reloj "XYZ9 01" (Some (mk_datetime 2025 11 10 8 0 0)).
Proof.
  apply (proj1 (X4_verdict_by_last_digit pasto reloj "abc121" "XYZ9 01"
                  (Some (mk_datetime 2025 11 10 8 0 0)) 1 eq_refl eq_refl)).
Defined.

(** ** The ledger, further *)

(** X5. [get_plate_status] never changes the database, and after an
    [upsert_vehicle] that succeeded it reads back the colour and timestamp
    just written: [last_seen] is the upsert's timestamp, [first_seen] is the
    one the row already had, or the upsert's for a new row; the violation
    count is the number of the plate's violation rows. *)
Theorem X5_status_reads_back_upsert (plate color : string) (ts : datetime) (d : DB) :
  let d' := (upsert_vehicle io_ok plate color ts d).1 in
  get_plate_status io_ok plate d'
  = (d', Return {| st_plate := plate; st_color := Some color;
                   st_first_seen :=
                     Some (from_option first_seen ts (vehicles d !! plate));
                   st_last_seen := Some ts;
                   st_violations := length (violaciones_de plate d) |})
  ∧ ∀ io q d0, (get_plate_status io q d0).1 = d0.
Proof.
  intros d'. split.
  - rewrite get_plate_status_run. rewrite decide_True by done.
    subst d'. rewrite upsert_vehicle_lookup. rewrite decide_True by done.
    cbn [fmap option_fmap option_map v_color first_seen last_seen].
    destruct (upsert_vehicle_tables io_ok plate color ts d) as [_ Hx].
    unfold violaciones_de. by rewrite Hx.
  - intros io q d0. rewrite get_plate_status_run. by destruct (decide _).
Qed.

(** X6. The violation count [get_plate_status] reports for a plate goes up
    by one with each [insert_violation] of that plate that commits, and is
    left alone by a violation of another plate, by a violation write that
    fails, by [insert_detection] and by [upsert_vehicle]. *)
Theorem X6_violation_count
    (io : sqlite_io) (p q color source bbox reason : string) (ts : datetime)
    (violation : bool) (photo_path : option string) (d : DB) :
  st_violations <$> estado q (insert_violation io p color ts reason photo_path d).1
  = Return (length (violaciones_de q d)
            + (if decide (io = io_ok ∧ p = q) then 1 else 0))%nat
  ∧ st_violations <$> estado q (insert_detection io p color ts source bbox violation
                                  reason photo_path d).1
    = Return (length (violaciones_de q d))
  ∧ st_violations <$> estado q (upsert_vehicle io p color ts d).1
    = Return (length (violaciones_de q d)).
Proof.
  unfold estado, violaciones_de. rewrite !get_plate_status_run.
  rewrite !decide_True by done. cbn [snd fmap outcome_fmap st_violations].
  split; [|split].
  - rewrite insert_violation_run.
    destruct (decide (io = io_ok)) as [Hio|Hio]; cbn [fst violations sql_insert_violation].
    + rewrite filter_app, length_app, filter_cons, filter_nil. cbn [x_plate].
      destruct (decide (p = q)) as [Hpq|Hpq].
      * by rewrite decide_True by done.
      * by rewrite decide_False by tauto.
    + rewrite decide_False by tauto. by rewrite Nat.add_0_r.
  - rewrite insert_detection_run. by destruct (decide (io = io_ok)).
  - by destruct (upsert_vehicle_tables io p color ts d) as [_ ->].
Qed.

(** X7. [upsert_vehicle] writes the row of its own plate and nothing else:
    the rows of other plates and the two append-only tables are as before,
    no row is ever removed, and when SQLite fails the database is as it was
    and the failure is raised. *)
Theorem X7_upsert_only_its_row
    (io : sqlite_io) (plate color : string) (ts : datetime) (d : DB) :
  let r := upsert_vehicle io plate color ts d in
  (∀ q, q ≠ plate → vehicles r.1 !! q = vehicles d !! q)
  ∧ (∀ q, is_Some (vehicles d !! q) → is_Some (vehicles r.1 !! q))
  ∧ detections r.1 = detections d
  ∧ violations r.1 = violations d
  ∧ (if decide (io = io_ok)
     then r.2 = Return tt ∧ is_Some (vehicles r.1 !! plate)
     else r = (d, Raise OperationalError)).
Proof.
  intros r. subst r.
  destruct (upsert_vehicle_tables io plate color ts d) as [Hd Hx].
  split; [intros q Hq; by apply upsert_vehicle_lookup_ne|].
  split.
  { intros q Hq. destruct (decide (q = plate)) as [->|Hne].
    - rewrite upsert_vehicle_lookup. by destruct (decide _).
    - by rewrite upsert_vehicle_lookup_ne. }
  split; [done|]. split; [done|].
  pose proof (upsert_vehicle_lookup io plate color ts d) as Hl.
  rewrite upsert_vehicle_run in *.
  destruct (decide (io = io_ok)); [|done]. split; [done|]. by rewrite Hl.
Qed.

(** *** [registrar_deteccion_y_multa] *)

Lemma registrar_run G now io plate color ts source bbox photo_path d :
  registrar_deteccion_y_multa G now io plate color ts source bbox photo_path d
  = match puede_circular_pasto G now (norm_plate plate) (Some ts) with
    | Raise e => (d, Raise e)
    | Return (puede, det) =>
        let reg := {| r_plate := norm_plate plate; r_timestamp := ts;
                      es_violacion := negb puede; r_motivo := motivo det;
                      detalle_regla := det |} in
        let d1 := (upsert_vehicle io_ok (norm_plate plate) color ts d).1 in
        let d2 := sql_insert_detection
                    {| d_plate := norm_plate plate; d_color := color; d_timestamp := ts;
                       d_source := source; d_bbox := bbox; d_violation := negb puede;
                       d_reason := motivo det; d_photo_path := photo_path |} d1 in
        let d3 := sql_insert_violation
                    {| x_plate := norm_plate plate; x_color := color; x_timestamp := ts;
                       x_reason := motivo det; x_photo_path := photo_path |} d2 in
        if decide (rio_upsert io = io_ok) then
          if decide (rio_detection io = io_ok) then
            if puede then (d2, Return reg)
            else if decide (rio_violation io = io_ok) then (d3, Return reg)
                 else (d2, Raise OperationalError)
          else (d1, Raise OperationalError)
        else (d, Raise OperationalError)
    end.
Proof.
  unfold registrar_deteccion_y_multa, norm_plate.
  unfold mbind at 1, M_bind, lift.
  destruct (puede_circular_pasto _ _ _ _) as [[puede det]|ex]; [|done].
  unfold mbind, M_bind, mret, M_ret.
  rewrite !upsert_vehicle_run.
  destruct (decide (io_ok = io_ok)); [|done].
  destruct (decide (rio_upsert io = io_ok)) as [Hu|Hu]; [|done]. cbn [fst].
  rewrite insert_detection_run.
  destruct (decide (rio_detection io = io_ok)); [|done].
  destruct puede; cbn [negb]; [done|].
  rewrite insert_violation_run. by destruct (decide (rio_violation io = io_ok)).
Qed.

Lemma tiene_digito_remove_char c s :
  tiene_digito s = false → tiene_digito (remove_char c s) = false.
Proof.
  induction s as [|a s IH]; simpl; [done|].
  intros [Ha Hs]%orb_false_iff. destruct (decide (a = c)); simpl; [by apply IH|].
  by rewrite Ha, IH.
Qed.

Lemma tiene_digito_norm_plate s :
  tiene_digito s = false → tiene_digito (norm_plate s) = false.
Proof.
  intros Hs. unfold norm_plate.
  do 2 apply tiene_digito_remove_char. by rewrite tiene_digito_upper.
Qed.

(** X8. When every write succeeds, [registrar_deteccion_y_multa] returns
    the verdict of the rules for the normalised plate at [ts], leaves the
    plate in [vehicles] with [last_seen = ts], appends one detection row
    carrying that verdict, and appends one violation row exactly when the
    verdict is a violation; it applies no first-sighting exemption and no
    cooldown. *)
Theorem X8_registrar_when_writes_succeed
    (G : Config) (now : datetime) (plate color source bbox : string) (ts : datetime)
    (photo_path : option string) (d : DB) (puede : bool) (det : detalle) :
  puede_circular_pasto G now (norm_plate plate) (Some ts) = Return (puede, det) →
  let r := registrar_deteccion_y_multa G now sin_fallos plate color ts source bbox
             photo_path d in
  r.2 = Return {| r_plate := norm_plate plate; r_timestamp := ts;
                  es_violacion := negb puede; r_motivo := motivo det;
                  detalle_regla := det |}
  ∧ last_seen <$> vehicles r.1 !! norm_plate plate = Some ts
  ∧ detections r.1
    = detections d
      ++ [ {| d_plate := norm_plate plate; d_color := color; d_timestamp := ts;
              d_source := source; d_bbox := bbox; d_violation := negb puede;
              d_reason := motivo det; d_photo_path := photo_path |} ]
  ∧ violations r.1
    = violations d
      ++ (if puede then []
          else [ {| x_plate := norm_plate plate; x_color := color; x_timestamp := ts;
                    x_reason := motivo det; x_photo_path := photo_path |} ]).
Proof.
  intros Hr r. subst r. rewrite registrar_run, Hr. cbn [sin_fallos rio_upsert
    rio_detection rio_violation]. rewrite !decide_True by done.
  destruct (upsert_vehicle_tables io_ok (norm_plate plate) color ts d) as [Hd Hx].
  pose proof (upsert_vehicle_lookup io_ok (norm_plate plate) color ts d) as Hl.
  rewrite decide_True in Hl by done.
  destruct puede; cbn [fst snd vehicles detections violations sql_insert_detection
    sql_insert_violation]; rewrite Hl, Hd, Hx, ?app_nil_r; done.
Qed.

Lemma X8_witness :
  es_violacion <$> (registrar_deteccion_y_multa pasto reloj sin_fallos "abc-120" "rojo"
                      (lunes 8 0 0) "camara" "10,20,110,60" None init_db).2
  = Return true.
Proof.
  pose proof (X8_registrar_when_writes_succeed pasto reloj "abc-120" "rojo" "camara"
                "10,20,110,60" (lunes 8 0 0) None init_db false
                (motivo_no_puede pasto "ABC120" 0 "LUNES")) as H.
  destruct H as (Hr & _).
  - vm_compute. reflexivity.
  - rewrite Hr. reflexivity.
Defined.

(** X9. [registrar_deteccion_y_multa] is not one transaction.  It raises
    what the failing write raises and keeps what was committed before it: a
    failing upsert leaves the database as it was; a failing detection write
    leaves the vehicle row written and no new row in the two other tables; a
    failing violation write leaves the vehicle row and a detection row with
    [violation = True] that has no violation row. *)
Theorem X9_registrar_keeps_what_was_committed
    (G : Config) (now : datetime) (io : RegistrarIO) (plate color source bbox : string)
    (ts : datetime) (photo_path : option string) (d : DB) (puede : bool) (det : detalle) :
  puede_circular_pasto G now (norm_plate plate) (Some ts) = Return (puede, det) →
  let r := registrar_deteccion_y_multa G now io plate color ts source bbox
             photo_path d in
  let d1 := (upsert_vehicle io_ok (norm_plate plate) color ts d).1 in
  (rio_upsert io ≠ io_ok → r = (d, Raise OperationalError))
  ∧ (rio_upsert io = io_ok → rio_detection io ≠ io_ok →
     r = (d1, Raise OperationalError))
  ∧ (rio_upsert io = io_ok → rio_detection io = io_ok → puede = false →
     rio_violation io ≠ io_ok →
     r.2 = Raise OperationalError
     ∧ vehicles r.1 = vehicles d1
     ∧ violations r.1 = violations d
     ∧ detections r.1
       = detections d
         ++ [ {| d_plate := norm_plate plate; d_color := color; d_timestamp := ts;
                 d_source := source; d_bbox := bbox; d_violation := true;
                 d_reason := motivo det; d_photo_path := photo_path |} ]).
Proof.
  intros Hr r d1. subst r. rewrite registrar_run, Hr.
  destruct (upsert_vehicle_tables io_ok (norm_plate plate) color ts d) as [Hd Hx].
  split; [intros Hu; by rewrite decide_False by done|].
  split.
  - intros Hu Hdet. rewrite decide_True by done. by rewrite decide_False by done.
  - intros Hu Hdet -> Hviol. rewrite !decide_True by done.
    rewrite decide_False by done.
    cbn [fst snd vehicles detections violations sql_insert_detection negb].
    by rewrite Hd, Hx.
Qed.

(** The violation write fails for [ABC120] on a Monday at 08:00. *)
Lemma X9_witness :
  d_violation <$> detections
    (registrar_deteccion_y_multa pasto reloj
       {| rio_upsert := io_ok; rio_detection := io_ok; rio_violation := commit_fails |}
       placa_ejemplo "rojo" (lunes 8 0 0) "camara" "10,20,110,60" None init_db).1
  = [true]
  ∧ violations
      (registrar_deteccion_y_multa pasto reloj
         {| rio_upsert := io_ok; rio_detection := io_ok; rio_violation := commit_fails |}
         placa_ejemplo "rojo" (lunes 8 0 0) "camara" "10,20,110,60" None init_db).1
    = [].
Proof.
  pose proof (X9_registrar_keeps_what_was_committed pasto reloj
                {| rio_upsert := io_ok; rio_detection := io_ok;
                   rio_violation := commit_fails |}
                placa_ejemplo "rojo" "camara" "10,20,110,60" (lunes 8 0 0) None init_db
                false (motivo_no_puede pasto placa_ejemplo 0 "LUNES")) as H.
  destruct H as (_ & _ & H).
  - vm_compute. reflexivity.
  - destruct H as (_ & _ & Hx & Hd).
    + reflexivity.
    + reflexivity.
    + reflexivity.
    + intros Heq. discriminate Heq.
    + rewrite Hd, Hx. split; reflexivity.
Defined.

Lemma puede_circular_pasto_sin_digito G now placa fecha_hora :
  tiene_digito placa = false →
  let fecha := dt_date (_get_fecha_hora G now fecha_hora) in
  (¬ exento G fecha →
   puede_circular_pasto G now placa fecha_hora
   = Raise (ValueError ("Placa inválida: " +:+ placa)))
  ∧ (exento G fecha →
     puede_circular_pasto G now placa fecha_hora
     = Return (true, motivo_sin_restriccion (dia_semana fecha) fecha)).
Proof.
  intros Hd fecha. split; intros Hex.
  - rewrite puede_circular_pasto_no_exento by done.
    by rewrite _ultimo_digito_sin_digito.
  - by apply puede_circular_pasto_exento.
Qed.

(** X10. A plate without a decimal digit is turned down by
    [registrar_deteccion_y_multa] before anything is written, on a date that
    is neither weekend nor holiday: the call raises [ValueError] and the
    database is as it was.  On a weekend or holiday the same plate is
    recorded: the vehicle row and a detection row are written. *)
Theorem X10_registrar_invalid_plate
    (G : Config) (now : datetime) (io : RegistrarIO) (plate color source bbox : string)
    (ts : datetime) (photo_path : option string) (d : DB) :
  tiene_digito plate = false →
  let fecha := dt_date (_get_fecha_hora G now (Some ts)) in
  (¬ exento G fecha →
   registrar_deteccion_y_multa G now io plate color ts source bbox photo_path d
   = (d, Raise (ValueError ("Placa inválida: " +:+ norm_plate plate))))
  ∧ (exento G fecha →
     let r := registrar_deteccion_y_multa G now sin_fallos plate color ts source bbox
                photo_path d in
     es_violacion <$> r.2 = Return false
     ∧ is_Some (vehicles r.1 !! norm_plate plate)
     ∧ length (detections r.1) = S (length (detections d))).
Proof.
  intros Hd fecha. apply tiene_digito_norm_plate in Hd.
  destruct (puede_circular_pasto_sin_digito G now (norm_plate plate) (Some ts) Hd)
    as [Hno Hex].
  split.
  - intros Hne. by rewrite registrar_run, (Hno Hne).
  - intros Hexe r. subst r. rewrite registrar_run, (Hex Hexe).
    cbn [sin_fallos rio_upsert rio_detection rio_violation].
    rewrite !decide_True by done.
    destruct (upsert_vehicle_tables io_ok (norm_plate plate) color ts d) as [Hdet _].
    pose proof (upsert_vehicle_lookup io_ok (norm_plate plate) color ts d) as Hl.
    rewrite decide_True in Hl by done.
    cbn [fst snd vehicles detections sql_insert_detection negb fmap outcome_fmap
         es_violacion].
    rewrite Hl, Hdet, length_app. cbn [length]. split; [done|].
    split; [by eexists|lia].
Qed.

(** Monday 10 November 2025: the plate of letters only is turned down. *)
Lemma X10_witness :
  registrar_deteccion_y_multa pasto reloj sin_fallos "abc def" "rojo" (lunes 8 0 0)
    "camara" "10,20,110,60" None init_db
  = (init_db, Raise (ValueError "Placa inválida: ABCDEF")).
Proof.
  refine (proj1 (X10_registrar_invalid_plate pasto reloj sin_fallos "abc def" "rojo"
                   "camara" "10,20,110,60" (lunes 8 0 0) None init_db _) _).
  - reflexivity.
  - apply no_exento_test. vm_compute. reflexivity.
Defined.

Lemma upper_char_idemp c : upper_char (upper_char c) = upper_char c.
Proof. by destruct c as [[] [] [] [] [] [] [] []]. Qed.

Lemma norm_plate_cons a s :
  norm_plate (String a s)
  = if decide (upper_char a = " "%char) then norm_plate s
    else if decide (upper_char a = "-"%char) then norm_plate s
         else String (upper_char a) (norm_plate s).
Proof.
  unfold norm_plate. cbn [upper remove_char].
  destruct (decide (upper_char a = " "%char)); [done|]. cbn [remove_char].
  by destruct (decide (upper_char a = "-"%char)).
Qed.

Lemma norm_plate_idemp s : norm_plate (norm_plate s) = norm_plate s.
Proof.
  induction s as [|a s IH]; [done|]. rewrite norm_plate_cons.
  destruct (decide (upper_char a = " "%char)); [done|].
  destruct (decide (upper_char a = "-"%char)); [done|].
  rewrite norm_plate_cons, upper_char_idemp.
  rewrite decide_False by done. rewrite decide_False by done. by rewrite IH.
Qed.

(** X11. [registrar_deteccion_y_multa] sees a plate only through its
    normal form (upper case, blanks and hyphens removed): two spellings with
    the same normal form have the same effect and the same result, and the
    normal form is its own normal form, so the row it writes is found again
    under the plate it returns. *)
Theorem X11_registrar_normalises_plate
    (G : Config) (now : datetime) (io : RegistrarIO) (p1 p2 color source bbox : string)
    (ts : datetime) (photo_path : option string) (d : DB) :
  norm_plate p1 = norm_plate p2 →
  registrar_deteccion_y_multa G now io p1 color ts source bbox photo_path d
  = registrar_deteccion_y_multa G now io p2 color ts source bbox photo_path d
  ∧ norm_plate (norm_plate p1) = norm_plate p1.
Proof.
  intros Heq. split; [|apply norm_plate_idemp].
  by rewrite !registrar_run, Heq.
Qed.

Lemma X11_witness :
  registrar_deteccion_y_multa pasto reloj sin_fallos "abc-120" "rojo" (lunes 8 0 0)
    "camara" "10,20,110,60" None init_db
  = registrar_deteccion_y_multa pasto reloj sin_fallos "ABC 120" "rojo" (lunes 8 0 0)
      "camara" "10,20,110,60" None init_db.
Proof.
  apply (proj1 (X11_registrar_normalises_plate pasto reloj sin_fallos "abc-120" "ABC 120"
                  "rojo" "camara" "10,20,110,60" (lunes 8 0 0) None init_db eq_refl)).
Defined.

(** ** The camera loop, further *)

Section LoopFurther.

Variable G : Config.
Variable FOTOMULTAS_DIR : string.

Lemma procesar_placa_vehicles e w :
  vehicles (db (procesar_placa G FOTOMULTAS_DIR e w).1)
  = match placa_leida e with
    | None => vehicles (db w)
    | Some p => vehicles (upsert_vehicle (s_io_upsert e) p (color_leido e) (s_ts e)
                            (db w)).1
    end.
Proof.
  destruct (placa_leida e) as [p|] eqn:Hp.
  2: { by rewrite procesar_placa_run, Hp. }
  destruct (registrada e p (db w)) eqn:Hreg.
  - pose proof Hreg as [Hs Hv]%registrada_true.
    by destruct (procesar_placa_known_tables G FOTOMULTAS_DIR e w p Hp Hs Hv)
      as (_ & _ & -> & _).
  - by destruct (procesar_placa_unregistered_tables G FOTOMULTAS_DIR e w p Hp Hreg)
      as (_ & _ & -> & _).
Qed.

Lemma procesar_placa_keeps_row e w q r :
  vehicles (db w) !! q = Some r →
  ∃ r', vehicles (db (procesar_placa G FOTOMULTAS_DIR e w).1) !! q = Some r'
        ∧ first_seen r' = first_seen r.
Proof.
  intros Hr. rewrite procesar_placa_vehicles.
  destruct (placa_leida e) as [p|]; [|by eauto].
  destruct (decide (q = p)) as [->|Hne].
  - rewrite upsert_vehicle_lookup, Hr. destruct (decide _); by eauto.
  - rewrite upsert_vehicle_lookup_ne by done. by eauto.
Qed.

Lemma procesar_placa_append e w :
  let w' := (procesar_placa G FOTOMULTAS_DIR e w).1 in
  ∃ rs xs,
    detections (db w') = detections (db w) ++ rs
    ∧ violations (db w') = violations (db w) ++ xs
    ∧ (length rs ≤ 1)%nat ∧ (length xs ≤ 1)%nat.
Proof.
  intros w'. subst w'.
  destruct (placa_leida e) as [p|] eqn:Hp.
  2: { exists [], []. rewrite procesar_placa_run, Hp. cbn.
       rewrite !app_nil_r. repeat split; lia. }
  destruct (registrada e p (db w)) eqn:Hreg.
  - pose proof Hreg as [Hs Hv]%registrada_true.
    destruct (procesar_placa_known_tables G FOTOMULTAS_DIR e w p Hp Hs Hv)
      as (Hx & Hd & _).
    eexists _, _. split; [exact Hd|]. split; [exact Hx|].
    destruct (decide _), (violacion_persistida _ _ _ _); cbn; lia.
  - destruct (procesar_placa_unregistered_tables G FOTOMULTAS_DIR e w p Hp Hreg)
      as (Hx & Hd & _).
    eexists _, []. split; [exact Hd|]. rewrite app_nil_r.
    split; [exact Hx|]. destruct (decide _); cbn; lia.
Qed.

Lemma sub_add a b c : sub a c = sub a b + sub b c.
Proof. unfold sub. lia. Qed.

Lemma sub_diag a : sub a a = 0.
Proof. unfold sub. lia. Qed.

Lemma espaciadas_lookup l : ∀ desde,
  espaciadas desde l →
  (∀ t j y, desde = Some t → l !! j = Some y →
     timedelta_seconds COOLDOWN_SEC < sub (x_timestamp y) t)
  ∧ (∀ i j x y, (i < j)%nat → l !! i = Some x → l !! j = Some y →
     timedelta_seconds COOLDOWN_SEC < sub (x_timestamp y) (x_timestamp x)).
Proof.
  induction l as [|a l IH]; intros desde Hesp.
  { split; intros; by rewrite lookup_nil in *. }
  destruct Hesp as [Ha Hl]. destruct (IH _ Hl) as [IH1 IH2].
  assert (0 < timedelta_seconds COOLDOWN_SEC) as Hpos by (vm_compute; done).
  split.
  - intros t [|j] y -> Hy; cbn in Hy.
    + by injection Hy as <-.
    + specialize (IH1 _ _ _ eq_refl Hy).
      rewrite (sub_add _ (x_timestamp a)). lia.
  - intros [|i] [|j] x y Hij Hx Hy; cbn in Hx, Hy; try lia.
    + injection Hx as <-. by eapply IH1.
    + eapply IH2; [|done..]. lia.
Qed.

(** The cooldown entry of [p] is not earlier than [desde]. *)
Lemma live_camera_espaciadas es p : ∀ w desde,
  match desde with
  | None => True
  | Some t => ∃ c, cooldown w !! p = Some c ∧ 0 ≤ sub c t
  end →
  ∃ news,
    violaciones_de p (db (live_camera G FOTOMULTAS_DIR es w).1)
    = violaciones_de p (db w) ++ news
    ∧ espaciadas desde news.
Proof.
  induction es as [|e es IH]; intros w desde Hdom.
  { exists []. by rewrite app_nil_r. }
  rewrite live_camera_cons.
  set (w' := (procesar_placa G FOTOMULTAS_DIR e w).1).
  destruct (decide (placa_leida e = Some p)) as [Hp|Hp].
  2: { destruct (procesar_placa_otra_placa G FOTOMULTAS_DIR e w p Hp)
         as (Hcd & _ & Hx & _). fold w' in Hcd, Hx.
       destruct (IH w' desde) as (news & Hnews & Hesp).
       { by rewrite Hcd. }
       exists news. by rewrite Hnews, Hx. }
  destruct (registrada e p (db w)) eqn:Hreg.
  2: { destruct (procesar_placa_unregistered_tables G FOTOMULTAS_DIR e w p Hp Hreg)
         as (Hx & _ & _ & Hcd). fold w' in Hcd, Hx.
       destruct (IH w' desde) as (news & Hnews & Hesp).
       { by rewrite Hcd. }
       exists news. unfold violaciones_de in *. by rewrite Hnews, Hx. }
  pose proof Hreg as [Hs Hv]%registrada_true.
  destruct (procesar_placa_known_tables G FOTOMULTAS_DIR e w p Hp Hs Hv)
    as (Hx & _ & _ & Hcd). fold w' in Hcd, Hx.
  destruct (permitida G e p w) eqn:Hperm.
  2: { assert (violacion_persistida G e p w = false) as Hpers
         by (unfold violacion_persistida; by rewrite Hperm).
       rewrite Hpers, app_nil_r in Hx.
       destruct (IH w' desde) as (news & Hnews & Hesp).
       { by rewrite Hcd. }
       exists news. unfold violaciones_de in *. by rewrite Hnews, Hx. }
  assert (cooldown w' !! p = Some (s_ts e)) as Hcdp
    by (rewrite Hcd; apply lookup_insert_eq).
  assert (match desde with
          | None => True
          | Some t => timedelta_seconds COOLDOWN_SEC < sub (s_ts e) t
          end) as Hgap.
  { destruct desde as [t|]; [|done]. destruct Hdom as (c & Hc & Hct).
    unfold permitida in Hperm. apply andb_true_iff in Hperm as [_ Hperm].
    rewrite Hc in Hperm. cbn in Hperm. apply Z.ltb_lt in Hperm.
    rewrite (sub_add _ c). lia. }
  destruct (violacion_persistida G e p w) eqn:Hpers.
  - destruct (IH w' (Some (s_ts e))) as (news & Hnews & Hesp).
    { exists (s_ts e). split; [done|]. by rewrite sub_diag. }
    exists (fila_violacion G FOTOMULTAS_DIR e p w :: news).
    split; [|by split].
    unfold violaciones_de in *. rewrite Hnews, Hx, filter_app.
    rewrite filter_cons, decide_True by done. by rewrite <- app_assoc.
  - rewrite app_nil_r in Hx.
    destruct (IH w' desde) as (news & Hnews & Hesp).
    { destruct desde as [t|]; [|done]. exists (s_ts e). split; [done|].
      assert (0 < timedelta_seconds COOLDOWN_SEC) by (vm_compute; done). lia. }
    exists news. unfold violaciones_de in *. by rewrite Hnews, Hx.
Qed.

End LoopFurther.

(** X12. In the camera loop a plate never leaves [vehicles] and its
    [first_seen] never changes: whatever plate boxes follow and whatever
    fails in them, the row is still there with the same [first_seen]. *)
Theorem X12_known_stays_known
    (G : Config) (FOTOMULTAS_DIR : string) (es : list Sighting) (w : World)
    (q : string) (r : VehicleRow) :
  vehicles (db w) !! q = Some r →
  ∃ r', vehicles (db (live_camera G FOTOMULTAS_DIR es w).1) !! q = Some r'
        ∧ first_seen r' = first_seen r.
Proof.
  revert w r. induction es as [|e es IH]; intros w r Hr; [by eauto|].
  rewrite live_camera_cons.
  destruct (procesar_placa_keeps_row G FOTOMULTAS_DIR e w q r Hr) as (r1 & Hr1 & H1).
  destruct (IH _ _ Hr1) as (r' & Hr' & H'). exists r'. split; [done|]. congruence.
Qed.

Lemma X12_witness :
  first_seen <$> vehicles
    (db (live_camera pasto "fotomultas"
           [avistamiento (lunes 8 0 0) io_ok io_ok;
            avistamiento_de "XYZ987" (lunes 8 0 2) io_ok io_ok;
            avistamiento (lunes 8 0 5) connect_fails execute_fails]
           (start db_conocida)).1) !! placa_ejemplo
  = Some (lunes 7 0 0).
Proof.
  destruct (X12_known_stays_known pasto "fotomultas"
              [avistamiento (lunes 8 0 0) io_ok io_ok;
               avistamiento_de "XYZ987" (lunes 8 0 2) io_ok io_ok;
               avistamiento (lunes 8 0 5) connect_fails execute_fails]
              (start db_conocida) placa_ejemplo
              {| v_color := "rojo"; first_seen := lunes 7 0 0; last_seen := lunes 7 0 0 |})
    as (r' & Hr' & Hfs).
  - vm_compute. reflexivity.
  - rewrite Hr'. cbn. by rewrite Hfs.
Defined.

(** X13. The camera loop only appends to the two tables: after any run the
    detections and the violations that were there come first and unchanged,
    and a run over [n] plate boxes adds at most [n] rows to each. *)
Theorem X13_camera_loop_appends
    (G : Config) (FOTOMULTAS_DIR : string) (es : list Sighting) (w : World) :
  let w' := (live_camera G FOTOMULTAS_DIR es w).1 in
  ∃ rs xs,
    detections (db w') = detections (db w) ++ rs
    ∧ violations (db w') = violations (db w) ++ xs
    ∧ (length rs ≤ length es)%nat
    ∧ (length xs ≤ length es)%nat.
Proof.
  revert w. induction es as [|e es IH]; intros w w'; subst w'.
  { exists [], []. by rewrite !app_nil_r. }
  rewrite live_camera_cons.
  destruct (IH (procesar_placa G FOTOMULTAS_DIR e w).1) as (rs & xs & Hd & Hx & Hn & Hm).
  destruct (procesar_placa_append G FOTOMULTAS_DIR e w)
    as (rs1 & xs1 & Hd1 & Hx1 & ? & ?).
  exists (rs1 ++ rs), (xs1 ++ xs).
  rewrite Hd, Hx, Hd1, Hx1, <- !app_assoc, !length_app. cbn [length].
  repeat split; lia.
Qed.

(** X14. A plate box whose text does not pass the filter (no text, an OCR
    error, or a text that is not exactly six characters long) writes
    nothing: not even the vehicle row; the cooldown is as it was. *)
Theorem X14_filtered_plate_box_writes_nothing
    (G : Config) (FOTOMULTAS_DIR : string) (e : Sighting) (w : World) :
  pasa_filtro e = false →
  let w' := (procesar_placa G FOTOMULTAS_DIR e w).1 in
  db w' = db w ∧ cooldown w' = cooldown w ∧ ok w' = ok w.
Proof.
  intros Hf w'. subst w'.
  assert (placa_leida e = None) as Hp.
  { unfold pasa_filtro in Hf. unfold placa_leida.
    destruct (s_ocr e) as [[p|]|]; try done.
    destruct (decide (p = "")) as [Hemp|Hemp]; [done|].
    rewrite (bool_decide_eq_false_2 _ Hemp) in Hf. cbn in Hf. by rewrite Hf. }
  by rewrite procesar_placa_run, Hp.
Qed.

(** Seven characters. *)
Lemma X14_witness :
  db (procesar_placa pasto "fotomultas"
        (avistamiento_de "ABC1234" (lunes 8 0 0) io_ok io_ok) (start init_db)).1
  = init_db.
Proof.
  apply (X14_filtered_plate_box_writes_nothing pasto "fotomultas"
           (avistamiento_de "ABC1234" (lunes 8 0 0) io_ok io_ok) (start init_db)).
  reflexivity.
Defined.

(** X15. Any two violation rows that one run of the camera loop writes
    for the same plate are more than 10 seconds apart, the later row later,
    whatever happens in between and whatever write fails. *)
Theorem X15_violations_of_a_plate_are_spaced
    (G : Config) (FOTOMULTAS_DIR : string) (es : list Sighting) (w : World)
    (p : string) :
  ∃ news,
    violaciones_de p (db (live_camera G FOTOMULTAS_DIR es w).1)
    = violaciones_de p (db w) ++ news
    ∧ ∀ i j x y, (i < j)%nat → news !! i = Some x → news !! j = Some y →
        timedelta_seconds COOLDOWN_SEC < sub (x_timestamp y) (x_timestamp x).
Proof.
  destruct (live_camera_espaciadas G FOTOMULTAS_DIR es p w None I)
    as (news & Hnews & Hesp).
  exists news. split; [done|]. by apply (espaciadas_lookup news None).
Qed.

(** X16. When the status read fails, the camera loop treats the plate as
    never seen, even if it is in [vehicles]: the rules are not evaluated
    (any two configurations give the same outcome), no violation is written
    and the cooldown is not touched; the detection is recorded with
    [violation = False], and the failure is printed. *)
Theorem X16_status_failure_is_first_sighting
    (G1 G2 : Config) (FOTOMULTAS_DIR : string) (e : Sighting) (w : World) (p : string) :
  placa_leida e = Some p →
  s_io_status e ≠ io_ok →
  let w' := (procesar_placa G1 FOTOMULTAS_DIR e w).1 in
  procesar_placa G1 FOTOMULTAS_DIR e w = procesar_placa G2 FOTOMULTAS_DIR e w
  ∧ violations (db w') = violations (db w)
  ∧ cooldown w' = cooldown w
  ∧ detections (db w')
    = detections (db w)
      ++ (if decide (s_io_detection e = io_ok)
          then [ {| d_plate := p; d_color := color_leido e; d_timestamp := s_ts e;
                    d_source := video_name; d_bbox := bbox_str (s_bbox e);
                    d_violation := false; d_reason := motivo_no_registrado;
                    d_photo_path := None |} ]
          else [])
  ∧ ErrorConsultandoEstado OperationalError ∈ stdout w'.
Proof.
  intros Hp Hio w'.
  assert (registrada e p (db w) = false) as Hreg.
  { unfold registrada. by rewrite (bool_decide_eq_false_2 _ Hio). }
  destruct (procesar_placa_unregistered_tables G1 FOTOMULTAS_DIR e w p Hp Hreg)
    as (Hx & Hd & _ & Hcd).
  fold w' in Hx, Hd, Hcd.
  split; [by rewrite !procesar_placa_run, Hp, Hreg|].
  split; [done|]. split; [done|]. split; [done|].
  subst w'. rewrite procesar_placa_run, Hp, Hreg, caso_a_run.
  unfold tras_upsert. cbn [fst stdout]. rewrite get_plate_status_run.
  rewrite decide_False by done. cbn [snd lineas].
  rewrite !elem_of_app. left. right. right. left. apply list_elem_of_here.
Qed.

(** [ABC120] is in the database and restricted at 08:00, and the status
    read fails. *)
Lemma X16_witness :
  d_violation <$> detections
    (db (procesar_placa pasto "fotomultas"
           {| s_ocr := Return (Some placa_ejemplo); s_color := Return "rojo";
              s_ts := lunes 8 0 0; s_now := lunes 8 0 0; s_bbox := (10, 20, 110, 60);
              s_io_status := connect_fails; s_io_upsert := io_ok;
              s_io_violation := io_ok; s_io_detection := io_ok;
              s_imwrite := Return tt |}
           (start db_conocida)).1)
  = [false; false].
Proof.
  pose proof (X16_status_failure_is_first_sighting pasto pasto "fotomultas"
                {| s_ocr := Return (Some placa_ejemplo); s_color := Return "rojo";
                   s_ts := lunes 8 0 0; s_now := lunes 8 0 0; s_bbox := (10, 20, 110, 60);
                   s_io_status := connect_fails; s_io_upsert := io_ok;
                   s_io_violation := io_ok; s_io_detection := io_ok;
                   s_imwrite := Return tt |}
                (start db_conocida) placa_ejemplo) as H.
  destruct H as (_ & _ & _ & Hd & _).
  - reflexivity.
  - intros Heq. discriminate Heq.
  - rewrite Hd. vm_compute. reflexivity.
Defined.

(** X17. When the rules raise for a plate that is in [vehicles] (a
    six-character text without a digit, on a date that is neither weekend
    nor holiday), the camera loop prints the error and records the plate box
    as no violation, with the reason "Error al evaluar pico y placa.": no
    violation row, no cooldown entry.  If no plate box before it had its
    rules evaluated, the local [ok] is still unbound after the detection is
    written, which the loop prints as an error of the plate box. *)
Theorem X17_rules_error_is_not_a_violation
    (G : Config) (FOTOMULTAS_DIR : string) (e : Sighting) (w : World) (p : string) :
  placa_leida e = Some p →
  s_io_status e = io_ok →
  is_Some (vehicles (db w) !! p) →
  tiene_digito p = false →
  ¬ exento G (dt_date (_get_fecha_hora G (s_now e) None)) →
  let w' := (procesar_placa G FOTOMULTAS_DIR e w).1 in
  violations (db w') = violations (db w)
  ∧ cooldown w' = cooldown w
  ∧ detections (db w')
    = detections (db w)
      ++ (if decide (s_io_detection e = io_ok)
          then [ {| d_plate := p; d_color := color_leido e; d_timestamp := s_ts e;
                    d_source := video_name; d_bbox := bbox_str (s_bbox e);
                    d_violation := false;
                    d_reason := "Error al evaluar pico y placa.";
                    d_photo_path := None |} ]
          else [])
  ∧ ErrorEvaluando (ValueError ("Placa inválida: " +:+ p)) ∈ stdout w'
  ∧ (ok w = None →
     ok w' = None ∧ ErrorProcesandoPlaca (NameError "ok") ∈ stdout w').
Proof.
  intros Hp Hs Hv Hdig Hex w'.
  assert (puede_circular_pasto G (s_now e) p None
          = Raise (ValueError ("Placa inválida: " +:+ p))) as Hr.
  { by apply (puede_circular_pasto_sin_digito G (s_now e) p None Hdig). }
  assert (veredicto G e p = (false, "Error al evaluar pico y placa.")) as Hver.
  { unfold veredicto. by rewrite Hr. }
  assert (permitida G e p w = false) as Hperm.
  { unfold permitida. by rewrite Hver. }
  destruct (procesar_placa_known_tables G FOTOMULTAS_DIR e w p Hp Hs Hv)
    as (Hx & Hd & _ & Hcd).
  fold w' in Hx, Hd, Hcd.
  assert (violacion_persistida G e p w = false) as Hpers
    by (unfold violacion_persistida; by rewrite Hperm).
  rewrite Hpers, app_nil_r in Hx. rewrite Hperm in Hcd.
  unfold fila_deteccion, foto in Hd. rewrite Hperm, Hver in Hd.
  split; [done|]. split; [done|]. split; [done|].
  assert (registrada e p (db w) = true) as Hreg by (by apply registrada_true).
  subst w'. rewrite procesar_placa_run, Hp, Hreg, caso_b_run.
  cbn [fst snd stdout ok]. rewrite Hr. cbn [lineas].
  unfold tras_upsert. cbn [stdout ok].
  split.
  - rewrite !elem_of_app. left. right. left. apply list_elem_of_here.
  - intros Hok. rewrite Hok. split; [done|]. cbn [lineas].
    rewrite !elem_of_app. right. apply list_elem_of_here.
Qed.

(** [ABCDEF] is in the database and meets the camera on a Monday at 08:00. *)
Lemma X17_witness :
  let w := start (db (procesar_placa pasto "fotomultas"
                        (avistamiento_de "ABCDEF" (lunes 7 0 0) io_ok io_ok)
                        (start init_db)).1) in
  stdout (procesar_placa pasto "fotomultas"
            (avistamiento_de "ABCDEF" (lunes 8 0 0) io_ok io_ok) w).1
  = [ErrorEvaluando (ValueError "Placa inválida: ABCDEF");
     ErrorProcesandoPlaca (NameError "ok")]
  ∧ violations (db (procesar_placa pasto "fotomultas"
                      (avistamiento_de "ABCDEF" (lunes 8 0 0) io_ok io_ok) w).1)
    = [].
Proof.
  intros w.
  pose proof (X17_rules_error_is_not_a_violation pasto "fotomultas"
                (avistamiento_de "ABCDEF" (lunes 8 0 0) io_ok io_ok) w "ABCDEF") as H.
  destruct H as (Hx & _).
  - reflexivity.
  - reflexivity.
  - eexists. vm_compute. reflexivity.
  - reflexivity.
  - apply no_exento_test. vm_compute. reflexivity.
  - split; [vm_compute; reflexivity|]. rewrite Hx. reflexivity.
Defined.

(** ** detector/process_video.py *)

Ltac run_PV :=
  unfold ProcessVideo.procesar_placa, ProcessVideo.on_db, ProcessVideo.set_cooldown,
         ProcessVideo.imwrite_sin_imagen, get, modify, lift, raise,
         mbind, mret, M_bind, M_ret;
  cbv beta iota zeta.

(** X18. The loop of [detector/process_video.py] never writes a violation
    row: whatever the plate box brings, the [violations] table is as it was
    after it ([cv2.imwrite], called without its image, raises before
    [insert_violation] is reached). *)
Theorem X18_process_video_never_writes_a_violation
    (G : Config) (FOTOMULTAS_DIR : string) (e : ProcessVideo.Sighting)
    (w : ProcessVideo.World) :
  violations (ProcessVideo.db (ProcessVideo.procesar_placa G FOTOMULTAS_DIR e w).1)
  = violations (ProcessVideo.db w).
Proof.
  run_PV.
  destruct (ProcessVideo.s_ocr e) as [[p|]|ex]; cbv beta iota zeta; [|done..].
  destruct (decide (p = "")); [done|].
  destruct (ProcessVideo.s_color e) as [c|ex]; cbv beta iota zeta; [|done].
  destruct (puede_circular_pasto _ _ _ _) as [[puede det]|ex]; cbv beta iota zeta;
    [|done].
  pose proof (upsert_vehicle_tables (ProcessVideo.s_io_upsert e) p c
                (ProcessVideo.s_ts e) (ProcessVideo.db w)) as [_ Hx].
  destruct (upsert_vehicle _ _ _ _ _) as [d1 [[]|ex]]; cbn [fst] in Hx;
    cbv beta iota zeta; cbn [ProcessVideo.db ProcessVideo.cooldown fst snd];
    [|done].
  destruct puede; cbn [negb]; cbv beta iota zeta;
    cbn [ProcessVideo.db ProcessVideo.cooldown fst snd].
  - rewrite insert_detection_run.
    by destruct (decide _); cbv beta iota zeta; cbn.
  - destruct (ProcessVideo.cooldown_permits _ _); cbv beta iota zeta;
      cbn [ProcessVideo.db ProcessVideo.cooldown fst snd]; [done|].
    rewrite insert_detection_run.
    by destruct (decide _); cbv beta iota zeta; cbn.
Qed.

(** X19. In [detector/process_video.py] a plate box the rules refuse and
    the cooldown permits stops the loop: the vehicle row is written, the
    cooldown entry is set, [cv2.imwrite] raises, and neither a detection
    row nor a violation row is written.  There is no first-sighting
    exemption: the plate need not be in [vehicles]. *)
Theorem X19_process_video_stops_at_a_permitted_violation
    (G : Config) (FOTOMULTAS_DIR : string) (e : ProcessVideo.Sighting)
    (w : ProcessVideo.World) (p c : string) (det : detalle) :
  ProcessVideo.s_ocr e = Return (Some p) →
  p ≠ "" →
  ProcessVideo.s_color e = Return c →
  puede_circular_pasto G (ProcessVideo.s_ts e) p (Some (ProcessVideo.s_ts e))
  = Return (false, det) →
  ProcessVideo.s_io_upsert e = io_ok →
  ProcessVideo.cooldown_permits (ProcessVideo.cooldown w !! p) (ProcessVideo.s_ts e)
  = true →
  ProcessVideo.procesar_placa G FOTOMULTAS_DIR e w
  = ({| ProcessVideo.db :=
          (upsert_vehicle io_ok p c (ProcessVideo.s_ts e) (ProcessVideo.db w)).1;
        ProcessVideo.cooldown :=
          <[p := ProcessVideo.s_ts e]> (ProcessVideo.cooldown w) |},
     Raise CvError).
Proof.
  intros Hocr Hp Hc Hr Hio Hperm. run_PV.
  rewrite Hocr. cbv beta iota zeta. rewrite decide_False by done.
  rewrite Hc. cbv beta iota zeta. rewrite Hr. cbv beta iota zeta. rewrite Hio.
  rewrite upsert_vehicle_run, decide_True by done.
  cbv beta iota zeta. cbn [negb ProcessVideo.db ProcessVideo.cooldown fst snd].
  by rewrite Hperm.
Qed.

(** [ABC120], never seen, on a Monday at 08:00. *)
Lemma X19_witness :
  (ProcessVideo.procesar_placa pasto "fotomultas"
     {| ProcessVideo.s_ocr := Return (Some placa_ejemplo);
        ProcessVideo.s_color := Return "rojo";
        ProcessVideo.s_ts := lunes 8 0 0;
        ProcessVideo.s_bbox := (10, 20, 110, 60);
        ProcessVideo.s_io_upsert := io_ok;
        ProcessVideo.s_io_violation := io_ok;
        ProcessVideo.s_io_detection := io_ok |}
     {| ProcessVideo.db := init_db; ProcessVideo.cooldown := ∅ |}).2
  = Raise CvError.
Proof.
  rewrite (X19_process_video_stops_at_a_permitted_violation pasto "fotomultas" _
             {| ProcessVideo.db := init_db; ProcessVideo.cooldown := ∅ |}
             placa_ejemplo "rojo" (motivo_no_puede pasto placa_ejemplo 0 "LUNES")).
  - reflexivity.
  - reflexivity.
  - intros Heq. discriminate Heq.
  - reflexivity.
  - vm_compute. reflexivity.
  - reflexivity.
  - reflexivity.
Defined.

(** ** The callers: api/main.py, chat_qa_pico_placa.py, chatbot/chatbot.py *)

Lemma _fallback_dias_strftime fecha :
  Api._fallback_dias !! upper (strftime_A fecha) = Some (dia_semana fecha).
Proof.
  unfold strftime_A, dia_semana.
  pose proof (weekday_range fecha).
  assert (weekday fecha = 0 ∨ weekday fecha = 1 ∨ weekday fecha = 2
          ∨ weekday fecha = 3 ∨ weekday fecha = 4 ∨ weekday fecha = 5
          ∨ weekday fecha = 6) as [Hw|[Hw|[Hw|[Hw|[Hw|[Hw|Hw]]]]]] by lia;
    rewrite Hw; reflexivity.
Qed.

Lemma dia_con_fallback_dia_semana G fecha :
  Api.dia_con_fallback G fecha = dia_semana fecha.
Proof.
  unfold Api.dia_con_fallback.
  rewrite DIA_MAP_strftime, _fallback_dias_strftime. simpl.
  by destruct (bool_decide _).
Qed.

Lemma exento_dec G fecha :
  bool_decide (dia_semana fecha ∈ ["SABADO"; "DOMINGO"])
  || bool_decide (fecha ∈ FESTIVOS_2025 G) = false ↔ ¬ exento G fecha.
Proof.
  rewrite <- exento_test. by destruct (_ || _).
Qed.

Lemma hoy_reglas_digitos G clock :
  let fecha := dt_date (Api._now G clock) in
  Api.hr_digitos_restringidos (Api.hoy_reglas G clock)
  = if bool_decide (dia_semana fecha ∈ ["SABADO"; "DOMINGO"])
       || bool_decide (fecha ∈ FESTIVOS_2025 G)
    then [] else tabla_semanal G fecha.
Proof.
  intros fecha. unfold Api.hoy_reglas. fold fecha.
  rewrite dia_con_fallback_dia_semana.
  by destruct (_ || _).
Qed.

Lemma _get_fecha_hora_now G clock :
  _get_fecha_hora G clock (Some (Api._now G clock)) = Api._now G clock.
Proof. unfold _get_fecha_hora, Api._now. by destruct (DEMO_MODE G). Qed.

(** X20. The endpoint [/hoy_reglas] and the chat helper [_digitos_hoy]
    give the same date, day name, holiday flag and digits for every clock
    and every configuration: the fallback table that only [hoy_reglas] has
    never changes the day name. *)
Theorem X20_hoy_reglas_and_digitos_hoy_agree (G : Config) (clock : datetime) :
  let a := Api.hoy_reglas G clock in
  let c := ChatQa._digitos_hoy G clock in
  Api.hr_fecha a = ChatQa.dh_fecha c
  ∧ Api.hr_dia a = ChatQa.dh_dia c
  ∧ Api.hr_es_festivo a = ChatQa.dh_es_festivo c
  ∧ Api.hr_digitos_restringidos a = ChatQa.dh_digitos_restringidos c
  ∧ Api.hr_dia a = dia_semana (dt_date (Api._now G clock)).
Proof.
  unfold Api.hoy_reglas, ChatQa._digitos_hoy, ChatQa._now, Api._now.
  rewrite dia_con_fallback_dia_semana, DIA_MAP_strftime.
  cbn [default from_option id]. cbv zeta.
  by destruct (_ || _).
Qed.

(** X21. On a date without an entry in the override calendar, the digits
    [/hoy_reglas] lists are the digits the rules enforce: inside the window,
    a plate is refused by [puede_circular_pasto] exactly when its last digit
    is in the list. *)
Theorem X21_hoy_reglas_digits_are_enforced
    (G : Config) (clock : datetime) (placa : string) (d : Z) :
  let now := Api._now G clock in
  CALENDARIO_PICO_PLACA_2025 G !! dt_date now = None →
  last_digit placa = Some d →
  en_horario G (dt_time now) = true →
  fst <$> puede_circular_pasto G clock placa (Some now)
  = Return (negb (bool_decide
                    (d ∈ Api.hr_digitos_restringidos (Api.hoy_reglas G clock)))).
Proof.
  intros now Hcal Hd Hh. rewrite hoy_reglas_digitos. fold now.
  destruct (_ || _) eqn:Hb.
  - apply exento_test in Hb.
    rewrite puede_circular_pasto_exento by by rewrite _get_fecha_hora_now.
    rewrite bool_decide_eq_false_2 by by intros ?%elem_of_nil. done.
  - apply exento_dec in Hb.
    rewrite puede_circular_pasto_no_exento by by rewrite _get_fecha_hora_now.
    rewrite _get_fecha_hora_now. fold now.
    rewrite _ultimo_digito_last_digit, Hd. simpl. rewrite Hh, andb_true_r.
    unfold digitos_del_dia. rewrite Hcal. fold (tabla_semanal G (dt_date now)).
    by destruct (bool_decide _).
Qed.

(** Monday 10 November 2025, 08:00: the list is [0, 1] and the plate ending
    in 0 is refused. *)
Lemma X21_witness :
  fst <$> puede_circular_pasto pasto (lunes 8 0 0) placa_ejemplo
            (Some (Api._now pasto (lunes 8 0 0)))
  = Return (negb (bool_decide
                    (0 ∈ Api.hr_digitos_restringidos (Api.hoy_reglas pasto (lunes 8 0 0))))).
Proof.
  apply (X21_hoy_reglas_digits_are_enforced pasto (lunes 8 0 0) placa_ejemplo 0);
    reflexivity.
Defined.

(** X22. [/hoy_reglas] reads the weekday table only.  On a working day with
    an entry in the override calendar, a plate whose last digit is in the
    entry and not in the weekday table is refused by [puede_circular_pasto]
    inside the window, and its digit is not in the list of [/hoy_reglas]. *)
Theorem X22_hoy_reglas_ignores_the_override
    (G : Config) (clock : datetime) (placa : string) (d : Z) (digitos : list Z) :
  let now := Api._now G clock in
  ¬ exento G (dt_date now) →
  CALENDARIO_PICO_PLACA_2025 G !! dt_date now = Some digitos →
  last_digit placa = Some d →
  d ∈ digitos →
  d ∉ tabla_semanal G (dt_date now) →
  en_horario G (dt_time now) = true →
  fst <$> puede_circular_pasto G clock placa (Some now) = Return false
  ∧ d ∉ Api.hr_digitos_restringidos (Api.hoy_reglas G clock).
Proof.
  intros now Hex Hcal Hd Hin Hout Hh. split.
  - rewrite puede_circular_pasto_no_exento by by rewrite _get_fecha_hora_now.
    rewrite _get_fecha_hora_now. fold now.
    rewrite _ultimo_digito_last_digit, Hd. simpl. rewrite Hh, andb_true_r.
    unfold digitos_del_dia. rewrite Hcal.
    by rewrite bool_decide_eq_true_2.
  - rewrite hoy_reglas_digitos. fold now.
    by rewrite (proj2 (exento_dec G (dt_date now)) Hex).
Qed.

(** Friday 28 November 2025, 08:00, and a plate ending in 0. *)
Lemma X22_witness :
  fst <$> puede_circular_pasto pasto viernes_con_override placa_ejemplo
            (Some (Api._now pasto viernes_con_override)) = Return false
  ∧ 0 ∉ Api.hr_digitos_restringidos (Api.hoy_reglas pasto viernes_con_override).
Proof.
  apply (X22_hoy_reglas_ignores_the_override pasto viernes_con_override
           placa_ejemplo 0 [0; 1]).
  - apply no_exento_test. vm_compute. reflexivity.
  - vm_compute. reflexivity.
  - reflexivity.
  - set_solver.
  - apply (bool_decide_eq_false_1 (0 ∈ [8; 9])). vm_compute. reflexivity.
  - reflexivity.
Defined.

Ltac run_Api :=
  unfold Api.placa_status, ChatQa._info_placa_bd, get, modify, lift, raise,
         mbind, mret, M_bind, M_ret;
  cbv beta iota zeta.

Lemma _cmp_antisym x y : _cmp y x = CompOpp (_cmp x y).
Proof.
  revert y. induction x as [|a x IH]; intros [|b y]; simpl; try done.
  rewrite (Z.compare_antisym a b). destruct (a ?= b); simpl; auto.
Qed.

Lemma time_ltb_le a b : time_ltb a b = negb (time_le b a).
Proof.
  unfold time_ltb, time_le, leb_fields.
  rewrite (_cmp_antisym (time_fields a) (time_fields b)).
  by destruct (_cmp (time_fields a) (time_fields b)).
Qed.

Lemma _ultimo_digito_local_last_digit placa :
  Api._ultimo_digito_local placa = last_digit placa.
Proof.
  unfold Api._ultimo_digito_local, String.rev.
  rewrite first_digit_rev_app, last_digit_upper. by destruct (last_digit placa).
Qed.

Lemma conocida_test p d :
  bool_decide (first_seen <$> vehicles d !! p = None)
  && bool_decide (last_seen <$> vehicles d !! p = None)
  && bool_decide (length (filter (λ x, x_plate x = p) (violations d)) = 0%nat) = false
  ↔ conocida p d.
Proof.
  unfold conocida, violaciones_de.
  destruct (vehicles d !! p) as [r|]; simpl.
  - split; [|done]. intros _. left. by eexists.
  - destruct (filter _ _) as [|x l]; simpl.
    + split; [done|]. intros [[? [=]]|?]; done.
    + split; [|done]. intros _. by right.
Qed.

Lemma placa_status_spec G clock plate d :
  let p := upper plate in
  let now := Api._now G clock in
  match Api.placa_status G io_ok clock plate d with
  | (d', Return (Api.NoRegistrada p' _)) => d' = d ∧ p' = p ∧ ¬ conocida p d
  | (d', Return (Api.Registrada st det _ ok pico _ msg inf)) =>
      d' = d ∧ conocida p d
      ∧ det = bool_decide (is_Some (vehicles d !! p))
      ∧ pico = pico_segun_tabla G plate (dt_date now)
      ∧ fst <$> puede_circular_pasto G clock p (Some now) = Return ok
      ∧ inf = pico && en_horario G (dt_time now) && det
      ∧ (pico = false
         → msg = "Hoy no tienes pico y placa, circula con tranquilidad.")
  | (d', Raise e) =>
      d' = d ∧ conocida p d
      ∧ puede_circular_pasto G clock p (Some now) = Raise e
  end.
Proof.
  intros p now. subst p. run_Api. rewrite get_plate_status_run.
  destruct (decide (io_ok = io_ok)) as [_|]; [|done].
  cbn [st_first_seen st_last_seen st_violations st_color st_plate].
  fold now.
  destruct (_ && _ && _) eqn:Hc.
  - split; [done|]. split; [done|]. rewrite <- conocida_test. by rewrite Hc.
  - apply conocida_test in Hc.
    destruct (puede_circular_pasto G clock (upper plate) (Some now))
      as [[ok det]|e]; [|done].
    rewrite dia_con_fallback_dia_semana, _ultimo_digito_local_last_digit.
    rewrite last_digit_upper.
    fold (tabla_semanal G (dt_date now)).
    rewrite <- negb_orb. fold (pico_segun_tabla G plate (dt_date now)).
    rewrite !time_ltb_le.
    rewrite (bool_decide_ext _ _ (fmap_is_Some last_seen (vehicles d !! upper plate))).
    unfold en_horario.
    destruct (pico_segun_tabla G plate (dt_date now));
      destruct (time_le (HORARIO_INICIO G) (dt_time now));
      destruct (time_le (dt_time now) (HORARIO_FIN G));
      destruct (bool_decide (is_Some (vehicles d !! upper plate)));
      simpl negb; cbv beta iota zeta; repeat split; done.
Qed.


(** X23. [placa_status] only reads: whatever SQLite does and whatever it
    answers or raises, the database is as it was. *)
Theorem X23_placa_status_is_read_only
    (G : Config) (io : sqlite_io) (clock : datetime) (plate : string) (d : DB) :
  (Api.placa_status G io clock plate d).1 = d.
Proof.
  destruct (decide (io = io_ok)) as [->|Hio].
  - pose proof (placa_status_spec G clock plate d) as H. simpl in H.
    destruct (Api.placa_status G io_ok clock plate d) as [d' [[]|]]; simpl;
      by destruct H.
  - run_Api. rewrite get_plate_status_run. by destruct (decide (io = io_ok)).
Qed.

(** X24. With SQLite working, [placa_status] gives the short answer
    [registrada: False] exactly for a plate that, in upper case, has neither
    a vehicle row nor a violation row; no rule is evaluated for it, so the
    answer does not depend on the clock or on the plate having a digit. *)
Theorem X24_placa_status_unregistered
    (G : Config) (clock : datetime) (plate : string) (d : DB) :
  es_no_registrada (Api.placa_status G io_ok clock plate d).2 = true
  ↔ ¬ conocida (upper plate) d.
Proof.
  pose proof (placa_status_spec G clock plate d) as H. simpl in H.
  destruct (Api.placa_status G io_ok clock plate d) as [d' [[]|]]; simpl.
  - by destruct H as (_ & _ & ?).
  - destruct H as (_ & ? & _). by split.
  - destruct H as (_ & ? & _). by split.
Qed.


(** X26. On a date without an entry in the override calendar, the fields
    of a [placa_status] answer agree with the rules: [puede_circular_hoy] is
    false exactly when the plate has [tiene_pico_hoy] and the time is inside
    the window, and [en_infraccion] is true exactly when the plate may not
    circulate and has a vehicle row. *)
Theorem X26_placa_status_agrees_with_rules
    (G : Config) (clock : datetime) (plate : string) (d d' : DB)
    (st : PlateStatus) (detectada ok pico inf : bool) (consulta motivo msg : string) :
  let now := Api._now G clock in
  Api.placa_status G io_ok clock plate d
  = (d', Return (Api.Registrada st detectada consulta ok pico motivo msg inf)) →
  CALENDARIO_PICO_PLACA_2025 G !! dt_date now = None →
  ok = negb (pico && en_horario G (dt_time now))
  ∧ inf = negb ok && detectada
  ∧ detectada = bool_decide (is_Some (vehicles d !! upper plate)).
Proof.
  intros now Hr Hcal.
  pose proof (placa_status_spec G clock plate d) as H. simpl in H.
  rewrite Hr in H. fold now in H.
  destruct H as (_ & _ & Hdet & Hpico & Hp & Hinf & _).
  assert (ok = negb (pico && en_horario G (dt_time now))) as Hok.
  { rewrite Hpico. unfold pico_segun_tabla.
    destruct (_ || _) eqn:Hb.
    - apply exento_test in Hb.
      rewrite puede_circular_pasto_exento in Hp by by rewrite _get_fecha_hora_now.
      by injection Hp as <-.
    - apply exento_dec in Hb.
      rewrite puede_circular_pasto_no_exento in Hp by by rewrite _get_fecha_hora_now.
      rewrite _get_fecha_hora_now in Hp. fold now in Hp.
      rewrite _ultimo_digito_last_digit, last_digit_upper in Hp.
      destruct (last_digit plate) as [u|]; [|done]. simpl in Hp.
      unfold digitos_del_dia in Hp. rewrite Hcal in Hp.
      fold (tabla_semanal G (dt_date now)) in Hp.
      destruct (bool_decide (u ∈ tabla_semanal G (dt_date now)));
        destruct (en_horario G (dt_time now)); simpl in Hp;
        by injection Hp as <-. }
  split; [done|]. split; [|done].
  rewrite Hinf, Hok. by rewrite negb_involutive.
Qed.

(** The plate of the example, known to the ledger, asked about on Monday
    10 November 2025 at 08:00: it may not circulate and is in infraction. *)
Lemma X26_witness :
  false = negb (true && en_horario pasto (dt_time (Api._now pasto (lunes 8 0 0))))
  ∧ true = negb false && true
  ∧ true = bool_decide (is_Some (vehicles db_conocida !! upper placa_ejemplo)).
Proof.
  eapply (X26_placa_status_agrees_with_rules pasto (lunes 8 0 0) placa_ejemplo
            db_conocida).
  - vm_compute. reflexivity.
  - reflexivity.
Defined.

(** X27. [placa_status] computes [tiene_pico_hoy] from the weekday table
    only.  On a working day with an entry in the override calendar, inside
    the window, a plate with a vehicle row whose last digit is in the entry
    and not in the weekday table gets an answer where [puede_circular_hoy]
    is false, [tiene_pico_hoy] is false, [en_infraccion] is false and the
    message says that there is no restriction today. *)
Theorem X27_placa_status_ignores_the_override
    (G : Config) (clock : datetime) (plate : string) (d : DB)
    (u : Z) (digitos : list Z) :
  let now := Api._now G clock in
  is_Some (vehicles d !! upper plate) →
  ¬ exento G (dt_date now) →
  CALENDARIO_PICO_PLACA_2025 G !! dt_date now = Some digitos →
  last_digit plate = Some u →
  u ∈ digitos →
  u ∉ tabla_semanal G (dt_date now) →
  en_horario G (dt_time now) = true →
  ∃ st consulta motivo,
    Api.placa_status G io_ok clock plate d
    = (d, Return (Api.Registrada st true consulta false false motivo
                    "Hoy no tienes pico y placa, circula con tranquilidad." false)).
Proof.
  intros now Hrow Hex Hcal Hu Hin Hout Hh.
  pose proof (placa_status_spec G clock plate d) as H. simpl in H. fold now in H.
  assert (puede_circular_pasto G clock (upper plate) (Some now)
          = Return (false, motivo_no_puede G (upper plate) u (dia_semana (dt_date now))))
    as Hp.
  { rewrite puede_circular_pasto_no_exento by by rewrite _get_fecha_hora_now.
    rewrite _get_fecha_hora_now. fold now.
    rewrite _ultimo_digito_last_digit, last_digit_upper, Hu. simpl.
    rewrite Hh, andb_true_r. unfold digitos_del_dia. rewrite Hcal.
    by rewrite bool_decide_eq_true_2. }
  assert (pico_segun_tabla G plate (dt_date now) = false) as Hpico.
  { unfold pico_segun_tabla. rewrite Hu.
    rewrite (bool_decide_eq_false_2 _ Hout). apply andb_false_r. }
  destruct (Api.placa_status G io_ok clock plate d) as [d' [[|st det c ok pico m msg inf]|e]].
  - destruct H as (_ & _ & Hn). destruct Hn. by left.
  - destruct H as (-> & _ & -> & -> & Hok & -> & Hmsg).
    rewrite Hp in Hok. simpl in Hok. injection Hok as <-.
    rewrite Hpico in *. rewrite (Hmsg eq_refl).
    rewrite (bool_decide_eq_true_2 _ Hrow). simpl. by eexists _, _, _.
  - destruct H as (_ & _ & He). congruence.
Qed.

(** Friday 28 November 2025, 08:00, and the plate of the example, which
    ends in 0 and is known to the ledger. *)
Lemma X27_witness :
  ∃ st consulta motivo,
    Api.placa_status pasto io_ok viernes_con_override placa_ejemplo db_conocida
    = (db_conocida,
       Return (Api.Registrada st true consulta false false motivo
                 "Hoy no tienes pico y placa, circula con tranquilidad." false)).
Proof.
  apply (X27_placa_status_ignores_the_override pasto viernes_con_override
           placa_ejemplo db_conocida 0 [0; 1]).
  - vm_compute. by eexists.
  - apply no_exento_test. vm_compute. reflexivity.
  - vm_compute. reflexivity.
  - reflexivity.
  - set_solver.
  - apply (bool_decide_eq_false_1 (0 ∈ [8; 9])). vm_compute. reflexivity.
  - reflexivity.
Defined.

(** ** Dates: [date + timedelta(days=k)] *)

Lemma _is_leap_partes n100 n4 n1 :
  0 ≤ n100 ≤ 3 → 0 ≤ n4 ≤ 24 → 0 ≤ n1 ≤ 3 →
  _is_leap (0 * 400 + 1 + n100 * 100 + n4 * 4 + n1)
  = (n1 =? 3) && (negb (n4 =? 24) || (n100 =? 3)).
Proof.
  intros H100 H4 H1.
  assert (n100 = 0 ∨ n100 = 1 ∨ n100 = 2 ∨ n100 = 3) as [->|[->|[->| ->]]] by lia;
    assert (n1 = 0 ∨ n1 = 1 ∨ n1 = 2 ∨ n1 = 3) as [->|[->|[->| ->]]] by lia;
    rewrite <- (Z2Nat.id n4) by lia;
    (assert (Z.to_nat n4 < 25)%nat as Hk by lia);
    revert Hk; generalize (Z.to_nat n4); intros k Hk;
    do 25 (destruct k as [|k]; [reflexivity|]); lia.
Qed.

Lemma _days_before_year_partes n100 n4 n1 :
  0 ≤ n100 ≤ 3 → 0 ≤ n4 ≤ 24 → 0 ≤ n1 ≤ 3 →
  _days_before_year (0 * 400 + 1 + n100 * 100 + n4 * 4 + n1)
  = 36524 * n100 + 1461 * n4 + 365 * n1.
Proof.
  intros H100 H4 H1. unfold _days_before_year. cbv zeta.
  replace (0 * 400 + 1 + n100 * 100 + n4 * 4 + n1 - 1)
    with (100 * n100 + 4 * n4 + n1) by lia.
  rewrite <- (Z.div_unique (100 * n100 + 4 * n4 + n1) 4 (25 * n100 + n4) n1) by lia.
  rewrite <- (Z.div_unique (100 * n100 + 4 * n4 + n1) 100 n100 (4 * n4 + n1)) by lia.
  rewrite <- (Z.div_unique (100 * n100 + 4 * n4 + n1) 400 0 (100 * n100 + 4 * n4 + n1))
    by lia.
  lia.
Qed.

Lemma toordinal_if (c : bool) a b :
  toordinal (if c then a else b) = if c then toordinal a else toordinal b.
Proof. by destruct c. Qed.

Lemma toordinal__ord2ymd_ciclo r :
  0 ≤ r < 146097 → toordinal (_ord2ymd (r + 1)) = r + 1.
Proof.
  intros Hr. unfold _ord2ymd, _DI400Y, _DI100Y, _DI4Y.
  replace (r + 1 - 1) with r by lia.
  rewrite (Z.div_small r 146097), (Z.mod_small r 146097) by lia.
  cbv zeta.
  set (n100 := r / 36524). set (r1 := r mod 36524).
  set (n4 := r1 / 1461). set (r2 := r1 mod 1461).
  set (n1 := r2 / 365). set (r3 := r2 mod 365).
  assert (r = 36524 * n100 + r1 ∧ 0 ≤ r1 < 36524) as [Er Hr1].
  { split; [apply Z.div_mod; lia|apply Z.mod_pos_bound; lia]. }
  assert (r1 = 1461 * n4 + r2 ∧ 0 ≤ r2 < 1461) as [Er1 Hr2].
  { split; [apply Z.div_mod; lia|apply Z.mod_pos_bound; lia]. }
  assert (r2 = 365 * n1 + r3 ∧ 0 ≤ r3 < 365) as [Er2 Hr3].
  { split; [apply Z.div_mod; lia|apply Z.mod_pos_bound; lia]. }
  clearbody n100 r1 n4 r2 n1 r3.
  assert (0 ≤ n100 ≤ 4 ∧ 0 ≤ n4 ≤ 24 ∧ 0 ≤ n1 ≤ 4) as (H100 & H4 & H1) by lia.
  destruct ((n1 =? 4) || (n100 =? 4)) eqn:Hsp.
  - unfold toordinal. cbn [year month day].
    destruct (decide (n100 = 4)) as [->|Hn].
    + assert (r1 = 0) as -> by lia. assert (n4 = 0) as -> by lia.
      assert (r2 = 0) as -> by lia. assert (n1 = 0) as -> by lia.
      subst r. vm_compute. lia.
    + assert (n1 = 4) as -> by lia. assert (n4 ≤ 23) by lia.
      replace (0 * 400 + 1 + n100 * 100 + n4 * 4 + 4 - 1)
        with (0 * 400 + 1 + n100 * 100 + n4 * 4 + 3) by lia.
      rewrite _days_before_year_partes by lia.
      unfold _days_before_month. rewrite _is_leap_partes by lia.
      replace (n4 =? 24) with false by (symmetry; apply Z.eqb_neq; lia).
      change (default 0 (_DAYS_BEFORE_MONTH !! Z.to_nat 12)) with 334. cbn. lia.
  - apply orb_false_iff in Hsp as [Hn1%Z.eqb_neq Hn100%Z.eqb_neq].
    set (b := (n1 =? 3) && (negb (n4 =? 24) || (n100 =? 3))).
    rewrite toordinal_if. unfold toordinal, _days_before_month. cbn [year month day].
    rewrite _is_leap_partes, _days_before_year_partes by lia. fold b.
    clearbody b.
    rewrite Z.shiftr_div_pow2 by lia. change (2 ^ 5) with 32.
    set (m := (r3 + 50) / 32).
    assert (1 ≤ m ≤ 12) as Hm.
    { pose proof (Z.div_mod (r3 + 50) 32 ltac:(lia)).
      pose proof (Z.mod_pos_bound (r3 + 50) 32 ltac:(lia)). subst m. lia. }
    clearbody m.
    assert (m = 1 ∨ m = 2 ∨ m = 3 ∨ m = 4 ∨ m = 5 ∨ m = 6 ∨ m = 7 ∨ m = 8
            ∨ m = 9 ∨ m = 10 ∨ m = 11 ∨ m = 12)
      as [->|[->|[->|[->|[->|[->|[->|[->|[->|[->|[->| ->]]]]]]]]]]] by lia;
      destruct b;
      repeat match goal with
             | |- context [default 0 (?l !! Z.to_nat ?k)] =>
                 let v := eval vm_compute in (default 0 (l !! Z.to_nat k)) in
                 change (default 0 (l !! Z.to_nat k)) with v
             end;
      repeat match goal with
             | |- context [Z.pos ?p - 1] =>
                 let v := eval vm_compute in (Z.pos p - 1) in
                 change (Z.pos p - 1) with v
             end;
      repeat match goal with
             | |- context [(Z.pos ?p <? Z.pos ?q) && ?c] =>
                 let v := eval vm_compute in ((Z.pos p <? Z.pos q) && c) in
                 change ((Z.pos p <? Z.pos q) && c) with v
             | |- context [(Z.pos ?p =? Z.pos ?q) && ?c] =>
                 let v := eval vm_compute in ((Z.pos p =? Z.pos q) && c) in
                 change ((Z.pos p =? Z.pos q) && c) with v
             end;
      cbv iota;
      destruct (r3 <? _) eqn:Hlt; lia.
Qed.

Lemma _ord2ymd_ciclo q r :
  0 ≤ r < 146097 →
  _ord2ymd (q * 146097 + r + 1) = mas_ciclos q (_ord2ymd (r + 1)).
Proof.
  intros Hr. unfold _ord2ymd, mas_ciclos, _DI400Y.
  replace (q * 146097 + r + 1 - 1) with (r + q * 146097) by lia.
  replace (r + 1 - 1) with r by lia.
  rewrite Z.div_add, Z.mod_add by lia.
  rewrite (Z.div_small r 146097), (Z.mod_small r 146097) by lia.
  cbv zeta.
  destruct ((_ =? 4) || (_ =? 4)); cbn [year month day]; [f_equal; lia|].
  destruct (_ <? _); cbn [year month day]; f_equal; lia.
Qed.

Lemma _is_leap_ciclo q y : _is_leap (y + 400 * q) = _is_leap y.
Proof.
  unfold _is_leap.
  replace (y + 400 * q) with (y + (100 * q) * 4) at 1 by lia.
  replace (y + 400 * q) with (y + (4 * q) * 100) at 1 by lia.
  replace (y + 400 * q) with (y + q * 400) by lia.
  by rewrite !Z.mod_add by lia.
Qed.

Lemma toordinal_ciclo q d : toordinal (mas_ciclos q d) = toordinal d + q * 146097.
Proof.
  unfold toordinal, mas_ciclos, _days_before_month, _days_before_year.
  cbn [year month day]. rewrite _is_leap_ciclo. cbv zeta.
  replace (year d + 400 * q - 1) with (year d - 1 + (100 * q) * 4) at 2 by lia.
  replace (year d + 400 * q - 1) with (year d - 1 + (4 * q) * 100) at 2 by lia.
  replace (year d + 400 * q - 1) with (year d - 1 + q * 400) at 2 by lia.
  rewrite !Z.div_add by lia. lia.
Qed.

Lemma toordinal__ord2ymd n : toordinal (_ord2ymd n) = n.
Proof.
  pose proof (Z.div_mod (n - 1) 146097 ltac:(lia)) as Hn.
  pose proof (Z.mod_pos_bound (n - 1) 146097 ltac:(lia)) as Hr.
  set (q := (n - 1) / 146097) in *. set (r := (n - 1) mod 146097) in *.
  replace n with (q * 146097 + r + 1) by lia.
  rewrite _ord2ymd_ciclo, toordinal_ciclo, toordinal__ord2ymd_ciclo by done. lia.
Qed.

Lemma date_add_days_toordinal d k dia :
  date_add_days d k = inr dia → toordinal dia = toordinal d + k.
Proof.
  unfold date_add_days. destruct (_ && _); [|done].
  intros [= <-]. apply toordinal__ord2ymd.
Qed.

(** ** chatbot/chatbot.py: the next restricted day *)

Lemma date_add_days_raise d k e :
  date_add_days d k = inl e → ¬ (0 < toordinal d + k ≤ _MAXORDINAL).
Proof.
  unfold date_add_days.
  destruct (0 <? toordinal d + k) eqn:H1; destruct (toordinal d + k <=? _MAXORDINAL) eqn:H2;
    simpl; intros [=]; lia.
Qed.

Lemma dia_de_pico_test G u dia :
  negb (bool_decide (dia_semana dia ∈ ["SABADO"; "DOMINGO"])
        || bool_decide (dia ∈ FESTIVOS_2025 G))
  && bool_decide (u ∈ tabla_semanal G dia) = true
  ↔ dia_de_pico G u dia.
Proof.
  unfold dia_de_pico.
  rewrite andb_true_iff, negb_true_iff, exento_dec, bool_decide_eq_true. done.
Qed.

Lemma buscar_proximo_seq G u base s n :
  match Chatbot.buscar_proximo G u base (Z.of_nat <$> seq s n) with
  | inr (Some (dia, dia_es)) =>
      ∃ k : nat, (s ≤ k < s + n)%nat
        ∧ date_add_days base (Z.of_nat k) = inr dia
        ∧ dia_es = dia_semana dia ∧ dia_de_pico G u dia
        ∧ ∀ j : nat, (s ≤ j < k)%nat →
            ∃ dj, date_add_days base (Z.of_nat j) = inr dj ∧ ¬ dia_de_pico G u dj
  | inr None =>
      ∀ j : nat, (s ≤ j < s + n)%nat →
        ∃ dj, date_add_days base (Z.of_nat j) = inr dj ∧ ¬ dia_de_pico G u dj
  | inl OverflowError =>
      ∃ k : nat, (s ≤ k < s + n)%nat
        ∧ ¬ (0 < toordinal base + Z.of_nat k ≤ _MAXORDINAL)
  end.
Proof.
  revert s. induction n as [|n IH]; intros s; [simpl; intros; lia|].
  cbn [seq fmap list_fmap Chatbot.buscar_proximo].
  destruct (date_add_days base (Z.of_nat s)) as [[]|dia] eqn:Hd.
  - apply date_add_days_raise in Hd. exists s. split; [lia|done].
  - rewrite DIA_MAP_strftime. cbn [default from_option id].
    fold (tabla_semanal G dia).
    pose proof (dia_de_pico_test G u dia) as Ht.
    specialize (IH (S s)).
    assert (Hnext :
      ¬ dia_de_pico G u dia →
      match Chatbot.buscar_proximo G u base (Z.of_nat <$> seq (S s) n) with
      | inr (Some (dia, dia_es)) =>
          ∃ k : nat, (s ≤ k < s + S n)%nat
            ∧ date_add_days base (Z.of_nat k) = inr dia
            ∧ dia_es = dia_semana dia ∧ dia_de_pico G u dia
            ∧ ∀ j : nat, (s ≤ j < k)%nat →
                ∃ dj, date_add_days base (Z.of_nat j) = inr dj
                      ∧ ¬ dia_de_pico G u dj
      | inr None =>
          ∀ j : nat, (s ≤ j < s + S n)%nat →
            ∃ dj, date_add_days base (Z.of_nat j) = inr dj ∧ ¬ dia_de_pico G u dj
      | inl OverflowError =>
          ∃ k : nat, (s ≤ k < s + S n)%nat
            ∧ ¬ (0 < toordinal base + Z.of_nat k ≤ _MAXORDINAL)
      end).
    { intros Hno.
      destruct (Chatbot.buscar_proximo G u base (Z.of_nat <$> seq (S s) n))
        as [[]|[[dia' es']|]].
      - destruct IH as (k & Hk & Hout). exists k. split; [lia|done].
      - destruct IH as (k & Hk & Hdk & Hes & Hp & Hbefore).
        exists k. split; [lia|]. do 3 (split; [done|]).
        intros j Hj. destruct (decide (j = s)) as [->|]; [by exists dia|].
        apply Hbefore. lia.
      - intros j Hj. destruct (decide (j = s)) as [->|]; [by exists dia|].
        apply IH. lia. }
    destruct (bool_decide (dia_semana dia ∈ ["SABADO"; "DOMINGO"])
              || bool_decide (dia ∈ FESTIVOS_2025 G)) eqn:Hex.
    + apply Hnext. rewrite <- Ht. by simpl.
    + destruct (bool_decide (u ∈ tabla_semanal G dia)) eqn:Hin.
      * exists s. split; [lia|]. split; [done|]. split; [done|].
        split; [by apply Ht|]. intros j Hj. lia.
      * apply Hnext. rewrite <- Ht. by simpl.
Qed.

(** X28. [_proximo_pico_placa] returns the first day, among the days
    [start .. 14] after the date of [desde] ([start] is 0 when today is
    included, else 1), that is neither weekend nor holiday and whose
    weekday table holds the digit, together with its Spanish day name; it
    returns [None] when no day of that range is one; it raises
    [OverflowError] only when a day of the range is outside the dates Python
    has. *)
Theorem X28_proximo_pico_placa_is_first_restricted_day
    (G : Config) (u : Z) (desde : datetime) (incluir_hoy : bool) :
  let base := dt_date desde in
  let start := if incluir_hoy then 0 else 1 in
  match Chatbot._proximo_pico_placa G (Some u) desde incluir_hoy with
  | inr (Some (dia, dia_es)) =>
      ∃ k, start ≤ k < 15
        ∧ date_add_days base k = inr dia
        ∧ toordinal dia = toordinal base + k
        ∧ dia_es = dia_semana dia ∧ dia_de_pico G u dia
        ∧ ∀ j, start ≤ j < k →
            ∃ dj, date_add_days base j = inr dj ∧ ¬ dia_de_pico G u dj
  | inr None =>
      ∀ j, start ≤ j < 15 →
        ∃ dj, date_add_days base j = inr dj ∧ ¬ dia_de_pico G u dj
  | inl OverflowError =>
      ∃ k, start ≤ k < 15 ∧ ¬ (0 < toordinal base + k ≤ _MAXORDINAL)
  end.
Proof.
  intros base start. unfold Chatbot._proximo_pico_placa, Chatbot.offsets_desde.
  fold base.
  set (s := if incluir_hoy then 0%nat else 1%nat).
  assert (start = Z.of_nat s) as Hs by (subst start s; by destruct incluir_hoy).
  assert (s ≤ 1)%nat as Hs1 by (subst s; destruct incluir_hoy; lia).
  pose proof (buscar_proximo_seq G u base s (15 - s)) as H.
  destruct (Chatbot.buscar_proximo G u base (Z.of_nat <$> seq s (15 - s)))
    as [[]|[[dia es]|]].
  - destruct H as (k & Hk & Hout). exists (Z.of_nat k). split; [lia|done].
  - destruct H as (k & Hk & Hdk & Hes & Hp & Hbefore).
    exists (Z.of_nat k). split; [lia|]. split; [done|].
    split; [by apply date_add_days_toordinal|]. do 2 (split; [done|]).
    intros j Hj. rewrite <- (Z2Nat.id j) by lia. apply Hbefore. lia.
  - intros j Hj. rewrite <- (Z2Nat.id j) by lia. apply H. lia.
Qed.

(** From Sunday 22 June 2025 the next fourteen days hold two Mondays, both
    holidays: no day is found for a plate ending in 0. *)
Example proximo_pico_placa_sin_dia :
  Chatbot._proximo_pico_placa pasto (Some 0) domingo_de_junio false = inr None.
Proof. vm_compute. reflexivity. Qed.

Lemma _proximo_pico_placa_dia G u desde incluir_hoy dia dia_es :
  Chatbot._proximo_pico_placa G (Some u) desde incluir_hoy = inr (Some (dia, dia_es)) →
  dia_de_pico G u dia.
Proof.
  unfold Chatbot._proximo_pico_placa, Chatbot.offsets_desde. intros Hr.
  pose proof (buscar_proximo_seq G u (dt_date desde)
                (if incluir_hoy then 0%nat else 1%nat)
                (15 - (if incluir_hoy then 0%nat else 1%nat))) as H.
  rewrite Hr in H. by destruct H as (_ & _ & _ & _ & ? & _).
Qed.

(** X29. The day [_proximo_pico_placa] announces for a digit is a day on
    which the rules refuse a plate with that last digit inside the window,
    provided the override calendar has no entry for that day (the search
    reads the weekday table only). *)
Theorem X29_announced_day_is_enforced
    (G : Config) (u : Z) (desde : datetime) (incluir_hoy : bool)
    (dia : date) (dia_es : string) (clock : datetime) (placa : string) (hora : time) :
  Chatbot._proximo_pico_placa G (Some u) desde incluir_hoy = inr (Some (dia, dia_es)) →
  DEMO_MODE G = false →
  CALENDARIO_PICO_PLACA_2025 G !! dia = None →
  last_digit placa = Some u →
  en_horario G hora = true →
  fst <$> puede_circular_pasto G clock placa (Some (DateTime dia hora)) = Return false.
Proof.
  intros Hr Hdemo Hcal Hu Hh.
  apply _proximo_pico_placa_dia in Hr as [Hex Hin].
  assert (_get_fecha_hora G clock (Some (DateTime dia hora)) = DateTime dia hora) as Hf.
  { unfold _get_fecha_hora. by rewrite Hdemo. }
  rewrite puede_circular_pasto_no_exento by by rewrite Hf.
  rewrite Hf. cbn [dt_date dt_time].
  rewrite _ultimo_digito_last_digit, Hu. simpl. rewrite Hh, andb_true_r.
  unfold digitos_del_dia. rewrite Hcal. fold (tabla_semanal G dia).
  by rewrite bool_decide_eq_true_2.
Qed.

(** Asked on Monday 10 November 2025 with today included, the digit 0 gets
    that Monday, and the plate of the example is refused on it at 08:00. *)
Lemma X29_witness :
  fst <$> puede_circular_pasto pasto reloj placa_ejemplo
            (Some (DateTime (Date 2025 11 10) (Time 8 0 0 0))) = Return false.
Proof.
  apply (X29_announced_day_is_enforced pasto 0 (lunes 8 0 0) true
           (Date 2025 11 10) "LUNES" reloj placa_ejemplo (Time 8 0 0 0)).
  - vm_compute. reflexivity.
  - reflexivity.
  - vm_compute. reflexivity.
  - reflexivity.
  - reflexivity.
Defined.

(** ** chat_qa_pico_placa.py: the ledger helper *)

(** X30. With SQLite working, [_info_placa_bd] returns [None] exactly for
    a plate that, in upper case, has neither a vehicle row nor a violation
    row; for any other plate it returns the plate's status with a colour
    filled in and the number of its violation rows.  It never writes. *)
Theorem X30_info_placa_bd (placa : string) (d : DB) :
  let r := ChatQa._info_placa_bd io_ok placa d in
  r.1 = d
  ∧ match r.2 with
    | Return None => ¬ conocida (upper placa) d
    | Return (Some st) =>
        conocida (upper placa) d
        ∧ st_plate st = upper placa
        ∧ is_Some (st_color st)
        ∧ st_first_seen st = first_seen <$> vehicles d !! upper placa
        ∧ st_last_seen st = last_seen <$> vehicles d !! upper placa
        ∧ st_violations st = length (violaciones_de (upper placa) d)
    | Raise _ => False
    end.
Proof.
  run_Api. rewrite get_plate_status_run.
  destruct (decide (io_ok = io_ok)) as [_|]; [|done].
  cbn [st_first_seen st_last_seen st_violations st_color st_plate].
  destruct (_ && _ && _) eqn:Hc; simpl.
  - split; [done|]. rewrite <- conocida_test. by rewrite Hc.
  - apply conocida_test in Hc. split; [done|]. split; [done|]. split; [done|].
    split; [|done]. by destruct (v_color <$> vehicles d !! upper placa).
Qed.
